(** * The todo-list engine: merge, date assignment, pagination, validation

    A shallow embedding of the JavaScript sources
    - [assets/js/services/TodoService.js]   (module [TodoService]),
    - [assets/js/utils/dateUtils.js]        (module [DateUtils]),
    - [assets/js/components/Pagination.js]  (module [Pagination]),
    - [assets/js/components/DateFilter.js]  (module [DateFilter]),
    - [assets/js/utils/validators.js]       (module [Validators]),
    - [assets/js/components/TodoForm.js]    (module [TodoForm]),
    - [assets/js/config.js]                 (module [Config]),
    followed by the properties of the engine's specification.  What the
    sources do to the page (classes, messages, rendering) and to the
    console is left out; what they compute, store and call back is kept.

    Conventions of the embedding.
    - A JavaScript number that holds an identifier, a count or an epoch
      time is a [Z].  A [Date], and the ISO-8601 string [toISOString]
      makes of it, is the [Z] of its milliseconds since the epoch: the
      string is never empty, so it is truthy, and it round-trips through
      [new Date].
    - Calendar arithmetic ([setDate], [setHours]) is taken in a zone with
      no daylight saving (UTC): one day is [MS_PER_DAY] milliseconds.
    - A property that may be absent ([undefined]) is an [option].
    - [localStorage] is a record of its keys; a key is missing, holds text
      that [JSON.parse] rejects, or holds a parsed value; [setItem] may
      throw (quota), which the sources catch.
    - The system clock is an oracle: [clock s k] is the k-th reading, a
      time after the epoch. *)

From Stdlib Require Import ZArith Lia.
From stdpp Require Import gmap strings list sorting pretty.

Local Open Scope Z_scope.

(** ** JavaScript values and operators *)

(** Milliseconds since the epoch. *)
Abbreviation Timestamp := Z (only parsing).

Definition MS_PER_DAY : Z := 86400000.

(** [a || b] on numbers: [0] and [undefined] are falsy. *)
Definition or_num (a : option Z) (b : Z) : Z :=
  match a with
  | Some n => if n =? 0 then b else n
  | None => b
  end.

(** [a || b] on strings that may be absent: the empty string is falsy. *)
Definition or_str (a b : option string) : option string :=
  match a with
  | Some s => if String.eqb s "" then b else a
  | None => b
  end.

(** [v !== undefined ? v : false] *)
Definition or_false (v : option bool) : bool :=
  match v with Some b => b | None => false end.

(** [setHours(0, 0, 0, 0)] and [setHours(23, 59, 59, 999)]. *)
Definition startOfDay (t : Timestamp) : Timestamp := (t / MS_PER_DAY) * MS_PER_DAY.
Definition endOfDay (t : Timestamp) : Timestamp := startOfDay t + MS_PER_DAY - 1.

(** [String.prototype.trim], on the whitespace of the ASCII range. *)
Definition is_space (c : Ascii.ascii) : bool :=
  let n := Ascii.nat_of_ascii c in
  ((9 <=? n) && (n <=? 13))%nat || (n =? 32)%nat.

Fixpoint trim_start (s : string) : string :=
  match s with
  | EmptyString => EmptyString
  | String c s' => if is_space c then trim_start s' else s
  end.

Fixpoint trim_end (s : string) : string :=
  match s with
  | EmptyString => EmptyString
  | String c s' =>
      match trim_end s' with
      | EmptyString => if is_space c then EmptyString else String c EmptyString
      | r => String c r
      end
  end.

Definition trim (s : string) : string := trim_end (trim_start s).

(** [String.prototype.toLowerCase], on the letters of the ASCII range. *)
Definition lower (c : Ascii.ascii) : Ascii.ascii :=
  let n := Ascii.nat_of_ascii c in
  if ((65 <=? n) && (n <=? 90))%nat then Ascii.ascii_of_nat (n + 32) else c.

Fixpoint toLowerCase (s : string) : string :=
  match s with
  | EmptyString => EmptyString
  | String c s' => String (lower c) (toLowerCase s')
  end.

(** [s.includes(searchString)] *)
Fixpoint includes (s searchString : string) : bool :=
  String.prefix searchString s
  || match s with
     | EmptyString => false
     | String _ s' => includes s' searchString
     end.

(** [array.slice(start, end)] *)
Definition slice {A} (startIndex endIndex : Z) (l : list A) : list A :=
  let len := Z.of_nat (length l) in
  let k := if startIndex <? 0 then Z.max (len + startIndex) 0 else Z.min startIndex len in
  let final := if endIndex <? 0 then Z.max (len + endIndex) 0 else Z.min endIndex len in
  take (Z.to_nat (final - k)) (drop (Z.to_nat k) l).

(** A value that is not [null]. *)
Definition isSome {A} (v : option A) : bool :=
  match v with Some _ => true | None => false end.

(** ** Records of the application *)

(** An item as the remote source sends it; every property may be absent. *)
Record RawTodo := {
  r_id : option Z;
  r_todo : option string;
  r_title : option string;
  r_completed : option bool;
  r_userId : option Z
}.

(** A todo as the engine holds and stores it.  [isLocal], [fromApi],
    [savedAt] and [updatedAt] are absent on a freshly normalised item. *)
Record Todo := {
  id : Z;
  title : option string;
  completed : bool;
  userId : option Z;
  createdAt : option Timestamp;
  isLocal : option bool;
  fromApi : option bool;
  savedAt : option Timestamp;
  updatedAt : option Timestamp
}.

#[global] Instance RawTodo_eq_dec : EqDecision RawTodo.
Proof. solve_decision. Defined.
#[global] Instance Todo_eq_dec : EqDecision Todo.
Proof. solve_decision. Defined.

(** ** Persistent storage and the clock *)

Inductive Item (A : Type) : Type :=
  | Missing                 (* getItem returns null *)
  | Corrupt                 (* the text does not parse: JSON.parse throws *)
  | Parsed (a : A).
Arguments Missing {A}.
Arguments Corrupt {A}.
Arguments Parsed {A} a.

Record LocalStorage := {
  todo_app_creation_dates : Item (gmap Z Timestamp);
  todo_app_local_todos : Item (list Todo);
  todo_creation_dates : Item (gmap Z Timestamp);
  writable : bool           (* false: setItem throws *)
}.

Record State := {
  clock : nat -> positive;              (* readings lie after the epoch *)
  reads : nat;
  creationDates : gmap Z Timestamp;     (* this.creationDates *)
  storage : LocalStorage
}.

Inductive Exn :=
  | TypeError | RangeError | SyntaxError | QuotaExceededError
  | TIMEOUT | OFFLINE | CONNECTION_REFUSED | NETWORK_ERROR
  | HttpError (status : Z).

Inductive Completion (A : Type) : Type :=
  | Return (a : A)
  | Throw (e : Exn).
Arguments Return {A} a.
Arguments Throw {A} e.

(** Computations over the state that return or throw. *)
Definition JS (A : Type) : Type := State -> Completion A * State.

Definition ret {A} (a : A) : JS A := fun s => (Return a, s).
Definition throw {A} (e : Exn) : JS A := fun s => (Throw e, s).
Definition bind {A B} (c : JS A) (k : A -> JS B) : JS B :=
  fun s =>
    match c s with
    | (Return a, s') => k a s'
    | (Throw e, s') => (Throw e, s')
    end.
Definition try_catch {A} (c : JS A) (h : Exn -> JS A) : JS A :=
  fun s =>
    match c s with
    | (Return a, s') => (Return a, s')
    | (Throw e, s') => h e s'
    end.

Notation "'let*' x ':=' c 'in' k" := (bind c (fun x => k))
  (at level 10, x name, c at level 100, k at level 200).

(** [new Date()], [Date.now()]: take the next reading of the clock. *)
Definition now : JS Timestamp :=
  fun s => (Return (Z.pos (clock s (reads s))),
            {| clock := clock s; reads := S (reads s);
               creationDates := creationDates s; storage := storage s |}).

Definition get_storage : JS LocalStorage := fun s => (Return (storage s), s).
Definition put_storage (ls : LocalStorage) : JS unit :=
  fun s => (Return tt,
            {| clock := clock s; reads := reads s;
               creationDates := creationDates s; storage := ls |}).
Definition get_creationDates : JS (gmap Z Timestamp) :=
  fun s => (Return (creationDates s), s).
Definition put_creationDates (m : gmap Z Timestamp) : JS unit :=
  fun s => (Return tt,
            {| clock := clock s; reads := reads s;
               creationDates := m; storage := storage s |}).

(** [JSON.parse(localStorage.getItem(key))] where a missing key yields
    the given default. *)
Definition parse_or {A} (i : Item A) (dflt : A) : JS A :=
  match i with
  | Missing => ret dflt
  | Corrupt => throw SyntaxError
  | Parsed a => ret a
  end.

(** The trimmed text of a date input, with what [new Date(text)] makes
    of it: the empty string, a text that gives an invalid date, or a
    text that gives the date [t]. *)
Inductive DateText :=
  | Blank
  | Unparseable
  | DateString (t : Timestamp).

(** ** dateUtils.js *)
Module DateUtils.

(** [generateCreationDate(todoId)] *)
Definition generateCreationDate (todoId : Z) : JS Timestamp :=
  let* today := now in
  let baseDate := today - 30 * MS_PER_DAY in
  let daysToAdd := Z.rem todoId 30 in
  ret (baseDate + daysToAdd * MS_PER_DAY).

(** [saveCreationDate(todoId, date)] *)
Definition saveCreationDate (todoId : Z) (date : Timestamp) : JS unit :=
  try_catch
    (let* ls := get_storage in
     let* dates := parse_or (todo_creation_dates ls) ∅ in
     let dates' := <[todoId := date]> dates in
     if writable ls
     then put_storage {| todo_app_creation_dates := todo_app_creation_dates ls;
                         todo_app_local_todos := todo_app_local_todos ls;
                         todo_creation_dates := Parsed dates';
                         writable := writable ls |}
     else throw QuotaExceededError)
    (fun _ => ret tt).

(** [getCreationDate(todoId)] *)
Definition getCreationDate (todoId : Z) : JS Timestamp :=
  try_catch
    (let* ls := get_storage in
     let* dates := parse_or (todo_creation_dates ls) ∅ in
     match dates !! todoId with
     | Some d => ret d
     | None =>
         let* newDate := generateCreationDate todoId in
         let* _ := saveCreationDate todoId newDate in
         ret newDate
     end)
    (fun _ => generateCreationDate todoId).

(** A value handed to the date functions: [null], a text, or a [Date]
    object, which is invalid ([None]) or holds a time. *)
Inductive DateArg :=
  | NullDate
  | TextDate (text : DateText)
  | DateObj (d : option Timestamp).

(** [isValidDate(date)] *)
Definition isValidDate (date : DateArg) : bool :=
  match date with
  | NullDate => false
  | TextDate Blank => false
  | TextDate Unparseable => false
  | TextDate (DateString _) => true
  | DateObj d => bool_decide (is_Some d)
  end.

(** What [compareDates] comes to: it throws an [Error] with a message,
    or a TypeError, or returns the order. *)
Inductive Compared :=
  | ThrowsError (message : string)
  | ThrowsTypeError
  | Order (c : Z).

(** [compareDates(date1, date2)].  A text has no [getTime]: calling it
    throws a TypeError. *)
Definition compareDates (date1 date2 : DateArg) : Compared :=
  if negb (isValidDate date1) || negb (isValidDate date2)
  then ThrowsError "Invalid date provided for comparison"
  else
    match date1, date2 with
    | DateObj (Some time1), DateObj (Some time2) =>
        if time1 <? time2 then Order (-1)
        else if time2 <? time1 then Order 1
        else Order 0
    | _, _ => ThrowsTypeError
    end.

(** [isDateInRange(date, startDate, endDate)], for a [Date] and limits
    that are [null] ([None]) or [Date] objects. *)
Definition isDateInRange (date : option Timestamp)
    (startDate endDate : option (option Timestamp)) : bool :=
  if negb (isValidDate (DateObj date)) then false
  else
    match date with
    | None => false
    | Some d =>
        let targetDate := startOfDay d in
        let tooEarly :=
          match startDate with
          | Some (Some start) => targetDate <? startOfDay start
          | _ => false
          end in
        if tooEarly then false
        else
          let tooLate :=
            match endDate with
            | Some (Some e) => endOfDay e <? targetDate
            | _ => false
            end in
          if tooLate then false else true
    end.

(** [validateDateRange(startDate, endDate)] of dateUtils.js: whether the
    range is valid, and the message.  An invalid [Date] compares false. *)
Definition validateDateRange (startDate endDate : option (option Timestamp))
  : bool * string :=
  match startDate, endDate with
  | None, None => (true, "")
  | None, Some _ | Some _, None => (true, "")
  | Some start, Some e =>
      match start, e with
      | Some t1, Some t2 =>
          if t2 <? t1 then (false, "Start date must be before end date")
          else (true, "")
      | _, _ => (true, "")
      end
  end.

(** [clearCreationDates()] *)
Definition clearCreationDates : JS unit :=
  try_catch
    (let* ls := get_storage in
     put_storage {| todo_app_creation_dates := todo_app_creation_dates ls;
                    todo_app_local_todos := todo_app_local_todos ls;
                    todo_creation_dates := Missing;
                    writable := writable ls |})
    (fun _ => ret tt).

End DateUtils.

(** ** config.js *)
Module Config.
Definition itemsPerPage : Z := 10.
Definition maxVisiblePages : Z := 5.
Definition defaultUserId : Z := 1.
End Config.

(** What a request of [ApiService] settles to. *)
Inductive ApiOutcome (A : Type) : Type :=
  | Resolved (a : A)
  | Rejected (e : Exn).
Arguments Resolved {A} a.
Arguments Rejected {A} e.

Definition await {A} (o : ApiOutcome A) : JS A :=
  match o with
  | Resolved a => ret a
  | Rejected e => throw e
  end.

(** [array.map(f)] and [array.forEach(f)] with a callback that acts on
    the state. *)
Fixpoint mapM {A B} (f : A -> JS B) (l : list A) : JS (list B) :=
  match l with
  | [] => ret []
  | x :: xs =>
      let* y := f x in
      let* ys := mapM f xs in
      ret (y :: ys)
  end.

Fixpoint forEach {A} (f : A -> JS unit) (l : list A) : JS unit :=
  match l with
  | [] => ret tt
  | x :: xs => let* _ := f x in forEach f xs
  end.

(** [a || b] on a property that may be absent, for object spread. *)
Definition or_else {A} (a b : option A) : option A :=
  match a with Some _ => a | None => b end.

(** ** TodoService.js *)
Module TodoService.

(** The body of a list response.  The [todos] property is absent (or
    falsy), or truthy but no array, or an array whose items may be null. *)
Inductive TodosField :=
  | NoTodos
  | NotAnArray
  | TodoItems (items : list (option RawTodo)).

Inductive Response :=
  | RespArray (items : list (option RawTodo))
  | RespObject (todos : TodosField) (total limit skip : option Z)
  | RespNull.

Record PageInfo := { total : Z; limit : Z; skip : Z }.

Record FetchResult := { todos : list Todo; pagination : PageInfo }.

Record FetchOptions := { page : option Z; opt_limit : option Z }.

Record TodoData := {
  d_title : option string;
  d_todo : option string;
  d_completed : option bool;
  d_userId : option Z
}.

(** [_loadCreationDates()] *)
Definition _loadCreationDates : JS (gmap Z Timestamp) :=
  try_catch
    (let* ls := get_storage in
     parse_or (todo_app_creation_dates ls) ∅)
    (fun _ => ret ∅).

(** [constructor]: [this.creationDates = this._loadCreationDates()] *)
Definition constructor : JS unit :=
  let* dates := _loadCreationDates in
  put_creationDates dates.

(** [_saveCreationDates()] *)
Definition _saveCreationDates : JS unit :=
  try_catch
    (let* ls := get_storage in
     let* dates := get_creationDates in
     if writable ls
     then put_storage {| todo_app_creation_dates := Parsed dates;
                         todo_app_local_todos := todo_app_local_todos ls;
                         todo_creation_dates := todo_creation_dates ls;
                         writable := writable ls |}
     else throw QuotaExceededError)
    (fun _ => ret tt).

(** [_getOrCreateTodoDate(todoId)] *)
Definition _getOrCreateTodoDate (todoId : Z) : JS Timestamp :=
  let* dates := get_creationDates in
  match dates !! todoId with
  | Some d => ret d
  | None =>
      let* today := now in
      let daysAgo := Z.rem todoId 30 in
      let creationDate := today - daysAgo * MS_PER_DAY in
      let* _ := put_creationDates (<[todoId := creationDate]> dates) in
      let* _ := _saveCreationDates in
      ret creationDate
  end.

(** [_transformTodoItem(todo)].  Reading a property of [null] throws a
    TypeError; an item without [id] gets an invalid date, on which
    [toISOString] throws a RangeError. *)
Definition _transformTodoItem (todo : option RawTodo) : JS Todo :=
  match todo with
  | None => throw TypeError
  | Some t =>
      match r_id t with
      | None => throw RangeError
      | Some i =>
          let* date := _getOrCreateTodoDate i in
          ret {| id := i;
                 title := or_str (r_todo t) (r_title t);
                 completed := or_false (r_completed t);
                 userId := r_userId t;
                 createdAt := Some date;
                 isLocal := None; fromApi := None;
                 savedAt := None; updatedAt := None |}
      end
  end.

(** [_transformTodosResponse(response)] *)
Definition _transformTodosResponse (response : Response) : JS FetchResult :=
  match response with
  | RespNull => throw TypeError
  | RespArray items =>
      let* transformedTodos := mapM _transformTodoItem items in
      ret {| todos := transformedTodos;
             pagination := {| total := Z.of_nat (length items);
                              limit := Z.of_nat (length items);
                              skip := 0 |} |}
  | RespObject field total limit skip =>
      match field with
      | NotAnArray => throw TypeError
      | NoTodos | TodoItems _ =>
          let items := match field with TodoItems l => l | _ => [] end in
          let* transformedTodos := mapM _transformTodoItem items in
          ret {| todos := transformedTodos;
                 pagination := {| total := or_num total (Z.of_nat (length items));
                                  limit := or_num limit Config.itemsPerPage;
                                  skip := or_num skip 0 |} |}
      end
  end.

(** [{ ...old, ...todo, updatedAt: t }]: every caller passes [id],
    [title], [completed], [userId] and [createdAt]. *)
Definition spread_update (old todo : Todo) (t : Timestamp) : Todo :=
  {| id := id todo; title := title todo; completed := completed todo;
     userId := userId todo; createdAt := createdAt todo;
     isLocal := or_else (isLocal todo) (isLocal old);
     fromApi := or_else (fromApi todo) (fromApi old);
     savedAt := or_else (savedAt todo) (savedAt old);
     updatedAt := Some t |}.

(** [{ ...todo, savedAt: t }] *)
Definition with_savedAt (todo : Todo) (t : Timestamp) : Todo :=
  {| id := id todo; title := title todo; completed := completed todo;
     userId := userId todo; createdAt := createdAt todo;
     isLocal := isLocal todo; fromApi := fromApi todo;
     savedAt := Some t; updatedAt := updatedAt todo |}.

(** [{ ...todo, fromApi: true }] *)
Definition with_fromApi (todo : Todo) : Todo :=
  {| id := id todo; title := title todo; completed := completed todo;
     userId := userId todo; createdAt := createdAt todo;
     isLocal := isLocal todo; fromApi := Some true;
     savedAt := savedAt todo; updatedAt := updatedAt todo |}.

(** [localTodos.findIndex(t => t.id === todo.id)] *)
Fixpoint findIndex (i : Z) (l : list Todo) : option nat :=
  match l with
  | [] => None
  | t :: l' => if id t =? i then Some O else S <$> findIndex i l'
  end.

(** [_saveLocalTodo(todo)] *)
Definition _saveLocalTodo (todo : Todo) : JS unit :=
  try_catch
    (if id todo =? 0 then ret tt
     else
       let* ls := get_storage in
       let* localTodos := parse_or (todo_app_local_todos ls) [] in
       let* stamp := now in
       let localTodos' :=
         match findIndex (id todo) localTodos with
         | Some existingIndex =>
             match localTodos !! existingIndex with
             | Some old => <[existingIndex := spread_update old todo stamp]> localTodos
             | None => localTodos
             end
         | None => localTodos ++ [with_savedAt todo stamp]
         end in
       if writable ls
       then put_storage {| todo_app_creation_dates := todo_app_creation_dates ls;
                           todo_app_local_todos := Parsed localTodos';
                           todo_creation_dates := todo_creation_dates ls;
                           writable := writable ls |}
       else throw QuotaExceededError)
    (fun _ => ret tt).

(** [new Date(a.createdAt || a.savedAt || 0)] *)
Definition sortDate (a : Todo) : Timestamp :=
  match createdAt a with
  | Some c => c
  | None => match savedAt a with Some v => v | None => 0 end
  end.

(** [todos.sort((a, b) => bDate - aDate)]: the sort of an array is
    stable, so of two todos of one date the earlier stays first. *)
Fixpoint insert_newest (a : Todo) (l : list Todo) : list Todo :=
  match l with
  | [] => [a]
  | b :: l' => if sortDate b <=? sortDate a then a :: b :: l'
               else b :: insert_newest a l'
  end.

Definition sort_newest_first (l : list Todo) : list Todo :=
  foldr insert_newest [] l.

(** [_getLocalTodos(options)] without [sortBy], as its one caller has it. *)
Definition _getLocalTodos (onlyLocal : bool) : JS (list Todo) :=
  try_catch
    (let* ls := get_storage in
     let* stored := parse_or (todo_app_local_todos ls) [] in
     let kept := if onlyLocal
                 then List.filter (fun todo => bool_decide (isLocal todo = Some true)) stored
                 else stored in
     ret (sort_newest_first kept))
    (fun _ => ret []).

(** [fetchTodos(options)], given what [this.apiService.get] settles to. *)
Definition fetchTodos (options : FetchOptions) (remote : ApiOutcome Response)
  : JS FetchResult :=
  let page := or_num (page options) 1 in
  let limit := or_num (opt_limit options) Config.itemsPerPage in
  let skip := (page - 1) * limit in
  try_catch
    (let* localTodos := _getLocalTodos false in
     try_catch
       (let* response := await remote in
        let* transformedData := _transformTodosResponse response in
        let* _ :=
          forEach
            (fun todo =>
               if negb (existsb (fun lt => id lt =? id todo) localTodos)
               then _saveLocalTodo (with_fromApi todo)
               else ret tt)
            (todos transformedData) in
        let uniqueLocalTodos :=
          List.filter
            (fun localTodo =>
               negb (existsb (fun apiTodo => id apiTodo =? id localTodo)
                       (todos transformedData)))
            localTodos in
        if (0 <? length uniqueLocalTodos)%nat
        then ret {| todos := uniqueLocalTodos ++ todos transformedData;
                    pagination :=
                      {| total := total (pagination transformedData)
                                  + Z.of_nat (length uniqueLocalTodos);
                         limit := TodoService.limit (pagination transformedData);
                         skip := TodoService.skip (pagination transformedData) |} |}
        else ret transformedData)
       (fun apiError =>
          ret {| todos := localTodos;
                 pagination := {| total := Z.of_nat (length localTodos);
                                  limit := limit;
                                  skip := 0 |} |}))
    (fun error => throw error).

(** [addTodo(todoData)], given what [this.apiService.post] settles to. *)
Definition addTodo (todoData : TodoData) (remote : ApiOutcome (option RawTodo))
  : JS Todo :=
  try_catch
    (let apiData_todo := or_str (d_title todoData) (d_todo todoData) in
     let apiData_completed := or_false (d_completed todoData) in
     let apiData_userId := or_num (d_userId todoData) Config.defaultUserId in
     try_catch
       (let* response := await remote in
        let* transformedTodo := _transformTodoItem response in
        let* _ := _saveLocalTodo (with_fromApi transformedTodo) in
        ret transformedTodo)
       (fun apiError =>
          let* stamp := now in
          let* created := now in
          let fallbackTodo :=
            {| id := stamp;
               title := apiData_todo;
               completed := apiData_completed;
               userId := Some apiData_userId;
               createdAt := Some created;
               isLocal := Some true; fromApi := None;
               savedAt := None; updatedAt := None |} in
          let* _ := _saveLocalTodo fallbackTodo in
          ret fallbackTodo))
    (fun error => throw error).

End TodoService.

(** ** Pagination.js *)
Module Pagination.

Record Options := { o_itemsPerPage : option Z; o_totalItems : option Z }.

Record t := {
  itemsPerPage : Z;
  totalItems : Z;
  currentPage : Z;
  previousPage : Z
}.

(** [Math.ceil(a / b)] on integers, for a divisor of either sign. *)
Definition ceil_div (a b : Z) : Z := - ((- a) / b).

(** [get totalPages()] *)
Definition totalPages (p : t) : Z :=
  Z.max 1 (ceil_div (totalItems p) (itemsPerPage p)).

(** [constructor(options)] *)
Definition constructor (options : Options) : t :=
  {| itemsPerPage := or_num (o_itemsPerPage options) 10;
     totalItems := or_num (o_totalItems options) 0;
     currentPage := 1;
     previousPage := 1 |}.

(** [goToPage(pageNumber)]; the second component is the argument of the
    call of [onPageChange], if it is called. *)
Definition goToPage (pageNumber : Z) (p : t) : t * option Z :=
  if (pageNumber <? 1) || (totalPages p <? pageNumber) || (pageNumber =? currentPage p)
  then (p, None)
  else
    ({| itemsPerPage := itemsPerPage p; totalItems := totalItems p;
        currentPage := pageNumber; previousPage := currentPage p |},
     Some pageNumber).

(** [updateTotalItems(totalItems, resetPage)] *)
Definition updateTotalItems (newTotal : Z) (resetPage : bool) (p : t) : t * option Z :=
  let previousTotalPages := totalPages p in
  let p1 := {| itemsPerPage := itemsPerPage p; totalItems := newTotal;
               currentPage := currentPage p; previousPage := previousPage p |} in
  let wasOnPage := currentPage p1 in
  let p2 := if totalPages p1 <? currentPage p1
            then {| itemsPerPage := itemsPerPage p1; totalItems := totalItems p1;
                    currentPage := Z.max 1 (totalPages p1);
                    previousPage := previousPage p1 |}
            else p1 in
  let p3 := if resetPage
            then {| itemsPerPage := itemsPerPage p2; totalItems := totalItems p2;
                    currentPage := 1; previousPage := currentPage p2 |}
            else p2 in
  let pageChanged := resetPage || negb (currentPage p3 =? wasOnPage) in
  let totalPagesChanged := negb (previousTotalPages =? totalPages p3) in
  (p3, if pageChanged || totalPagesChanged then Some (currentPage p3) else None).

(** [reset()] *)
Definition reset (p : t) : t * option Z :=
  ({| itemsPerPage := itemsPerPage p; totalItems := totalItems p;
      currentPage := 1; previousPage := previousPage p |}, None).

(** The operations a client of the component can invoke. *)
Inductive Op :=
  | GoToPage (pageNumber : Z)
  | UpdateTotalItems (newTotal : Z) (resetPage : bool)
  | Reset.

Definition step (p : t) (op : Op) : t * option Z :=
  match op with
  | GoToPage n => goToPage n p
  | UpdateTotalItems n r => updateTotalItems n r p
  | Reset => reset p
  end.

Definition run (p : t) (ops : list Op) : t :=
  foldl (fun q op => fst (step q op)) p ops.

(** What [render()] puts into the container, from left to right. *)
Inductive PageItem :=
  | PrevButton (disabled : bool)
  | PageButton (pageNumber : Z) (active : bool)
  | Ellipsis
  | NextButton (disabled : bool).

(** The window of page numbers of [render()]: [startPage] and [endPage]. *)
Definition window (p : t) : Z * Z :=
  let maxVisiblePages := 5 in
  let startPage := Z.max 1 (currentPage p - maxVisiblePages / 2) in
  let endPage := Z.min (totalPages p) (startPage + maxVisiblePages - 1) in
  let startPage :=
    if endPage - startPage + 1 <? maxVisiblePages
    then Z.max 1 (endPage - maxVisiblePages + 1)
    else startPage in
  (startPage, endPage).

(** [render()] *)
Definition render (p : t) : list PageItem :=
  if totalPages p <=? 1 then []
  else
    let '(startPage, endPage) := window p in
    [PrevButton (currentPage p =? 1)]
    ++ (if 1 <? startPage
        then PageButton 1 false :: (if 2 <? startPage then [Ellipsis] else [])
        else [])
    ++ ((fun i => PageButton i (i =? currentPage p))
          <$> seqZ startPage (endPage - startPage + 1))
    ++ (if endPage <? totalPages p
        then (if endPage <? totalPages p - 1 then [Ellipsis] else [])
             ++ [PageButton (totalPages p) false]
        else [])
    ++ [NextButton (currentPage p =? totalPages p)].

(** The [data-page] of a link that can be clicked. *)
Inductive PageValue :=
  | prev
  | next
  | page (n : Z).

(** The click listener that [setupEventListeners()] puts on a link. *)
Definition click (pageValue : PageValue) (p : t) : t * option Z :=
  match pageValue with
  | prev => if 1 <? currentPage p then goToPage (currentPage p - 1) p else (p, None)
  | next => if currentPage p <? totalPages p then goToPage (currentPage p + 1) p
            else (p, None)
  | page n => goToPage n p
  end.

(** [getCurrentPage()] *)
Definition getCurrentPage (p : t) : Z := currentPage p.

End Pagination.

(** ** DateFilter.js *)
Module DateFilter.

Record t := { fromDate : option Timestamp; toDate : option Timestamp }.

(** What [validateAndFilter] does besides updating the component: it
    calls [onFilter], or shows an error and leaves [onFilter] alone. *)
Inductive Effect :=
  | OnFilter (from to : option Timestamp)
  | InvalidFromDate
  | InvalidToDate
  | InvalidDateRange
  | FutureFromDate.

(** [validateAndFilter()], given the texts of the two inputs and the
    reading of [new Date()]. *)
Definition validateAndFilter (fromDateStr toDateStr : DateText) (clockNow : Timestamp)
    (self : t) : t * Effect :=
  match fromDateStr, toDateStr with
  | Blank, Blank => ({| fromDate := None; toDate := None |}, OnFilter None None)
  | _, _ =>
    match fromDateStr with
    | Unparseable => (self, InvalidFromDate)
    | _ =>
      let fromDate := match fromDateStr with
                      | DateString d => Some (startOfDay d)
                      | _ => None
                      end in
      match toDateStr with
      | Unparseable => (self, InvalidToDate)
      | _ =>
        let toDate := match toDateStr with
                      | DateString d => Some (endOfDay d)
                      | _ => None
                      end in
        let today := endOfDay clockNow in
        match fromDate, toDate with
        | Some f, Some e =>
            if e <? f then (self, InvalidDateRange)
            else if today <? f then (self, FutureFromDate)
            else
              let e' := if today <? e then today else e in
              ({| fromDate := Some f; toDate := Some e' |}, OnFilter (Some f) (Some e'))
        | Some f, None =>
            if today <? f then (self, FutureFromDate)
            else ({| fromDate := Some f; toDate := None |}, OnFilter (Some f) None)
        | None, Some e =>
            let e' := if today <? e then today else e in
            ({| fromDate := None; toDate := Some e' |}, OnFilter None (Some e'))
        | None, None => ({| fromDate := None; toDate := None |}, OnFilter None None)
        end
      end
    end
  end.

(** [reset()] *)
Definition reset (self : t) : t := {| fromDate := None; toDate := None |}.


(** [isDateInRange(date)]; [None] is no date at all. *)
Definition isDateInRange (date : option Timestamp) (self : t) : bool :=
  match date with
  | None => false
  | Some d =>
      match fromDate self, toDate self with
      | None, None => true
      | Some f, None => f <=? d
      | None, Some e => d <=? e
      | Some f, Some e => (f <=? d) && (d <=? e)
      end
  end.

End DateFilter.

(** ** validators.js *)
Module Validators.

Record Validation := {
  isValid : bool;
  message : string;
  field : option string
}.

Definition valid : Validation :=
  {| isValid := true; message := ""; field := None |}.

(** [validateRequired(value)]; [None] is [undefined] or [null]. *)
Definition validateRequired (value : option string) : Validation :=
  let trimmed := trim <$> value in
  let ok := match trimmed with
            | Some s => negb (String.eqb s "")
            | None => false
            end in
  {| isValid := ok;
     message := if ok then "" else "This field is required";
     field := None |}.

(** [validateMinLength(value, minLength)] *)
Definition validateMinLength (value : option string) (minLength : nat) : Validation :=
  let required := validateRequired value in
  if negb (isValid required) then required
  else
    let ok := (minLength <=? String.length (trim (default "" value)))%nat in
    {| isValid := ok;
       message := if ok then ""
                  else "Must be at least " +:+ pretty minLength +:+ " characters";
       field := None |}.

(** [validateMaxLength(value, maxLength)] *)
Definition validateMaxLength (value : option string) (maxLength : nat) : Validation :=
  let required := validateRequired value in
  if negb (isValid required) then required
  else
    let ok := (String.length (trim (default "" value)) <=? maxLength)%nat in
    {| isValid := ok;
       message := if ok then ""
                  else "Must be no more than " +:+ pretty maxLength +:+ " characters";
       field := None |}.

(** [validateTodoText(value)] *)
Definition validateTodoText (value : option string) : Validation :=
  let required := validateRequired value in
  if negb (isValid required) then required
  else
    let minLength := validateMinLength value 3 in
    if negb (isValid minLength) then minLength
    else
      let maxLength := validateMaxLength value 100 in
      if negb (isValid maxLength) then maxLength
      else valid.

(** [createTodoFormValidationRules()]: the one rule, for the field [todo]. *)
Definition createTodoFormValidationRules : list (string * (option string -> Validation)) :=
  [("todo", validateTodoText)].

(** [validateDate(dateString)] *)
Definition validateDate (dateString : DateText) : Validation :=
  match dateString with
  | Blank => valid
  | Unparseable =>
      {| isValid := false; message := "Please enter a valid date"; field := None |}
  | DateString _ => valid
  end.

Definition with_field (v : Validation) (f : string) : Validation :=
  {| isValid := isValid v; message := message v; field := Some f |}.

(** [validateDateRange(startDateString, endDateString)] *)
Definition validateDateRange (startDateString endDateString : DateText) : Validation :=
  match startDateString, endDateString with
  | Blank, Blank => valid
  | _, _ =>
    let startValid := validateDate startDateString in
    if negb (isValid startValid) then with_field startValid "startDate"
    else
      let endValid := validateDate endDateString in
      if negb (isValid endValid) then with_field endValid "endDate"
      else
        match startDateString, endDateString with
        | DateString startDate, DateString endDate =>
            if endDate <? startDate
            then {| isValid := false;
                    message := "Start date must be before end date";
                    field := Some "dateRange" |}
            else valid
        | _, _ => valid
        end
  end.

(** [validateForm(formData, validationRules)]: the rules in the order
    of their keys; a field that the form lacks is [undefined]. *)
Record FormValidation := {
  formIsValid : bool;
  fields : gmap string Validation
}.

Definition validateForm (formData : gmap string string)
    (validationRules : list (string * (option string -> Validation))) : FormValidation :=
  foldl
    (fun results rule =>
       let result := rule.2 (formData !! rule.1) in
       {| formIsValid := if negb (isValid result) then false else formIsValid results;
          fields := <[rule.1 := result]> (fields results) |})
    {| formIsValid := true; fields := ∅ |}
    validationRules.

(** [createDateFilterValidationRules()] *)
Definition createDateFilterValidationRules : list (string * (DateText -> Validation)) :=
  [("startDate", validateDate); ("endDate", validateDate)].

End Validators.

(** ** TodoForm.js *)
Module TodoForm.

(** The form: the value of the text input ([None] when the element is
    not in the page) and the state of the check box, if there is one. *)
Record t := {
  input : option string;
  completedCheckbox : option bool
}.

(** [_validateInput(showError)] *)
Definition _validateInput (form : t) : bool :=
  match input form with
  | None => true
  | Some v => (0 <? String.length (trim v))%nat
  end.

(** [_validateForm()] *)
Definition _validateForm (form : t) : bool :=
  if negb (_validateInput form) then false else true.

(** [_handleSubmit(event)]: the data handed to [onSubmit], if the form
    gets that far. *)
Definition _handleSubmit (form : t) : Completion (option TodoService.TodoData) :=
  if negb (_validateForm form) then Return None
  else
    match input form with
    | None => Throw TypeError
    | Some v =>
        Return (Some {| TodoService.d_title := Some (trim v);
                        TodoService.d_todo := None;
                        TodoService.d_completed :=
                          Some (match completedCheckbox form with
                                | Some c => c
                                | None => false
                                end);
                        TodoService.d_userId := None |})
    end.

End TodoForm.

(** ** TodoList.js *)
Module TodoList.

(** The list on a page that has its elements: the todos in the
    container, and which of the three states is shown, with its message. *)
Record t := {
  container : list Todo;
  _previouslyRenderedIds : list Z;
  loadingState : bool;
  emptyState : option string;
  errorState : option string
}.

(** [_hideAllStates()] *)
Definition _hideAllStates (self : t) : t :=
  {| container := container self;
     _previouslyRenderedIds := _previouslyRenderedIds self;
     loadingState := false; emptyState := None; errorState := None |}.

(** [showLoading()] *)
Definition showLoading (self : t) : t :=
  let self := _hideAllStates self in
  {| container := container self;
     _previouslyRenderedIds := _previouslyRenderedIds self;
     loadingState := true; emptyState := emptyState self;
     errorState := errorState self |}.

(** [showCustomEmpty(message)] *)
Definition showCustomEmpty (message : string) (self : t) : t :=
  let self := _hideAllStates self in
  {| container := container self;
     _previouslyRenderedIds := _previouslyRenderedIds self;
     loadingState := loadingState self; emptyState := Some message;
     errorState := errorState self |}.

(** [showEmpty()] *)
Definition showEmpty (self : t) : t :=
  let self := _hideAllStates self in
  {| container := container self;
     _previouslyRenderedIds := _previouslyRenderedIds self;
     loadingState := loadingState self;
     emptyState := Some "No todos found. Add a new one to get started!";
     errorState := errorState self |}.

(** [showError(message)] *)
Definition showError (message : string) (self : t) : t :=
  let self := _hideAllStates self in
  {| container := container self;
     _previouslyRenderedIds := _previouslyRenderedIds self;
     loadingState := loadingState self; emptyState := emptyState self;
     errorState := Some message |}.

(** [render(todos)]: with no todos the container is left as it is. *)
Definition render (todos : list Todo) (self : t) : t :=
  let self := _hideAllStates self in
  if (length todos =? 0)%nat then showEmpty self
  else
    {| container := todos;
       _previouslyRenderedIds := id <$> todos;
       loadingState := loadingState self; emptyState := emptyState self;
       errorState := errorState self |}.

End TodoList.

(** ** app.js *)
Module TodoApp.

(** The values of [currentStatusFilter]: ['all'], ['active'] and
    ['completed']. *)
Inductive StatusFilter :=
  | status_all
  | status_active
  | status_completed.

(** [this.state] with the components that the controller drives: the
    paginator, the list, and the no-results note of the search bar. *)
Record t := {
  allTodos : list Todo;
  filteredTodos : list Todo;
  currentSearchQuery : string;
  currentFromDate : option Timestamp;
  currentToDate : option Timestamp;
  currentStatusFilter : StatusFilter;
  totalItemsCount : Z;
  isLoading : bool;
  currentPage : Z;
  pagination : Pagination.t;
  todoList : TodoList.t;
  noResults : bool
}.

Definition with_allTodos (v : list Todo) (app : t) : t :=
  {| allTodos := v; filteredTodos := filteredTodos app;
     currentSearchQuery := currentSearchQuery app;
     currentFromDate := currentFromDate app; currentToDate := currentToDate app;
     currentStatusFilter := currentStatusFilter app;
     totalItemsCount := totalItemsCount app; isLoading := isLoading app;
     currentPage := currentPage app; pagination := pagination app;
     todoList := todoList app; noResults := noResults app |}.

Definition with_filteredTodos (v : list Todo) (app : t) : t :=
  {| allTodos := allTodos app; filteredTodos := v;
     currentSearchQuery := currentSearchQuery app;
     currentFromDate := currentFromDate app; currentToDate := currentToDate app;
     currentStatusFilter := currentStatusFilter app;
     totalItemsCount := totalItemsCount app; isLoading := isLoading app;
     currentPage := currentPage app; pagination := pagination app;
     todoList := todoList app; noResults := noResults app |}.

Definition with_filters (query : string) (fromDate toDate : option Timestamp)
    (status : StatusFilter) (app : t) : t :=
  {| allTodos := allTodos app; filteredTodos := filteredTodos app;
     currentSearchQuery := query;
     currentFromDate := fromDate; currentToDate := toDate;
     currentStatusFilter := status;
     totalItemsCount := totalItemsCount app; isLoading := isLoading app;
     currentPage := currentPage app; pagination := pagination app;
     todoList := todoList app; noResults := noResults app |}.

Definition with_totalItemsCount (v : Z) (app : t) : t :=
  {| allTodos := allTodos app; filteredTodos := filteredTodos app;
     currentSearchQuery := currentSearchQuery app;
     currentFromDate := currentFromDate app; currentToDate := currentToDate app;
     currentStatusFilter := currentStatusFilter app;
     totalItemsCount := v; isLoading := isLoading app;
     currentPage := currentPage app; pagination := pagination app;
     todoList := todoList app; noResults := noResults app |}.

Definition with_isLoading (v : bool) (app : t) : t :=
  {| allTodos := allTodos app; filteredTodos := filteredTodos app;
     currentSearchQuery := currentSearchQuery app;
     currentFromDate := currentFromDate app; currentToDate := currentToDate app;
     currentStatusFilter := currentStatusFilter app;
     totalItemsCount := totalItemsCount app; isLoading := v;
     currentPage := currentPage app; pagination := pagination app;
     todoList := todoList app; noResults := noResults app |}.

Definition with_currentPage (v : Z) (app : t) : t :=
  {| allTodos := allTodos app; filteredTodos := filteredTodos app;
     currentSearchQuery := currentSearchQuery app;
     currentFromDate := currentFromDate app; currentToDate := currentToDate app;
     currentStatusFilter := currentStatusFilter app;
     totalItemsCount := totalItemsCount app; isLoading := isLoading app;
     currentPage := v; pagination := pagination app;
     todoList := todoList app; noResults := noResults app |}.

Definition with_pagination (v : Pagination.t) (app : t) : t :=
  {| allTodos := allTodos app; filteredTodos := filteredTodos app;
     currentSearchQuery := currentSearchQuery app;
     currentFromDate := currentFromDate app; currentToDate := currentToDate app;
     currentStatusFilter := currentStatusFilter app;
     totalItemsCount := totalItemsCount app; isLoading := isLoading app;
     currentPage := currentPage app; pagination := v;
     todoList := todoList app; noResults := noResults app |}.

Definition with_todoList (v : TodoList.t) (show : bool) (app : t) : t :=
  {| allTodos := allTodos app; filteredTodos := filteredTodos app;
     currentSearchQuery := currentSearchQuery app;
     currentFromDate := currentFromDate app; currentToDate := currentToDate app;
     currentStatusFilter := currentStatusFilter app;
     totalItemsCount := totalItemsCount app; isLoading := isLoading app;
     currentPage := currentPage app; pagination := pagination app;
     todoList := v; noResults := show |}.

(** [constructor()], up to its call of [loadTodos], on a page whose
    list is [list]. *)
Definition constructor (list : TodoList.t) : t :=
  {| allTodos := []; filteredTodos := [];
     currentSearchQuery := "";
     currentFromDate := None; currentToDate := None;
     currentStatusFilter := status_all;
     totalItemsCount := 0; isLoading := false;
     currentPage := 1;
     pagination :=
       Pagination.constructor
         {| Pagination.o_itemsPerPage := Some Config.itemsPerPage;
            Pagination.o_totalItems := Some 0 |};
     todoList := list; noResults := false |}.

(** The double quote of a message. *)
Definition dquote : string := String (Ascii.ascii_of_nat 34) EmptyString.

(** [updateTodoListUI(todosToDisplay)] *)
Definition updateTodoListUI (todosToDisplay : list Todo) (app : t) : t :=
  let query := negb (String.eqb (currentSearchQuery app) "") in
  let show :=
    (query || isSome (currentFromDate app) || isSome (currentToDate app))
    && (length (filteredTodos app) =? 0)%nat in
  let list := TodoList.render todosToDisplay (todoList app) in
  let list :=
    if (length todosToDisplay =? 0)%nat
    then
      if negb query && negb (isSome (currentFromDate app))
         && negb (isSome (currentToDate app))
         && match currentStatusFilter app with status_all => true | _ => false end
      then TodoList.showEmpty list
      else
        let customMessage :=
          match currentStatusFilter app with
          | status_active => "No active todos found."
          | status_completed => "No completed todos found."
          | status_all =>
              if query
              then "No todos found matching " +:+ dquote
                   +:+ currentSearchQuery app +:+ dquote +:+ "."
              else "No todos match your current filters."
          end in
        TodoList.showCustomEmpty customMessage list
    else list in
  with_todoList list show app.

(** [displayCurrentPageTodos(pageNumber)].  When it corrects the page
    number it calls [goToPage] of the paginator, which may call
    [onPageChange], and that calls [displayCurrentPageTodos] again: the
    depth of these calls is counted down. *)
Fixpoint displayCurrentPageTodos (depth : nat) (pageNumber : Z) (app : t) : option t :=
  match depth with
  | O => None
  | S depth =>
      let itemsPerPage := Config.itemsPerPage in
      if (length (filteredTodos app) =? 0)%nat
      then Some (updateTodoListUI [] app)
      else
        let totalPages :=
          Z.max 1 (Pagination.ceil_div (Z.of_nat (length (filteredTodos app)))
                     itemsPerPage) in
        let validPageNumber := Z.max 1 (Z.min pageNumber totalPages) in
        let startIndex := (validPageNumber - 1) * itemsPerPage in
        let endIndex := startIndex + itemsPerPage in
        let currentPageTodos := slice startIndex endIndex (filteredTodos app) in
        let app := updateTodoListUI currentPageTodos app in
        app ← (if negb (validPageNumber =? pageNumber)
               then
                 let '(p, signal) :=
                   Pagination.goToPage validPageNumber (pagination app) in
                 let app := with_pagination p app in
                 match signal with
                 | Some n => displayCurrentPageTodos depth n (with_currentPage n app)
                 | None => Some app
                 end
               else Some app);
        Some (with_currentPage validPageNumber app)
  end.

(** The [onPageChange] that the controller gives to the paginator. *)
Definition onPageChange (depth : nat) (pageNumber : Z) (app : t) : option t :=
  displayCurrentPageTodos depth pageNumber (with_currentPage pageNumber app).

(** The paginator has signalled, or not. *)
Definition signalled (depth : nat) (signal : option Z) (app : t) : option t :=
  match signal with
  | Some n => onPageChange depth n app
  | None => Some app
  end.

(** [todo.title || todo.todo || ''], on a todo of the engine, which has
    no property [todo]. *)
Definition todoText (todo : Todo) : string :=
  default "" (or_str (title todo) None).

(** [applyFilters(resetPage)] *)
Definition applyFilters (depth : nat) (resetPage : bool) (app : t) : option t :=
  let filtered := allTodos app in
  let filtered :=
    if negb (String.eqb (currentSearchQuery app) "")
    then
      let query := toLowerCase (currentSearchQuery app) in
      List.filter (fun todo => includes (toLowerCase (todoText todo)) query) filtered
    else filtered in
  let filtered :=
    if isSome (currentFromDate app) || isSome (currentToDate app)
    then
      List.filter
        (fun todo =>
           match createdAt todo with
           | None => false
           | Some todoDate =>
               match currentFromDate app, currentToDate app with
               | Some fromDate, None => fromDate <=? todoDate
               | None, Some toDate => todoDate <=? toDate
               | Some fromDate, Some toDate =>
                   (fromDate <=? todoDate) && (todoDate <=? toDate)
               | None, None => true
               end
           end)
        filtered
    else filtered in
  let filtered :=
    match currentStatusFilter app with
    | status_all => filtered
    | status_active => List.filter (fun todo => negb (completed todo)) filtered
    | status_completed => List.filter (fun todo => completed todo) filtered
    end in
  let app := with_filteredTodos filtered app in
  let '(p, signal) :=
    Pagination.updateTotalItems (Z.of_nat (length filtered)) resetPage
      (pagination app) in
  app ← signalled depth signal (with_pagination p app);
  displayCurrentPageTodos depth
    (if resetPage then 1 else Pagination.getCurrentPage (pagination app)) app.

(** The [shouldDisplay] of [_addTodoToCurrentList], when its three
    checks are done. *)
Definition shouldDisplay (newTodo : Todo) (app : t) : bool :=
  let shouldDisplay := true in
  let shouldDisplay :=
    if negb (String.eqb (currentSearchQuery app) "")
    then includes (toLowerCase (todoText newTodo))
           (toLowerCase (currentSearchQuery app))
    else shouldDisplay in
  let shouldDisplay :=
    if shouldDisplay
       && (isSome (currentFromDate app) || isSome (currentToDate app))
    then
      match currentFromDate app, currentToDate app with
      | Some fromDate, None =>
          match createdAt newTodo with
          | Some todoDate => fromDate <=? todoDate
          | None => false
          end
      | None, Some toDate =>
          match createdAt newTodo with
          | Some todoDate => todoDate <=? toDate
          | None => false
          end
      | Some fromDate, Some toDate =>
          match createdAt newTodo with
          | Some todoDate => (fromDate <=? todoDate) && (todoDate <=? toDate)
          | None => false
          end
      | None, None => shouldDisplay
      end
    else shouldDisplay in
  let shouldDisplay :=
    if shouldDisplay
    then
      match currentStatusFilter app with
      | status_all => shouldDisplay
      | status_active => negb (completed newTodo)
      | status_completed => completed newTodo
      end
    else shouldDisplay in
  shouldDisplay.

(** [_addTodoToCurrentList(newTodo)] *)
Definition _addTodoToCurrentList (depth : nat) (newTodo : option Todo) (app : t)
  : option t :=
  match newTodo with
  | None => Some app
  | Some newTodo =>
      let app := with_allTodos (newTodo :: allTodos app) app in
      if shouldDisplay newTodo app
      then
        let app := with_filteredTodos (newTodo :: filteredTodos app) app in
        let '(p, signal) :=
          Pagination.updateTotalItems (Z.of_nat (length (filteredTodos app))) false
            (pagination app) in
        app ← signalled depth signal (with_pagination p app);
        Some (if currentPage app =? 1
              then updateTodoListUI
                     (slice 0 Config.itemsPerPage (filteredTodos app)) app
              else app)
      else Some app
  end.

(** [loadTodos(page)], given what the request of [fetchTodos] settles
    to and the text [errorMessage] shown for an error.  The alerts of
    the error handler are outside the state. *)
Definition loadTodos (depth : nat) (errorMessage : Exn -> string) (page : Z)
    (remote : ApiOutcome TodoService.Response) (app : t) : JS (option t) :=
  let app := with_isLoading true app in
  let app := with_todoList (TodoList.showLoading (todoList app)) (noResults app) app in
  try_catch
    (let* result :=
       TodoService.fetchTodos
         {| TodoService.page := Some page;
            TodoService.opt_limit := Some Config.itemsPerPage |} remote in
     let app := with_allTodos (TodoService.todos result) app in
     let app :=
       with_totalItemsCount (TodoService.total (TodoService.pagination result)) app in
     let '(p, signal) :=
       Pagination.updateTotalItems (totalItemsCount app) false (pagination app) in
     ret (app ← signalled depth signal (with_pagination p app);
          app ← applyFilters depth false app;
          Some (with_isLoading false app)))
    (fun error =>
       let app :=
         with_todoList (TodoList.showError (errorMessage error) (todoList app))
           (noResults app) app in
       ret (Some (with_isLoading false app))).

(** The [onSubmit] that the controller gives to the form, given what
    the request of [addTodo] settles to; an error of [addTodo] is thrown
    on to the form. *)
Definition onSubmit (depth : nat) (todoData : TodoService.TodoData)
    (remote : ApiOutcome (option RawTodo)) (app : t) : JS (option t) :=
  try_catch
    (let* newTodo := TodoService.addTodo todoData remote in
     ret (_addTodoToCurrentList depth (Some newTodo) app))
    (fun error => throw error).

(** The [onSearch] that the controller gives to the search bar. *)
Definition onSearch (depth : nat) (query : string) (app : t) : option t :=
  if negb (String.eqb (currentSearchQuery app) query)
  then
    applyFilters depth true
      (with_filters query (currentFromDate app) (currentToDate app)
         (currentStatusFilter app) app)
  else Some app.

(** The [onFilter] that the controller gives to the date filter. *)
Definition onFilter (depth : nat) (fromDate toDate : option Timestamp) (app : t)
  : option t :=
  let changed (current new : option Timestamp) :=
    match current, new with
    | None, Some _ => true
    | Some _, None => true
    | Some c, Some n => negb (c =? n)
    | None, None => false
    end in
  let fromChanged := changed (currentFromDate app) fromDate in
  let toChanged := changed (currentToDate app) toDate in
  if fromChanged || toChanged
  then
    applyFilters depth true
      (with_filters (currentSearchQuery app) fromDate toDate
         (currentStatusFilter app) app)
  else Some app.

(** The listeners of the view options: all, active, completed. *)
Definition view (depth : nat) (status : StatusFilter) (app : t) : option t :=
  applyFilters depth true
    (with_filters (currentSearchQuery app) (currentFromDate app) (currentToDate app)
       status app).

(** The listener of the button that clears all filters. *)
Definition clearAllFilters (depth : nat) (app : t) : option t :=
  applyFilters depth true
    (with_filters "" None None status_all
       (with_todoList (todoList app) false app)).

End TodoApp.

(** * Notions used in the statements *)

(** The page position is a page that exists. *)
Definition in_bounds (p : Pagination.t) : Prop :=
  1 <= Pagination.currentPage p <= Pagination.totalPages p.

(** Resolve the dates of a list of ids, one after the other. *)
Definition resolveAll (ids : list Z) (s : State) : State :=
  foldl (fun st i => snd (TodoService._getOrCreateTodoDate i st)) s ids.

(** The records that can be read from the store: none when the key is
    missing or its text does not parse. *)
Definition storedTodos (ls : LocalStorage) : list Todo :=
  match todo_app_local_todos ls with
  | Parsed l => l
  | Missing | Corrupt => []
  end.

(** Newest first, by the date the store sorts on. *)
Definition newest_first (a b : Todo) : Prop :=
  TodoService.sortDate b <= TodoService.sortDate a.

(** The request for the list fails: it is rejected (offline, time-out,
    refused, HTTP error, a body that is no JSON), or its body cannot be
    normalised. *)
Definition remote_call_fails (remote : ApiOutcome TodoService.Response) (s : State) : Prop :=
  match remote with
  | Rejected _ => True
  | Resolved response =>
      exists e, fst (TodoService._transformTodosResponse response s) = Throw e
  end.

(** The local todos that no remote todo displaces. *)
Definition survivors (localTodos remoteTodos : list Todo) : list Todo :=
  List.filter
    (fun localTodo => negb (existsb (fun apiTodo => id apiTodo =? id localTodo) remoteTodos))
    localTodos.

(** The list that [_saveLocalTodo] writes back: the todo replaces the
    stored todo of its id, or is added at the end. *)
Definition saved_list (todo : Todo) (stamp : Z) (localTodos : list Todo) : list Todo :=
  match TodoService.findIndex (id todo) localTodos with
  | Some existingIndex =>
      match localTodos !! existingIndex with
      | Some old => <[existingIndex := TodoService.spread_update old todo stamp]> localTodos
      | None => localTodos
      end
  | None => localTodos ++ [TodoService.with_savedAt todo stamp]
  end.

(** The store can be read and written. *)
Definition store_usable (ls : LocalStorage) : Prop :=
  todo_app_local_todos ls <> Corrupt /\ writable ls = true.

(** ** States used as examples *)

Definition empty_storage : LocalStorage :=
  {| todo_app_creation_dates := Missing;
     todo_app_local_todos := Missing;
     todo_creation_dates := Missing;
     writable := true |}.

(** A service at start-up, on a clock that ticks one millisecond per
    reading from 1700000000001 on. *)
Definition state_with (ls : LocalStorage) : State :=
  {| clock := fun k => (Pos.of_succ_nat k + 1700000000000)%positive;
     reads := 0;
     creationDates := ∅;
     storage := ls |}.

(** A todo created offline at the time [stamp]. *)
Definition local_todo (stamp : Z) : Todo :=
  {| id := stamp; title := Some "written offline"; completed := false;
     userId := Some 1; createdAt := Some stamp;
     isLocal := Some true; fromApi := None;
     savedAt := Some (stamp + 1); updatedAt := None |}.

(** Twelve todos created offline, one second apart, oldest first. *)
Definition twelve_todos : list Todo :=
  (fun k => local_todo (1690000000000 + k * 1000)) <$> seqZ 1 12.

(** ** Notions used in the further properties *)

(** From [s] to [s'] the stored todos and the state of the store are
    the same, and every cached date is kept. *)
Definition dates_only (s s' : State) : Prop :=
  todo_app_local_todos (storage s') = todo_app_local_todos (storage s)
  /\ writable (storage s') = writable (storage s)
  /\ forall j d, creationDates s !! j = Some d -> creationDates s' !! j = Some d.

(** The callback of the [forEach] in [fetchTodos]: a remote todo whose
    id is not among the local todos is saved, marked as coming from the
    remote side. *)
Definition persist (localTodos : list Todo) (todo : Todo) : JS unit :=
  if negb (existsb (fun lt => id lt =? id todo) localTodos)
  then TodoService._saveLocalTodo (TodoService.with_fromApi todo)
  else ret tt.

(** From [s] to [s'] the stored todos [base] are still there, in front
    and unchanged; the store is as usable as it was; no stored id was
    lost; and the cache is the same. *)
Definition store_grows (base : list Todo) (s s' : State) : Prop :=
  base `prefix_of` storedTodos (storage s')
  /\ writable (storage s') = writable (storage s)
  /\ (todo_app_local_todos (storage s) <> Corrupt ->
      todo_app_local_todos (storage s') <> Corrupt)
  /\ (forall i, i ∈ id <$> storedTodos (storage s) ->
                i ∈ id <$> storedTodos (storage s'))
  /\ creationDates s' = creationDates s.

(** The numbers of the page buttons that [render] draws, from left to
    right. *)
Definition pageNumbers (items : list Pagination.PageItem) : list Z :=
  omap (fun item => match item with
                    | Pagination.PageButton n _ => Some n
                    | _ => None
                    end) items.

(** ** Notions for the controller *)

(** A todo passes the search, the date range and the status of the
    controller. *)
Definition passesFilters (app : TodoApp.t) (todo : Todo) : bool :=
  (String.eqb (TodoApp.currentSearchQuery app) ""
   || includes (toLowerCase (TodoApp.todoText todo))
        (toLowerCase (TodoApp.currentSearchQuery app)))
  && match TodoApp.currentFromDate app, TodoApp.currentToDate app with
     | None, None => true
     | fromDate, toDate =>
         match createdAt todo with
         | None => false
         | Some todoDate =>
             match fromDate with Some f => f <=? todoDate | None => true end
             && match toDate with Some e => todoDate <=? e | None => true end
         end
     end
  && match TodoApp.currentStatusFilter app with
     | TodoApp.status_all => true
     | TodoApp.status_active => negb (completed todo)
     | TodoApp.status_completed => completed todo
     end.

(** The todos of page [n] of a list, ten to a page. *)
Definition pageOf (n : Z) (l : list Todo) : list Todo :=
  take (Z.to_nat Config.itemsPerPage)
    (drop (Z.to_nat ((n - 1) * Config.itemsPerPage)) l).

(** The number of pages of a list. *)
Definition pagesOf (l : list Todo) : Z :=
  Z.max 1 (Pagination.ceil_div (Z.of_nat (length l)) Config.itemsPerPage).

(** The state of the controller is consistent: the filtered todos are
    the todos that pass the filters, the paginator counts them, ten to a
    page, and the controller and the paginator are on the same page,
    which exists. *)
Definition consistent (app : TodoApp.t) : Prop :=
  TodoApp.filteredTodos app = List.filter (passesFilters app) (TodoApp.allTodos app)
  /\ Pagination.itemsPerPage (TodoApp.pagination app) = Config.itemsPerPage
  /\ Pagination.totalItems (TodoApp.pagination app)
     = Z.of_nat (length (TodoApp.filteredTodos app))
  /\ in_bounds (TodoApp.pagination app)
  /\ TodoApp.currentPage app = Pagination.currentPage (TodoApp.pagination app).

(** A list that shows nothing yet. *)
Definition blank_list : TodoList.t :=
  {| TodoList.container := []; TodoList._previouslyRenderedIds := [];
     TodoList.loadingState := false; TodoList.emptyState := None;
     TodoList.errorState := None |}.

(** A controller that holds the twelve offline todos, unfiltered, and is
    on the first of their two pages. *)
Definition app_twelve : TodoApp.t :=
  {| TodoApp.allTodos := twelve_todos;
     TodoApp.filteredTodos := twelve_todos;
     TodoApp.currentSearchQuery := "";
     TodoApp.currentFromDate := None; TodoApp.currentToDate := None;
     TodoApp.currentStatusFilter := TodoApp.status_all;
     TodoApp.totalItemsCount := 12; TodoApp.isLoading := false;
     TodoApp.currentPage := 1;
     TodoApp.pagination :=
       {| Pagination.itemsPerPage := 10; Pagination.totalItems := 12;
          Pagination.currentPage := 1; Pagination.previousPage := 1 |};
     TodoApp.todoList := blank_list; TodoApp.noResults := false |}.

(** What the user and the network do in a session. *)
Inductive Event :=
  | Search (query : string)
  | DateRange (fromDate toDate : option Z)
  | View (status : TodoApp.StatusFilter)
  | ClearAllFilters
  | FilterChange
  | Click (pageValue : Pagination.PageValue)
  | Submit (todoData : TodoService.TodoData) (remote : ApiOutcome (option RawTodo))
  | Load (page : Z) (remote : ApiOutcome TodoService.Response).

(** The listener of an event. *)
Definition handle (depth : nat) (errorMessage : Exn -> string) (event : Event)
    (app : TodoApp.t) : JS (option TodoApp.t) :=
  match event with
  | Search query => ret (TodoApp.onSearch depth query app)
  | DateRange fromDate toDate => ret (TodoApp.onFilter depth fromDate toDate app)
  | View status => ret (TodoApp.view depth status app)
  | ClearAllFilters => ret (TodoApp.clearAllFilters depth app)
  | FilterChange => ret (TodoApp.applyFilters depth true app)
  | Click pageValue =>
      let '(p, signal) := Pagination.click pageValue (TodoApp.pagination app) in
      ret (TodoApp.signalled depth signal (TodoApp.with_pagination p app))
  | Submit todoData remote => TodoApp.onSubmit depth todoData remote app
  | Load page remote => TodoApp.loadTodos depth errorMessage page remote app
  end.

(** A session: the events one after the other. *)
Fixpoint session (depth : nat) (errorMessage : Exn -> string) (events : list Event)
    (app : TodoApp.t) : JS (option TodoApp.t) :=
  match events with
  | [] => ret (Some app)
  | event :: events =>
      let* r := handle depth errorMessage event app in
      match r with
      | Some app => session depth errorMessage events app
      | None => ret None
      end
  end.

(** * Properties *)

(** ** Pagination *)
Section PaginationFacts.
Import Pagination.

(** [ceil_div] is the ceiling of the quotient, for a positive divisor. *)
Lemma ceil_div_spec (a b : Z) :
  0 < b -> (ceil_div a b - 1) * b < a <= ceil_div a b * b.
Proof.
  intros Hb. unfold ceil_div.
  pose proof (Z.div_mod (- a) b) as Hdm.
  pose proof (Z.mod_pos_bound (- a) b Hb) as Hm.
  nia.
Qed.

Lemma totalPages_ge_1 (p : t) : 1 <= totalPages p.
Proof. unfold totalPages. apply Z.le_max_l. Qed.

(** For a positive page size, [totalPages] is the least number of pages,
    at least one, that holds all the items. *)
Lemma totalPages_least (p : t) (k : Z) :
  0 < itemsPerPage p ->
  totalPages p <= k <-> 1 <= k /\ totalItems p <= k * itemsPerPage p.
Proof.
  intros Hb. unfold totalPages.
  pose proof (ceil_div_spec (totalItems p) (itemsPerPage p) Hb) as Hc.
  set (c := ceil_div (totalItems p) (itemsPerPage p)) in *.
  split.
  - intros Hk. split; [lia | nia].
  - intros [H1 Hk]. apply Z.max_lub; [lia |]. nia.
Qed.

Lemma constructor_in_bounds (options : Options) : in_bounds (constructor options).
Proof.
  unfold in_bounds. cbn [constructor currentPage].
  split; [lia | apply totalPages_ge_1].
Qed.

Lemma goToPage_noop (n : Z) (p : t) :
  n < 1 \/ totalPages p < n \/ n = currentPage p -> goToPage n p = (p, None).
Proof.
  intros H. unfold goToPage.
  destruct (Z.ltb_spec n 1); [done |].
  destruct (Z.ltb_spec (totalPages p) n); [done |].
  destruct (Z.eqb_spec n (currentPage p)); [done |].
  lia.
Qed.

Lemma goToPage_moves (n : Z) (p : t) :
  1 <= n <= totalPages p -> n <> currentPage p ->
  goToPage n p =
    ({| itemsPerPage := itemsPerPage p; totalItems := totalItems p;
        currentPage := n; previousPage := currentPage p |}, Some n).
Proof.
  intros Hn Hne. unfold goToPage.
  destruct (Z.ltb_spec n 1); [lia |].
  destruct (Z.ltb_spec (totalPages p) n); [lia |].
  destruct (Z.eqb_spec n (currentPage p)); [lia | done].
Qed.

Lemma goToPage_in_bounds (n : Z) (p : t) :
  in_bounds p -> in_bounds (fst (goToPage n p)).
Proof.
  intros Hp. unfold goToPage.
  destruct (Z.ltb_spec n 1); [done |].
  destruct (Z.ltb_spec (totalPages p) n); [done |].
  destruct (Z.eqb_spec n (currentPage p)); [done |].
  unfold in_bounds, totalPages in *. cbn. lia.
Qed.

Lemma updateTotalItems_in_bounds (n : Z) (r : bool) (p : t) :
  in_bounds p -> in_bounds (fst (updateTotalItems n r p)).
Proof.
  intros Hp. unfold updateTotalItems, in_bounds, totalPages in *. cbn.
  set (tp := Z.max 1 (ceil_div n (itemsPerPage p))).
  destruct (Z.ltb_spec tp (currentPage p)); destruct r; cbn; fold tp; lia.
Qed.

Lemma reset_in_bounds (p : t) : in_bounds (fst (reset p)).
Proof.
  unfold in_bounds, reset. cbn.
  split; [lia | apply totalPages_ge_1].
Qed.

Lemma step_in_bounds (p : t) (op : Op) : in_bounds p -> in_bounds (fst (step p op)).
Proof.
  intros Hp. destruct op; cbn [step].
  - by apply goToPage_in_bounds.
  - by apply updateTotalItems_in_bounds.
  - apply reset_in_bounds.
Qed.

Lemma run_in_bounds (ops : list Op) : forall p, in_bounds p -> in_bounds (run p ops).
Proof.
  unfold run. induction ops as [| op ops IH]; intros p Hp; cbn [foldl]; [done |].
  apply IH. by apply step_in_bounds.
Qed.

(** When the signal of [updateTotalItems] is given. *)
Lemma updateTotalItems_signal (n : Z) (r : bool) (p : t) :
  is_Some (snd (updateTotalItems n r p)) <->
  r = true
  \/ currentPage (fst (updateTotalItems n r p)) <> currentPage p
  \/ totalPages (fst (updateTotalItems n r p)) <> totalPages p.
Proof.
  unfold updateTotalItems. cbn [fst snd currentPage totalItems itemsPerPage].
  set (p1 := {| itemsPerPage := itemsPerPage p; totalItems := n;
                currentPage := currentPage p; previousPage := previousPage p |}).
  set (p2 := if totalPages p1 <? currentPage p then _ else p1).
  set (p3 := if r then _ else p2).
  destruct r; cbn [orb].
  - split; [by left | intros _; by eexists].
  - destruct (Z.eqb_spec (currentPage p3) (currentPage p)) as [He | He];
      destruct (Z.eqb_spec (totalPages p) (totalPages p3)) as [Ht | Ht]; cbn.
    + split; [intros [x Hx]; discriminate | intros [? | [? | ?]]; [done | done | congruence]].
    + split; [intros _; right; right; congruence | intros _; by eexists].
    + split; [intros _; right; by left | intros _; by eexists].
    + split; [intros _; right; by left | intros _; by eexists].
Qed.

End PaginationFacts.

(** C6.  Over every sequence of operations on a paginator: [totalPages]
    is [max 1 (ceil (totalItems / itemsPerPage))], the least number of
    pages that holds the items, and at least 1;
    [goToPage n] does nothing when [n < 1], [n > totalPages] or
    [n = currentPage], and otherwise moves to page [n] and signals the
    change; and the current page stays within [1 .. totalPages]. *)
Theorem C6_pagination_bounds :
  forall (options : Pagination.Options) (ops : list Pagination.Op),
    let p := Pagination.run (Pagination.constructor options) ops in
    (Pagination.totalPages p
       = Z.max 1 (Pagination.ceil_div (Pagination.totalItems p) (Pagination.itemsPerPage p))
     /\ (0 < Pagination.itemsPerPage p ->
         forall k, Pagination.totalPages p <= k
                   <-> 1 <= k /\ Pagination.totalItems p <= k * Pagination.itemsPerPage p)
     /\ 1 <= Pagination.totalPages p)
    /\ (forall n,
          n < 1 \/ Pagination.totalPages p < n \/ n = Pagination.currentPage p ->
          Pagination.goToPage n p = (p, None))
    /\ (forall n,
          1 <= n <= Pagination.totalPages p -> n <> Pagination.currentPage p ->
          Pagination.currentPage (fst (Pagination.goToPage n p)) = n
          /\ snd (Pagination.goToPage n p) = Some n)
    /\ 1 <= Pagination.currentPage p <= Pagination.totalPages p.
Proof.
  intros options ops p.
  split.
  { split; [reflexivity |].
    split; [intros Hb k; by apply totalPages_least | apply totalPages_ge_1]. }
  split; [intros n Hn; by apply goToPage_noop |].
  split.
  - intros n Hn Hne. rewrite goToPage_moves by assumption. by split.
  - apply (run_in_bounds ops), constructor_in_bounds.
Qed.

(** A run that grows the list to 25 items, walks to page 3, shrinks the
    list to 5 items, and then asks for page 2: the request is refused. *)
Lemma C6_pagination_bounds_witness :
  let p := Pagination.run
             (Pagination.constructor
                {| Pagination.o_itemsPerPage := Some 10; Pagination.o_totalItems := None |})
             [Pagination.UpdateTotalItems 25 false; Pagination.GoToPage 3;
              Pagination.UpdateTotalItems 5 false] in
  Pagination.goToPage 2 p = (p, None)
  /\ 1 <= Pagination.currentPage p <= Pagination.totalPages p.
Proof.
  intros p.
  pose proof (C6_pagination_bounds
                {| Pagination.o_itemsPerPage := Some 10; Pagination.o_totalItems := None |}
                [Pagination.UpdateTotalItems 25 false; Pagination.GoToPage 3;
                 Pagination.UpdateTotalItems 5 false]) as [_ [Hnoop [_ Hb]]].
  split.
  - apply Hnoop. right; left. vm_compute. reflexivity.
  - exact Hb.
Defined.

(** C7, as stated, at a fresh paginator: [updateTotalItems 0 true] leaves
    the page at 1 and [totalPages] at 1, and signals all the same. *)
Lemma C7_signal_iff_counterexample :
  let p := Pagination.constructor
             {| Pagination.o_itemsPerPage := None; Pagination.o_totalItems := None |} in
  let r := Pagination.updateTotalItems 0 true p in
  ~ (is_Some (snd r) <->
     Pagination.currentPage (fst r) <> Pagination.currentPage p
     \/ Pagination.totalPages (fst r) <> Pagination.totalPages p).
Proof.
  intros p r [Hfire _].
  assert (Hs : is_Some (snd r)) by (vm_compute; by eexists).
  destruct (Hfire Hs) as [H | H]; apply H; vm_compute; reflexivity.
Qed.

(** C7, amended.  [updateTotalItems] signals a page change exactly when
    a reset to the first page was asked for, or the current page after
    the call differs from the one before, or [totalPages] changed; the
    signal carries the current page.  With current page 4 and page size
    10, [updateTotalItems 25 false] gives 3 pages, moves to page 3 and
    signals. *)
Theorem C7_updateTotalItems_signal :
  forall (newTotal : Z) (resetPage : bool) (p : Pagination.t),
    let r := Pagination.updateTotalItems newTotal resetPage p in
    (is_Some (snd r) <->
       resetPage = true
       \/ Pagination.currentPage (fst r) <> Pagination.currentPage p
       \/ Pagination.totalPages (fst r) <> Pagination.totalPages p)
    /\ (is_Some (snd r) -> snd r = Some (Pagination.currentPage (fst r)))
    /\ (Pagination.currentPage p = 4 -> Pagination.itemsPerPage p = 10 ->
        newTotal = 25 -> resetPage = false ->
        Pagination.totalPages (fst r) = 3
        /\ Pagination.currentPage (fst r) = 3
        /\ snd r = Some 3).
Proof.
  intros newTotal resetPage p r. split; [| split].
  - apply updateTotalItems_signal.
  - subst r. unfold Pagination.updateTotalItems. cbn [fst snd].
    match goal with |- context [if ?c then Some _ else None] => destruct c end;
      [done | intros [x Hx]; discriminate].
  - intros Hc Hi -> ->. subst r.
    unfold Pagination.updateTotalItems, Pagination.totalPages. cbn.
    rewrite Hc, Hi. vm_compute. done.
Qed.

Lemma C7_updateTotalItems_signal_witness :
  let p := {| Pagination.itemsPerPage := 10; Pagination.totalItems := 40;
              Pagination.currentPage := 4; Pagination.previousPage := 3 |} in
  let r := Pagination.updateTotalItems 25 false p in
  Pagination.totalPages (fst r) = 3
  /\ Pagination.currentPage (fst r) = 3
  /\ snd r = Some 3.
Proof.
  intros p r.
  apply (C7_updateTotalItems_signal 25 false p); reflexivity.
Defined.

(** ** Date ranges *)

Lemma startOfDay_le (t : Timestamp) : startOfDay t <= t.
Proof.
  unfold startOfDay, MS_PER_DAY.
  pose proof (Z.div_mod t 86400000). pose proof (Z.mod_pos_bound t 86400000). lia.
Qed.

Lemma endOfDay_ge (t : Timestamp) : t <= endOfDay t.
Proof.
  unfold endOfDay, startOfDay, MS_PER_DAY.
  pose proof (Z.div_mod t 86400000). pose proof (Z.mod_pos_bound t 86400000). lia.
Qed.

(** A later day starts after an earlier day has ended. *)
Lemma day_ends_before_later_day_starts (a b : Timestamp) :
  a / MS_PER_DAY < b / MS_PER_DAY -> endOfDay a < startOfDay b.
Proof. unfold endOfDay, startOfDay, MS_PER_DAY. intros H. nia. Qed.

(** For the texts of date inputs, which give the start of a day, a
    later date is a later day. *)
Lemma later_date_later_day (a b : Timestamp) :
  b = startOfDay b -> a < b -> a / MS_PER_DAY < b / MS_PER_DAY.
Proof.
  unfold startOfDay, MS_PER_DAY. intros Hb Hab.
  pose proof (Z.div_mod a 86400000). pose proof (Z.mod_pos_bound a 86400000). lia.
Qed.

Lemma validateAndFilter_range_ordered (fromStr toStr : DateText)
    (clockNow : Timestamp) (self : DateFilter.t) (f e : Timestamp) :
  snd (DateFilter.validateAndFilter fromStr toStr clockNow self)
    = DateFilter.OnFilter (Some f) (Some e) ->
  f <= e.
Proof.
  unfold DateFilter.validateAndFilter.
  destruct fromStr as [| | tf], toStr as [| | tt]; cbn; try discriminate.
  - destruct (Z.ltb_spec (endOfDay clockNow) (startOfDay tf)); cbn; discriminate.
  - destruct (Z.ltb_spec (endOfDay tt) (startOfDay tf)); cbn; [discriminate |].
    destruct (Z.ltb_spec (endOfDay clockNow) (startOfDay tf)); cbn; [discriminate |].
    destruct (Z.ltb_spec (endOfDay clockNow) (endOfDay tt)); intros [= <- <-]; lia.
Qed.

Lemma validateAndFilter_rejects_inverted (tf tt clockNow : Timestamp) (self : DateFilter.t) :
  tt / MS_PER_DAY < tf / MS_PER_DAY ->
  DateFilter.validateAndFilter (DateString tf) (DateString tt) clockNow self
    = (self, DateFilter.InvalidDateRange).
Proof.
  intros H. apply day_ends_before_later_day_starts in H.
  unfold DateFilter.validateAndFilter.
  destruct (Z.ltb_spec (endOfDay tt) (startOfDay tf)); [done | lia].
Qed.

Lemma validateDateRange_rejects_inverted (tf tt : Timestamp) :
  tt < tf ->
  Validators.validateDateRange (DateString tf) (DateString tt)
    = {| Validators.isValid := false;
         Validators.message := "Start date must be before end date";
         Validators.field := Some "dateRange" |}.
Proof.
  intros H. unfold Validators.validateDateRange. cbn.
  destruct (Z.ltb_spec tt tf); [done | lia].
Qed.

(** C8.  A date range whose from-date lies after its to-date is refused
    before any filtering: [validateAndFilter] shows the range error,
    keeps the component as it was and does not call [onFilter]; whatever
    the inputs, [onFilter] is never called with a from-date after the
    to-date; and [validateDateRange] reports such a pair as invalid. *)
Theorem C8_inverted_range_rejected :
  forall (fromStr toStr : DateText) (clockNow : Timestamp) (self : DateFilter.t),
    (forall tf tt,
        fromStr = DateString tf -> toStr = DateString tt ->
        tt / MS_PER_DAY < tf / MS_PER_DAY ->
        DateFilter.validateAndFilter fromStr toStr clockNow self
          = (self, DateFilter.InvalidDateRange))
    /\ (forall f e,
          snd (DateFilter.validateAndFilter fromStr toStr clockNow self)
            = DateFilter.OnFilter (Some f) (Some e) ->
          f <= e)
    /\ (forall tf tt,
          fromStr = DateString tf -> toStr = DateString tt -> tt < tf ->
          Validators.isValid (Validators.validateDateRange fromStr toStr) = false
          /\ Validators.field (Validators.validateDateRange fromStr toStr)
             = Some "dateRange").
Proof.
  intros fromStr toStr clockNow self. split; [| split].
  - intros tf tt -> -> H. by apply validateAndFilter_rejects_inverted.
  - intros f e H. by eapply validateAndFilter_range_ordered.
  - intros tf tt -> -> H. by rewrite validateDateRange_rejects_inverted.
Qed.

(** From 2024-01-10 to 2024-01-05, asked on 2024-07-03. *)
Lemma C8_inverted_range_rejected_witness :
  let untouched := {| DateFilter.fromDate := None; DateFilter.toDate := None |} in
  DateFilter.validateAndFilter
    (DateString 1704844800000) (DateString 1704412800000) 1720000000000 untouched
    = (untouched, DateFilter.InvalidDateRange)
  /\ Validators.isValid
       (Validators.validateDateRange (DateString 1704844800000) (DateString 1704412800000))
     = false.
Proof.
  intros untouched.
  pose proof (C8_inverted_range_rejected
                (DateString 1704844800000) (DateString 1704412800000)
                1720000000000 untouched) as [Hreject [_ Hrange]].
  split.
  - apply (Hreject 1704844800000 1704412800000); [reflexivity | reflexivity |].
    vm_compute. reflexivity.
  - apply (Hrange 1704844800000 1704412800000); [reflexivity | reflexivity | lia].
Defined.

(** ** Text of a todo *)

Lemma validateRequired_valid (v : string) :
  Validators.isValid (Validators.validateRequired (Some v)) = true
  <-> (0 < String.length (trim v))%nat.
Proof.
  unfold Validators.validateRequired. cbn.
  destruct (String.eqb_spec (trim v) "") as [-> | Hne]; cbn.
  - split; [done | cbn; lia].
  - split; [| done]. intros _. destruct (trim v); [done | cbn; lia].
Qed.

Lemma validateMinLength_isValid (v : string) (n : nat) :
  Validators.isValid (Validators.validateMinLength (Some v) n)
  = Validators.isValid (Validators.validateRequired (Some v))
    && (n <=? String.length (trim v))%nat.
Proof.
  unfold Validators.validateMinLength.
  destruct (Validators.isValid (Validators.validateRequired (Some v))) eqn:Hreq;
    simpl negb; cbv iota; [reflexivity | by rewrite Hreq].
Qed.

Lemma validateMaxLength_isValid (v : string) (n : nat) :
  Validators.isValid (Validators.validateMaxLength (Some v) n)
  = Validators.isValid (Validators.validateRequired (Some v))
    && (String.length (trim v) <=? n)%nat.
Proof.
  unfold Validators.validateMaxLength.
  destruct (Validators.isValid (Validators.validateRequired (Some v))) eqn:Hreq;
    simpl negb; cbv iota; [reflexivity | by rewrite Hreq].
Qed.

Lemma validateTodoText_isValid (v : option string) :
  Validators.isValid (Validators.validateTodoText v)
  = Validators.isValid (Validators.validateRequired v)
    && Validators.isValid (Validators.validateMinLength v 3)
    && Validators.isValid (Validators.validateMaxLength v 100).
Proof.
  unfold Validators.validateTodoText.
  destruct (Validators.isValid (Validators.validateRequired v)) eqn:Hreq;
    simpl negb; cbv iota; [| by rewrite Hreq].
  destruct (Validators.isValid (Validators.validateMinLength v 3)) eqn:Hmin;
    simpl negb; cbv iota; [| by rewrite Hmin].
  destruct (Validators.isValid (Validators.validateMaxLength v 100)) eqn:Hmax;
    simpl negb; cbv iota; [reflexivity | by rewrite Hmax].
Qed.

(** [validateTodoText] accepts exactly the texts of 3 to 100 characters
    after trimming. *)
Lemma validateTodoText_valid (v : string) :
  Validators.isValid (Validators.validateTodoText (Some v)) = true
  <-> (3 <= String.length (trim v) <= 100)%nat.
Proof.
  rewrite validateTodoText_isValid, validateMinLength_isValid, validateMaxLength_isValid.
  rewrite !andb_true_iff, validateRequired_valid, !Nat.leb_le. lia.
Qed.

Lemma validateTodoText_undefined :
  Validators.isValid (Validators.validateTodoText None) = false.
Proof. reflexivity. Qed.

(** The form hands to [onSubmit] every text that is not blank. *)
Lemma handleSubmit_submits (v : string) (c : option bool) :
  (0 < String.length (trim v))%nat ->
  exists data,
    TodoForm._handleSubmit {| TodoForm.input := Some v; TodoForm.completedCheckbox := c |}
      = Return (Some data)
    /\ TodoService.d_title data = Some (trim v).
Proof.
  intros H. apply Nat.ltb_lt in H.
  unfold TodoForm._handleSubmit, TodoForm._validateForm, TodoForm._validateInput.
  cbn [TodoForm.input TodoForm.completedCheckbox]. rewrite H. cbn [negb].
  eexists. split; reflexivity.
Qed.

(** C9, on the form.  The text [ab] has two characters; [validateTodoText]
    refuses it, but the form, which only asks for a text that is not
    blank, hands it to [onSubmit] as the title of a new todo. *)
Theorem C9_form_submits_two_characters :
  Validators.isValid (Validators.validateTodoText (Some "ab")) = false
  /\ TodoForm._validateForm
       {| TodoForm.input := Some "ab"; TodoForm.completedCheckbox := Some false |} = true
  /\ TodoForm._handleSubmit
       {| TodoForm.input := Some "ab"; TodoForm.completedCheckbox := Some false |}
     = Return (Some {| TodoService.d_title := Some "ab";
                       TodoService.d_todo := None;
                       TodoService.d_completed := Some false;
                       TodoService.d_userId := None |}).
Proof. repeat split. Qed.

(** ** Creation dates *)

Lemma getOrCreateTodoDate_cached (s : State) (i : Z) (d : Timestamp) :
  creationDates s !! i = Some d ->
  TodoService._getOrCreateTodoDate i s = (Return d, s).
Proof.
  intros H. cbv [TodoService._getOrCreateTodoDate bind get_creationDates].
  by rewrite H.
Qed.

(** A first resolution reads the clock once, steps back [todoId % 30]
    days from that reading and caches the result. *)
Lemma getOrCreateTodoDate_fresh (s : State) (i : Z) :
  creationDates s !! i = None ->
  exists ls',
    TodoService._getOrCreateTodoDate i s
    = (Return (Z.pos (clock s (reads s)) - Z.rem i 30 * MS_PER_DAY),
       {| clock := clock s; reads := S (reads s);
          creationDates :=
            <[i := Z.pos (clock s (reads s)) - Z.rem i 30 * MS_PER_DAY]> (creationDates s);
          storage := ls' |}).
Proof.
  intros H.
  cbv [TodoService._getOrCreateTodoDate bind get_creationDates].
  rewrite H.
  cbv [TodoService._saveCreationDates bind try_catch get_creationDates get_storage
       now put_creationDates put_storage throw ret storage writable creationDates
       clock reads].
  destruct s as [c r m [d1 d2 d3 w]]. destruct w; eexists; reflexivity.
Qed.

(** The sibling in dateUtils.js starts 30 days back and adds
    [todoId % 30] days. *)
Lemma generateCreationDate_value (s : State) (i : Z) :
  fst (DateUtils.generateCreationDate i s)
  = Return (Z.pos (clock s (reads s)) - 30 * MS_PER_DAY + Z.rem i 30 * MS_PER_DAY).
Proof. reflexivity. Qed.

(** There, within a band of 30 ids, a lower id is not newer. *)
Lemma generateCreationDate_lower_ids_older (s : State) (a b : Z) (da db : Timestamp) :
  0 <= a <= b -> a / 30 = b / 30 ->
  fst (DateUtils.generateCreationDate a s) = Return da ->
  fst (DateUtils.generateCreationDate b s) = Return db ->
  da <= db.
Proof.
  intros Hab Hband. rewrite !generateCreationDate_value. intros [= <-] [= <-].
  rewrite !Z.rem_mod_nonneg by lia.
  pose proof (Z.div_mod a 30). pose proof (Z.div_mod b 30).
  unfold MS_PER_DAY. lia.
Qed.

(** In TodoService.js the step goes the other way: within a band, a
    lower id is not older. *)
Lemma getOrCreateTodoDate_lower_ids_newer (s : State) (a b : Z) (da db : Timestamp) :
  creationDates s !! a = None -> creationDates s !! b = None ->
  0 <= a <= b -> a / 30 = b / 30 ->
  fst (TodoService._getOrCreateTodoDate a s) = Return da ->
  fst (TodoService._getOrCreateTodoDate b s) = Return db ->
  db <= da.
Proof.
  intros Ha Hb Hab Hband.
  destruct (getOrCreateTodoDate_fresh s a Ha) as [la ->].
  destruct (getOrCreateTodoDate_fresh s b Hb) as [lb ->].
  cbn. intros [= <-] [= <-].
  rewrite !Z.rem_mod_nonneg by lia.
  pose proof (Z.div_mod a 30). pose proof (Z.div_mod b 30).
  unfold MS_PER_DAY. lia.
Qed.

(** [getCreationDate] of dateUtils.js keeps its dates in the store only:
    a second call returns the first date when the store can be read and
    written. *)
Lemma getCreationDate_twice (s : State) (i : Z) :
  todo_creation_dates (storage s) <> Corrupt -> writable (storage s) = true ->
  exists d,
    fst (DateUtils.getCreationDate i s) = Return d
    /\ fst (DateUtils.getCreationDate i (snd (DateUtils.getCreationDate i s))) = Return d.
Proof.
  intros Hc Hw. destruct s as [c r m [d1 d2 d3 w]]. cbn in Hc, Hw. subst w.
  destruct d3 as [| | dates]; [| done |].
  - eexists. split; [reflexivity |].
    cbv [DateUtils.getCreationDate DateUtils.generateCreationDate
         DateUtils.saveCreationDate try_catch bind get_storage parse_or now
         put_storage throw ret storage writable todo_creation_dates fst snd].
    rewrite lookup_empty. cbv beta iota. by rewrite lookup_insert_eq.
  - cbv [DateUtils.getCreationDate DateUtils.generateCreationDate
         DateUtils.saveCreationDate try_catch bind get_storage parse_or now
         put_storage throw ret storage writable todo_creation_dates].
    destruct (dates !! i) as [d |] eqn:Hd.
    + exists d. cbn [fst snd]. by rewrite Hd.
    + eexists. cbn [fst snd]. split; [reflexivity |]. by rewrite lookup_insert_eq.
Qed.

(** C4, on [_getOrCreateTodoDate].  With an empty cache and the clock at
    1700000000000, id 1 gets the date one day back and id 2 the date two
    days back: the lower id gets the newer date, and neither date is the
    clock less 30 days plus [id % 30] days, which is what
    [generateCreationDate] of dateUtils.js returns. *)
Theorem C4_getOrCreateTodoDate_lower_id_newer :
  let s := {| clock := fun _ => 1700000000000%positive; reads := 0;
              creationDates := ∅;
              storage := {| todo_app_creation_dates := Missing;
                            todo_app_local_todos := Missing;
                            todo_creation_dates := Missing;
                            writable := true |} |} in
  fst (TodoService._getOrCreateTodoDate 1 s) = Return (1700000000000 - 1 * MS_PER_DAY)
  /\ fst (TodoService._getOrCreateTodoDate 2 s) = Return (1700000000000 - 2 * MS_PER_DAY)
  /\ 1700000000000 - 2 * MS_PER_DAY < 1700000000000 - 1 * MS_PER_DAY
  /\ fst (TodoService._getOrCreateTodoDate 1 s)
     <> Return (1700000000000 - 30 * MS_PER_DAY + 1 * MS_PER_DAY)
  /\ fst (DateUtils.generateCreationDate 1 s)
     = Return (1700000000000 - 30 * MS_PER_DAY + 1 * MS_PER_DAY)
  /\ fst (DateUtils.generateCreationDate 2 s)
     = Return (1700000000000 - 30 * MS_PER_DAY + 2 * MS_PER_DAY).
Proof.
  intros s. repeat split; try reflexivity.
  intros H. vm_compute in H. discriminate.
Qed.

(** Resolving an id leaves the clock and the cache entries of the other
    ids as they were. *)
Lemma getOrCreateTodoDate_frame (s : State) (i j : Z) :
  i <> j ->
  creationDates (snd (TodoService._getOrCreateTodoDate j s)) !! i = creationDates s !! i.
Proof.
  intros Hne. destruct (creationDates s !! j) as [d |] eqn:Hj.
  - by rewrite (getOrCreateTodoDate_cached s j d Hj).
  - destruct (getOrCreateTodoDate_fresh s j Hj) as [ls' ->]. cbn.
    by rewrite lookup_insert_ne.
Qed.

Lemma getOrCreateTodoDate_clock (s : State) (j : Z) :
  clock (snd (TodoService._getOrCreateTodoDate j s)) = clock s.
Proof.
  destruct (creationDates s !! j) as [d |] eqn:Hj.
  - by rewrite (getOrCreateTodoDate_cached s j d Hj).
  - by destruct (getOrCreateTodoDate_fresh s j Hj) as [ls' ->].
Qed.

(** The cache grows by the id, and the clock is read once for each id
    that is new to the cache. *)
Lemma getOrCreateTodoDate_dom (s : State) (j : Z) :
  dom (creationDates (snd (TodoService._getOrCreateTodoDate j s)))
  = {[ j ]} ∪ dom (creationDates s).
Proof.
  destruct (creationDates s !! j) as [d |] eqn:Hj.
  - rewrite (getOrCreateTodoDate_cached s j d Hj). cbn.
    apply (elem_of_dom_2 (D := gset Z)) in Hj.
    symmetry. apply subseteq_union_1_L. by apply singleton_subseteq_l.
  - destruct (getOrCreateTodoDate_fresh s j Hj) as [ls' ->]. cbn.
    by rewrite dom_insert_L.
Qed.

Lemma getOrCreateTodoDate_reads (s : State) (j : Z) :
  let s' := snd (TodoService._getOrCreateTodoDate j s) in
  (reads s' + size (dom (creationDates s)) = reads s + size (dom (creationDates s')))%nat.
Proof.
  destruct (creationDates s !! j) as [d |] eqn:Hj.
  - by rewrite (getOrCreateTodoDate_cached s j d Hj).
  - destruct (getOrCreateTodoDate_fresh s j Hj) as [ls' ->]. cbn.
    rewrite dom_insert_L, size_union, size_singleton; [lia |].
    apply (not_elem_of_dom (D := gset Z)) in Hj. by apply disjoint_singleton_l.
Qed.

Lemma resolveAll_frame (others : list Z) : forall (s : State) (i : Z),
  i ∉ others -> creationDates (resolveAll others s) !! i = creationDates s !! i.
Proof.
  unfold resolveAll.
  induction others as [| j others IH]; intros s i Hi; cbn [foldl]; [done |].
  apply not_elem_of_cons in Hi as [Hne Hi].
  rewrite IH by done. by apply getOrCreateTodoDate_frame.
Qed.

Lemma resolveAll_clock (others : list Z) : forall s : State,
  clock (resolveAll others s) = clock s.
Proof.
  unfold resolveAll.
  induction others as [| j others IH]; intros s; cbn [foldl]; [done |].
  rewrite IH. apply getOrCreateTodoDate_clock.
Qed.

Lemma resolveAll_dom (others : list Z) : forall s : State,
  dom (creationDates (resolveAll others s))
  = list_to_set others ∪ dom (creationDates s).
Proof.
  unfold resolveAll.
  induction others as [| j others IH]; intros s; cbn [foldl list_to_set].
  - by rewrite (left_id_L ∅ (∪)).
  - rewrite IH, getOrCreateTodoDate_dom.
    by rewrite (assoc_L (∪)), (comm_L (∪) (list_to_set others)).
Qed.

Lemma resolveAll_reads (others : list Z) : forall s : State,
  (reads (resolveAll others s) + size (dom (creationDates s))
   = reads s + size (dom (creationDates (resolveAll others s))))%nat.
Proof.
  unfold resolveAll.
  induction others as [| j others IH]; intros s; cbn [foldl]; [done |].
  pose proof (IH (snd (TodoService._getOrCreateTodoDate j s))) as H1.
  pose proof (getOrCreateTodoDate_reads s j) as H2. cbn zeta in H2. lia.
Qed.

(** The number of clock readings that a list of resolutions takes does
    not depend on the order of the list. *)
Lemma resolveAll_reads_perm (others others' : list Z) (s : State) :
  others ≡ₚ others' -> reads (resolveAll others s) = reads (resolveAll others' s).
Proof.
  intros Hp.
  pose proof (resolveAll_reads others s) as H1.
  pose proof (resolveAll_reads others' s) as H2.
  rewrite resolveAll_dom in H1. rewrite resolveAll_dom in H2.
  assert (Hset : (list_to_set others : gset Z) = list_to_set others')
    by (by apply list_to_set_perm_L).
  rewrite Hset in H1. lia.
Qed.

(** What an id is given after other ids were resolved: its cached date,
    or the date computed from the id and the clock reading of its own
    resolution. *)
Lemma getOrCreateTodoDate_after_others (s : State) (i : Z) (others : list Z) :
  i ∉ others ->
  fst (TodoService._getOrCreateTodoDate i (resolveAll others s))
  = Return (match creationDates s !! i with
            | Some d => d
            | None => Z.pos (clock s (reads (resolveAll others s)))
                      - Z.rem i 30 * MS_PER_DAY
            end).
Proof.
  intros Hi. pose proof (resolveAll_frame others s i Hi) as Hf.
  destruct (creationDates s !! i) as [d |] eqn:Hs.
  - by rewrite (getOrCreateTodoDate_cached _ i d Hf).
  - destruct (getOrCreateTodoDate_fresh _ i Hf) as [ls' ->]. cbn.
    by rewrite resolveAll_clock.
Qed.

(** C5.  A second call of the date assigner for an id returns the value
    of the first call and changes nothing.  Resolving other ids first
    does not touch the entry of the id: its value is then the cached
    date, or is computed from the id and the clock reading of its own
    resolution alone, and it is the same for every order of the other
    ids. *)
Theorem C5_date_assignment_stable :
  forall (s : State) (todoId : Z),
    (exists d,
        fst (TodoService._getOrCreateTodoDate todoId s) = Return d
        /\ TodoService._getOrCreateTodoDate todoId
             (snd (TodoService._getOrCreateTodoDate todoId s))
           = (Return d, snd (TodoService._getOrCreateTodoDate todoId s)))
    /\ (forall others : list Z,
          todoId ∉ others ->
          creationDates (resolveAll others s) !! todoId = creationDates s !! todoId
          /\ fst (TodoService._getOrCreateTodoDate todoId (resolveAll others s))
             = Return (match creationDates s !! todoId with
                       | Some d => d
                       | None => Z.pos (clock s (reads (resolveAll others s)))
                                 - Z.rem todoId 30 * MS_PER_DAY
                       end))
    /\ (forall others others' : list Z,
          todoId ∉ others -> others ≡ₚ others' ->
          fst (TodoService._getOrCreateTodoDate todoId (resolveAll others s))
          = fst (TodoService._getOrCreateTodoDate todoId (resolveAll others' s))).
Proof.
  intros s todoId. split; [| split].
  - destruct (creationDates s !! todoId) as [d |] eqn:Hs.
    + exists d. rewrite (getOrCreateTodoDate_cached s todoId d Hs). cbn [fst snd].
      split; [done | by apply getOrCreateTodoDate_cached].
    + destruct (getOrCreateTodoDate_fresh s todoId Hs) as [ls' ->]. cbn [fst snd].
      eexists. split; [done |].
      apply getOrCreateTodoDate_cached. cbn [creationDates].
      by rewrite lookup_insert_eq.
  - intros others Hi. split.
    + by apply resolveAll_frame.
    + by apply getOrCreateTodoDate_after_others.
  - intros others others' Hi Hp.
    assert (Hi' : todoId ∉ others') by (by rewrite <- Hp).
    rewrite !getOrCreateTodoDate_after_others by done.
    by rewrite (resolveAll_reads_perm others others' s Hp).
Qed.

(** Id 7, after ids 3 and 12 in either order, on a ticking clock. *)
Lemma C5_date_assignment_stable_witness :
  let s := state_with empty_storage in
  fst (TodoService._getOrCreateTodoDate 7 (resolveAll [3; 12] s))
  = fst (TodoService._getOrCreateTodoDate 7 (resolveAll [12; 3] s)).
Proof.
  intros s.
  apply (C5_date_assignment_stable s 7).
  - rewrite !not_elem_of_cons. repeat split; [lia | lia | apply not_elem_of_nil].
  - apply perm_swap.
Defined.

(** ** The local store *)

Lemma insert_newest_perm (a : Todo) (l : list Todo) :
  TodoService.insert_newest a l ≡ₚ a :: l.
Proof.
  induction l as [| b l IH]; cbn; [done |].
  destruct (TodoService.sortDate b <=? TodoService.sortDate a); [done |].
  rewrite IH. apply perm_swap.
Qed.

Lemma sort_newest_first_perm (l : list Todo) :
  TodoService.sort_newest_first l ≡ₚ l.
Proof.
  unfold TodoService.sort_newest_first.
  induction l as [| a l IH]; cbn [foldr]; [done |].
  by rewrite insert_newest_perm, IH.
Qed.

Lemma sort_newest_first_length (l : list Todo) :
  length (TodoService.sort_newest_first l) = length l.
Proof. by rewrite sort_newest_first_perm. Qed.

Lemma insert_newest_sorted (a : Todo) (l : list Todo) :
  Sorted newest_first l -> Sorted newest_first (TodoService.insert_newest a l).
Proof.
  induction 1 as [| b l Hs IH Hhd]; cbn.
  - by repeat constructor.
  - destruct (Z.leb_spec (TodoService.sortDate b) (TodoService.sortDate a)) as [Hle | Hgt].
    + constructor; [by constructor |]. by constructor.
    + constructor; [done |].
      destruct Hhd as [| c l Hbc]; cbn.
      * constructor. unfold newest_first. lia.
      * destruct (Z.leb_spec (TodoService.sortDate c) (TodoService.sortDate a));
          constructor; unfold newest_first in *; lia.
Qed.

Lemma sort_newest_first_sorted (l : list Todo) :
  Sorted newest_first (TodoService.sort_newest_first l).
Proof.
  unfold TodoService.sort_newest_first.
  induction l as [| a l IH]; cbn [foldr]; [constructor |].
  by apply insert_newest_sorted.
Qed.


(** Reading the store never fails and changes nothing. *)
Lemma getLocalTodos_eq (s : State) :
  TodoService._getLocalTodos false s
  = (Return (TodoService.sort_newest_first (storedTodos (storage s))), s).
Proof.
  cbv [TodoService._getLocalTodos try_catch bind get_storage parse_or storedTodos].
  destruct (todo_app_local_todos (storage s)); reflexivity.
Qed.

Lemma findIndex_Some (i : Z) (l : list Todo) (k : nat) :
  TodoService.findIndex i l = Some k ->
  exists old, l !! k = Some old /\ id old = i.
Proof.
  revert k. induction l as [| t l IH]; intros k; cbn; [done |].
  destruct (Z.eqb_spec (id t) i) as [He | Hne].
  - intros [= <-]. by exists t.
  - destruct (TodoService.findIndex i l) as [k' |]; cbn; [| done].
    intros [= <-]. by apply IH.
Qed.

Lemma findIndex_None (i : Z) (l : list Todo) :
  TodoService.findIndex i l = None -> i ∉ id <$> l.
Proof.
  induction l as [| t l IH]; cbn; [intros _; apply not_elem_of_nil |].
  destruct (Z.eqb_spec (id t) i) as [He | Hne]; [done |].
  destruct (TodoService.findIndex i l); cbn; [done |].
  intros _. apply not_elem_of_cons. split; [congruence | by apply IH].
Qed.

Lemma saveLocalTodo_returns (todo : Todo) (s : State) :
  exists s', TodoService._saveLocalTodo todo s = (Return tt, s').
Proof.
  cbv [TodoService._saveLocalTodo try_catch bind get_storage parse_or now put_storage
       throw ret].
  destruct (id todo =? 0); [by eexists |].
  destruct (todo_app_local_todos (storage s)); [| by eexists |];
    destruct (writable (storage s)); by eexists.
Qed.

(** With a usable store, the todo is written under its id. *)
Lemma saveLocalTodo_usable (todo : Todo) (s : State) :
  id todo <> 0 -> store_usable (storage s) ->
  exists s',
    TodoService._saveLocalTodo todo s = (Return tt, s')
    /\ todo_app_local_todos (storage s')
       = Parsed (saved_list todo (Z.pos (clock s (reads s))) (storedTodos (storage s)))
    /\ writable (storage s') = true.
Proof.
  intros Hid [Hc Hw].
  cbv [TodoService._saveLocalTodo try_catch bind get_storage parse_or now put_storage
       throw ret storedTodos].
  destruct (Z.eqb_spec (id todo) 0); [done |].
  rewrite Hw.
  destruct (todo_app_local_todos (storage s)) eqn:Hl; [| done |];
    eexists; (split; [reflexivity | by split]).
Qed.

Lemma saved_list_ids (todo : Todo) (stamp : Z) (l : list Todo) :
  id <$> saved_list todo stamp l
  = match TodoService.findIndex (id todo) l with
    | Some _ => id <$> l
    | None => (id <$> l) ++ [id todo]
    end.
Proof.
  unfold saved_list.
  destruct (TodoService.findIndex (id todo) l) as [k |] eqn:Hf.
  - destruct (findIndex_Some _ _ _ Hf) as (old & Hk & Hid). rewrite Hk.
    rewrite list_fmap_insert. apply list_insert_id.
    rewrite list_lookup_fmap, Hk. cbn. by rewrite Hid.
  - by rewrite fmap_app.
Qed.

(** Saving keeps the ids of the store distinct. *)
Lemma saved_list_NoDup (todo : Todo) (stamp : Z) (l : list Todo) :
  NoDup (id <$> l) -> NoDup (id <$> saved_list todo stamp l).
Proof.
  intros Hnd. rewrite saved_list_ids.
  destruct (TodoService.findIndex (id todo) l) eqn:Hf; [done |].
  apply NoDup_app. split; [done |]. split; [| apply NoDup_singleton].
  intros x Hx Hx'. apply list_elem_of_singleton in Hx' as ->.
  by apply findIndex_None in Hf.
Qed.

(** After saving, the store holds the todo: a record with its [id],
    [title], [completed], [userId], [createdAt] and, when it has them,
    its marks. *)
Lemma saved_list_holds (todo : Todo) (stamp : Z) (l : list Todo) :
  exists t,
    t ∈ saved_list todo stamp l
    /\ id t = id todo /\ title t = title todo /\ completed t = completed todo
    /\ userId t = userId todo /\ createdAt t = createdAt todo
    /\ (forall b, isLocal todo = Some b -> isLocal t = Some b)
    /\ (forall b, fromApi todo = Some b -> fromApi t = Some b).
Proof.
  unfold saved_list.
  destruct (TodoService.findIndex (id todo) l) as [k |] eqn:Hf.
  - destruct (findIndex_Some _ _ _ Hf) as (old & Hk & Hid). rewrite Hk.
    exists (TodoService.spread_update old todo stamp). split.
    + apply list_elem_of_lookup. exists k.
      apply list_lookup_insert_eq. by eapply lookup_lt_Some.
    + cbn. repeat split; by intros b ->.
  - exists (TodoService.with_savedAt todo stamp). split.
    + apply elem_of_app. right. apply list_elem_of_singleton. reflexivity.
    + cbn. repeat split; done.
Qed.

Lemma forEach_returns {A} (f : A -> JS unit) (l : list A) :
  (forall x s, exists s', f x s = (Return tt, s')) ->
  forall s, exists s', forEach f l s = (Return tt, s').
Proof.
  intros Hf. induction l as [| x l IH]; intros s; cbn [forEach].
  - by eexists.
  - unfold bind. destruct (Hf x s) as [s1 ->]. apply IH.
Qed.

(** ** Merging remote and local todos *)

Lemma existsb_id (i : Z) (l : list Todo) :
  existsb (fun t => id t =? i) l = true <-> i ∈ id <$> l.
Proof.
  rewrite existsb_exists, list_elem_of_fmap. split.
  - intros (t & Ht & He). exists t. apply Z.eqb_eq in He.
    split; [done | by apply list_elem_of_In].
  - intros (t & -> & Ht). exists t. split; [by apply list_elem_of_In | apply Z.eqb_refl].
Qed.

Lemma survivors_elem (localTodos remoteTodos : list Todo) (t : Todo) :
  t ∈ survivors localTodos remoteTodos
  <-> t ∈ localTodos /\ id t ∉ id <$> remoteTodos.
Proof.
  unfold survivors. rewrite list_elem_of_In, filter_In, <- list_elem_of_In.
  by rewrite negb_true_iff, <- not_true_iff_false, existsb_id.
Qed.

Lemma survivors_sublist (localTodos remoteTodos : list Todo) :
  survivors localTodos remoteTodos `sublist_of` localTodos.
Proof.
  unfold survivors. induction localTodos as [| t l IH]; cbn; [done |].
  destruct (negb _); by constructor.
Qed.

Lemma transformTodoItem_Return (raw : option RawTodo) (s s' : State) (t : Todo) :
  TodoService._transformTodoItem raw s = (Return t, s') ->
  exists r, raw = Some r
    /\ r_id r = Some (id t)
    /\ title t = or_str (r_todo r) (r_title r)
    /\ completed t = or_false (r_completed r)
    /\ userId t = r_userId r
    /\ isLocal t = None /\ fromApi t = None.
Proof.
  unfold TodoService._transformTodoItem.
  destruct raw as [r |]; [| done]. destruct (r_id r) as [i |] eqn:Hi; [| done].
  unfold bind.
  destruct (TodoService._getOrCreateTodoDate i s) as [[d | e] s1]; [| done].
  intros [= <- <-]. exists r. by rewrite Hi.
Qed.

(** The normalised todos are the items of the body, one for one. *)
Lemma mapM_transformTodoItem_Return (items : list (option RawTodo)) :
  forall (s s' : State) (tds : list Todo),
    mapM TodoService._transformTodoItem items s = (Return tds, s') ->
    Forall2 (fun raw t => exists r, raw = Some r /\ r_id r = Some (id t)) items tds.
Proof.
  induction items as [| raw items IH]; intros s s' tds; cbn [mapM].
  - intros [= <- <-]. constructor.
  - unfold bind at 1.
    destruct (TodoService._transformTodoItem raw s) as [[t | e] s1] eqn:Ht; [| done].
    unfold bind at 1.
    destruct (mapM TodoService._transformTodoItem items s1) as [[ts | e] s2] eqn:Hts;
      [| done].
    intros [= <- <-]. constructor; [| by eapply IH].
    destruct (transformTodoItem_Return _ _ _ _ Ht) as (r & -> & Hid & _). by exists r.
Qed.

(** The total of the normalised page is the total that the body
    reports, when it reports one; the length of the list otherwise. *)
Lemma transformTodosResponse_total (response : TodoService.Response)
    (s s1 : State) (td : TodoService.FetchResult) :
  TodoService._transformTodosResponse response s = (Return td, s1) ->
  match response with
  | TodoService.RespArray items =>
      TodoService.total (TodoService.pagination td) = Z.of_nat (length items)
  | TodoService.RespObject field (Some n) _ _ =>
      n <> 0 -> TodoService.total (TodoService.pagination td) = n
  | TodoService.RespObject field None _ _ =>
      TodoService.total (TodoService.pagination td)
      = Z.of_nat (length (TodoService.todos td))
  | TodoService.RespNull => False
  end.
Proof.
  destruct response as [items | field total lim sk |]; cbn; [| | done].
  - unfold bind.
    destruct (mapM TodoService._transformTodoItem items s) as [[tds | e] s']; [| done].
    by intros [= <- <-].
  - destruct field as [| | items]; [| done |]; unfold bind.
    + cbn. intros [= <- <-]. cbn. destruct total as [n |]; [| done].
      intros Hn. unfold or_num. by destruct (Z.eqb_spec n 0).
    + destruct (mapM TodoService._transformTodoItem items s) as [[tds | e] s'] eqn:Hm;
        [| done].
      intros [= <- <-]. cbn. destruct total as [n |].
      * intros Hn. unfold or_num. by destruct (Z.eqb_spec n 0).
      * apply mapM_transformTodoItem_Return in Hm.
        apply Forall2_length in Hm. unfold or_num. by rewrite Hm.
Qed.

(** A request that is rejected fails, whatever the error. *)
Lemma rejected_fails (e : Exn) (s : State) : remote_call_fails (Rejected e) s.
Proof. exact I. Qed.

(** A body that is null, or whose [todos] is no array, or that holds a
    null item or an item without id, fails as well. *)
Lemma malformed_fails (s : State) :
  remote_call_fails (Resolved TodoService.RespNull) s
  /\ (forall total limit skip,
        remote_call_fails
          (Resolved (TodoService.RespObject TodoService.NotAnArray total limit skip)) s)
  /\ (forall items, remote_call_fails (Resolved (TodoService.RespArray (None :: items))) s)
  /\ (forall r items,
        r_id r = None ->
        remote_call_fails (Resolved (TodoService.RespArray (Some r :: items))) s).
Proof.
  repeat split.
  - by exists TypeError.
  - intros. by exists TypeError.
  - intros. by exists TypeError.
  - intros r items Hr. exists RangeError. cbn. unfold bind. cbn. by rewrite Hr.
Qed.

(** The fall-back of [fetchTodos]. *)
Lemma fetchTodos_fallback (options : TodoService.FetchOptions)
    (remote : ApiOutcome TodoService.Response) (s : State) :
  remote_call_fails remote s ->
  exists s',
    TodoService.fetchTodos options remote s
    = (Return
         {| TodoService.todos := TodoService.sort_newest_first (storedTodos (storage s));
            TodoService.pagination :=
              {| TodoService.total :=
                   Z.of_nat (length (TodoService.sort_newest_first (storedTodos (storage s))));
                 TodoService.limit :=
                   or_num (TodoService.opt_limit options) Config.itemsPerPage;
                 TodoService.skip := 0 |} |}, s').
Proof.
  intros Hfail.
  cbv [TodoService.fetchTodos try_catch bind]. rewrite getLocalTodos_eq.
  destruct remote as [response | e]; cbv [await ret throw].
  - destruct Hfail as [e He].
    destruct (TodoService._transformTodosResponse response s) as [[td | e'] s1];
      [discriminate |].
    by eexists.
  - by eexists.
Qed.

(** The merge of [fetchTodos]. *)
Lemma fetchTodos_resolved (options : TodoService.FetchOptions)
    (response : TodoService.Response) (s s1 : State) (td : TodoService.FetchResult) :
  TodoService._transformTodosResponse response s = (Return td, s1) ->
  exists s2,
    TodoService.fetchTodos options (Resolved response) s
    = (Return
         (let localTodos := TodoService.sort_newest_first (storedTodos (storage s)) in
          let uniqueLocalTodos := survivors localTodos (TodoService.todos td) in
          if (0 <? length uniqueLocalTodos)%nat
          then {| TodoService.todos := uniqueLocalTodos ++ TodoService.todos td;
                  TodoService.pagination :=
                    {| TodoService.total :=
                         TodoService.total (TodoService.pagination td)
                         + Z.of_nat (length uniqueLocalTodos);
                       TodoService.limit := TodoService.limit (TodoService.pagination td);
                       TodoService.skip := TodoService.skip (TodoService.pagination td) |} |}
          else td), s2).
Proof.
  intros Htd.
  cbv [TodoService.fetchTodos try_catch bind]. rewrite getLocalTodos_eq.
  cbv [await ret]. rewrite Htd.
  match goal with
  | |- context [forEach ?f ?l ?st] =>
      destruct (forEach_returns f l) with (s := st) as [s2 ->]
  end.
  - intros x st. destruct (negb _); [apply saveLocalTodo_returns | by eexists].
  - fold (survivors (TodoService.sort_newest_first (storedTodos (storage s)))
            (TodoService.todos td)).
    cbv zeta. destruct (0 <? length _)%nat; by eexists.
Qed.

(** C1.  When the request resolves and its body normalises to the remote
    todos [td], [fetchTodos] returns the local todos that no remote todo
    displaces, in store order, followed by the remote todos; a local
    todo is dropped exactly when a remote todo has its id; the total is
    the total of the remote side plus the number of local todos kept;
    the ids of the result are those of both sides, and each occurs once
    when it occurs once on either side. *)
Theorem C1_fetchTodos_merge :
  forall (options : TodoService.FetchOptions) (response : TodoService.Response)
         (s s1 : State) (td : TodoService.FetchResult),
    TodoService._transformTodosResponse response s = (Return td, s1) ->
    NoDup (id <$> storedTodos (storage s)) ->
    NoDup (id <$> TodoService.todos td) ->
    let localTodos := TodoService.sort_newest_first (storedTodos (storage s)) in
    let kept := survivors localTodos (TodoService.todos td) in
    exists res,
      fst (TodoService.fetchTodos options (Resolved response) s) = Return res
      /\ TodoService.todos res = kept ++ TodoService.todos td
      /\ kept `sublist_of` localTodos
      /\ (forall l, l ∈ kept <-> l ∈ localTodos /\ id l ∉ id <$> TodoService.todos td)
      /\ TodoService.total (TodoService.pagination res)
         = TodoService.total (TodoService.pagination td) + Z.of_nat (length kept)
      /\ (forall field n lim sk,
            response = TodoService.RespObject field (Some n) lim sk -> n <> 0 ->
            TodoService.total (TodoService.pagination td) = n)
      /\ (forall i, i ∈ id <$> TodoService.todos res
                    <-> i ∈ id <$> storedTodos (storage s)
                        \/ i ∈ id <$> TodoService.todos td)
      /\ NoDup (id <$> TodoService.todos res).
Proof.
  intros options response s s1 td Htd Hloc Hrem localTodos kept.
  destruct (fetchTodos_resolved options response s s1 td Htd) as [s2 Hfetch].
  cbv zeta in Hfetch.
  change (survivors _ (TodoService.todos td)) with kept in Hfetch.
  assert (Hres : exists res,
             fst (TodoService.fetchTodos options (Resolved response) s) = Return res
             /\ TodoService.todos res = kept ++ TodoService.todos td
             /\ TodoService.total (TodoService.pagination res)
                = TodoService.total (TodoService.pagination td) + Z.of_nat (length kept)).
  { rewrite Hfetch. cbn [fst].
    destruct (Nat.ltb_spec 0 (length kept)) as [Hpos | Hzero].
    - eexists. split; [reflexivity |]. split; reflexivity.
    - assert (Hk : kept = []) by (apply nil_length_inv; lia).
      exists td. rewrite Hk. split; [reflexivity |]. split; [reflexivity | cbn; lia]. }
  destruct Hres as (res & Hr & Htodos & Htotal).
  pose proof (survivors_elem localTodos (TodoService.todos td)) as Helem. fold kept in Helem.
  assert (Hperm : localTodos ≡ₚ storedTodos (storage s))
    by apply sort_newest_first_perm.
  exists res.
  split; [exact Hr |]. split; [exact Htodos |].
  split; [apply survivors_sublist |]. split; [exact Helem |].
  split; [exact Htotal |]. split.
  { intros field n lim sk -> Hn.
    by apply (transformTodosResponse_total _ _ _ _ Htd). }
  split.
  - intros i. rewrite Htodos, fmap_app, elem_of_app. split.
    + intros [Hi | Hi]; [left | by right].
      apply list_elem_of_fmap in Hi as (t & -> & Ht). apply Helem in Ht as [Ht _].
      apply list_elem_of_fmap_2. by rewrite <- Hperm.
    + intros [Hi | Hi]; [| by right].
      destruct (decide (i ∈ id <$> TodoService.todos td)) as [Hin | Hout]; [by right |].
      left. apply list_elem_of_fmap in Hi as (t & -> & Ht).
      apply list_elem_of_fmap_2. apply Helem. split; [by rewrite Hperm | done].
  - rewrite Htodos, fmap_app. apply NoDup_app.
    split; [| split; [| exact Hrem]].
    + assert (Hsub : id <$> kept `sublist_of` id <$> localTodos)
        by apply fmap_sublist, survivors_sublist.
      apply (sublist_NoDup _ (id <$> localTodos)); [| exact Hsub]. by rewrite Hperm.
    + intros i Hi Hi'. apply list_elem_of_fmap in Hi as (t & -> & Ht).
      by apply Helem in Ht as [_ Ht].
Qed.

(** Two stored todos, of ids 1690000005000 and 2, and a remote page with
    the todos 1 and 2 out of 150. *)
Lemma C1_fetchTodos_merge_witness :
  let stored :=
    [ local_todo 1690000005000;
      {| id := 2; title := Some "stale copy"; completed := false; userId := Some 9;
         createdAt := Some 1680000000000; isLocal := None; fromApi := Some true;
         savedAt := Some 1680000000001; updatedAt := None |} ] in
  let s := state_with {| todo_app_creation_dates := Missing;
                         todo_app_local_todos := Parsed stored;
                         todo_creation_dates := Missing;
                         writable := true |} in
  let response :=
    TodoService.RespObject
      (TodoService.TodoItems
         [ Some {| r_id := Some 1; r_todo := Some "walk"; r_title := None;
                   r_completed := Some true; r_userId := Some 9 |};
           Some {| r_id := Some 2; r_todo := Some "read"; r_title := None;
                   r_completed := None; r_userId := Some 9 |} ])
      (Some 150) (Some 10) (Some 0) in
  exists res,
    fst (TodoService.fetchTodos
           {| TodoService.page := Some 1; TodoService.opt_limit := Some 10 |}
           (Resolved response) s) = Return res
    /\ id <$> TodoService.todos res = [1690000005000; 1; 2]
    /\ TodoService.total (TodoService.pagination res) = 151.
Proof.
  intros stored s response.
  destruct (TodoService._transformTodosResponse response s) as [c s1] eqn:Htd.
  destruct c as [td | e]; [| exfalso; vm_compute in Htd; discriminate].
  pose proof Htd as Hval. vm_compute in Hval. injection Hval as Htodos_td _.
  destruct (C1_fetchTodos_merge
              {| TodoService.page := Some 1; TodoService.opt_limit := Some 10 |}
              response s s1 td Htd)
    as (res & Hres & Htodos & _ & _ & Htotal & Hreported & _).
  - apply NoDup_cons. split; [| apply NoDup_singleton].
    rewrite list_elem_of_singleton. vm_compute. discriminate.
  - rewrite <- Htodos_td. apply NoDup_cons. split; [| apply NoDup_singleton].
    rewrite list_elem_of_singleton. vm_compute. discriminate.
  - exists res. split; [exact Hres |]. split.
    + rewrite Htodos, <- Htodos_td. vm_compute. reflexivity.
    + rewrite Htotal, (Hreported _ 150 _ _ eq_refl) by lia.
      rewrite <- Htodos_td. vm_compute. reflexivity.
Defined.

(** C2.  When the request fails, for whatever reason, [fetchTodos] does
    not throw: it returns the stored todos, all of them and nothing
    else, in the order of the store, and their number as the total. *)
Theorem C2_fetchTodos_fallback :
  forall (options : TodoService.FetchOptions)
         (remote : ApiOutcome TodoService.Response) (s : State),
    remote_call_fails remote s ->
    exists res,
      fst (TodoService.fetchTodos options remote s) = Return res
      /\ TodoService.todos res = TodoService.sort_newest_first (storedTodos (storage s))
      /\ TodoService.todos res ≡ₚ storedTodos (storage s)
      /\ (forall t, t ∈ TodoService.todos res -> t ∈ storedTodos (storage s))
      /\ TodoService.total (TodoService.pagination res)
         = Z.of_nat (length (storedTodos (storage s))).
Proof.
  intros options remote s Hfail.
  destruct (fetchTodos_fallback options remote s Hfail) as [s' Hfetch].
  eexists. rewrite Hfetch. split; [reflexivity |].
  cbn [TodoService.todos TodoService.pagination TodoService.total].
  split; [reflexivity |].
  split; [apply sort_newest_first_perm |]. split.
  - intros t Ht. by rewrite sort_newest_first_perm in Ht.
  - by rewrite sort_newest_first_length.
Qed.

(** A time-out over a store of two todos. *)
Lemma C2_fetchTodos_fallback_witness :
  let s := state_with {| todo_app_creation_dates := Missing;
                         todo_app_local_todos :=
                           Parsed [local_todo 1690000001000; local_todo 1690000002000];
                         todo_creation_dates := Missing;
                         writable := true |} in
  exists res,
    fst (TodoService.fetchTodos
           {| TodoService.page := Some 1; TodoService.opt_limit := Some 10 |}
           (Rejected TIMEOUT) s) = Return res
    /\ TodoService.todos res = [local_todo 1690000002000; local_todo 1690000001000]
    /\ TodoService.total (TodoService.pagination res) = 2.
Proof.
  intros s.
  destruct (C2_fetchTodos_fallback
              {| TodoService.page := Some 1; TodoService.opt_limit := Some 10 |}
              (Rejected TIMEOUT) s)
    as (res & Hres & Htodos & _ & _ & Htotal).
  - exact I.
  - exists res. split; [exact Hres |]. split.
    + rewrite Htodos. vm_compute. reflexivity.
    + rewrite Htotal. vm_compute. reflexivity.
Defined.

(** C3, as stated, on a store of twelve todos with the remote source
    unreachable: the list that [fetchTodos] returns for page 1 of size
    10 does not have 10 records. *)
Lemma C3_ten_of_twelve_counterexample :
  let s := state_with {| todo_app_creation_dates := Missing;
                         todo_app_local_todos := Parsed twelve_todos;
                         todo_creation_dates := Missing;
                         writable := true |} in
  length (storedTodos (storage s)) = 12%nat
  /\ ~ (exists res,
          fst (TodoService.fetchTodos
                 {| TodoService.page := Some 1; TodoService.opt_limit := Some 10 |}
                 (Rejected OFFLINE) s) = Return res
          /\ length (TodoService.todos res) = 10%nat
          /\ TodoService.total (TodoService.pagination res) = 12).
Proof.
  intros s. split; [reflexivity |].
  intros (res & Hres & Hlen & _).
  vm_compute in Hres. injection Hres as <-. vm_compute in Hlen. discriminate.
Qed.

(** C3, amended.  With twelve todos in the store and the remote source
    unreachable, [fetchTodos] for page 1 of size 10 returns all twelve,
    newest first, with total 12, and the paginator of the application,
    given that total, has 2 pages. *)
Theorem C3_fallback_twelve_records :
  forall (s : State) (e : Exn),
    length (storedTodos (storage s)) = 12%nat ->
    exists res,
      fst (TodoService.fetchTodos
             {| TodoService.page := Some 1; TodoService.opt_limit := Some 10 |}
             (Rejected e) s) = Return res
      /\ length (TodoService.todos res) = 12%nat
      /\ TodoService.todos res ≡ₚ storedTodos (storage s)
      /\ Sorted newest_first (TodoService.todos res)
      /\ TodoService.total (TodoService.pagination res) = 12
      /\ Pagination.totalPages
           (fst (Pagination.updateTotalItems
                   (TodoService.total (TodoService.pagination res)) false
                   (Pagination.constructor
                      {| Pagination.o_itemsPerPage := Some Config.itemsPerPage;
                         Pagination.o_totalItems := Some 0 |}))) = 2.
Proof.
  intros s e Hlen.
  destruct (fetchTodos_fallback
              {| TodoService.page := Some 1; TodoService.opt_limit := Some 10 |}
              (Rejected e) s (rejected_fails e s)) as [s' Hfetch].
  eexists. rewrite Hfetch. split; [reflexivity |].
  cbn [TodoService.todos TodoService.pagination TodoService.total].
  rewrite sort_newest_first_length, Hlen.
  split; [reflexivity |].
  split; [apply sort_newest_first_perm |].
  split; [apply sort_newest_first_sorted |].
  split; reflexivity.
Qed.

Lemma C3_fallback_twelve_records_witness :
  let s := state_with {| todo_app_creation_dates := Missing;
                         todo_app_local_todos := Parsed twelve_todos;
                         todo_creation_dates := Missing;
                         writable := true |} in
  exists res,
    fst (TodoService.fetchTodos
           {| TodoService.page := Some 1; TodoService.opt_limit := Some 10 |}
           (Rejected OFFLINE) s) = Return res
    /\ length (TodoService.todos res) = 12%nat
    /\ TodoService.total (TodoService.pagination res) = 12.
Proof.
  intros s.
  destruct (C3_fallback_twelve_records s OFFLINE)
    as (res & Hres & Hlen & _ & _ & Htotal & _).
  - reflexivity.
  - exists res. split; [exact Hres |]. split; [exact Hlen | exact Htotal].
Defined.

(** ** Adding a todo *)

(** The todo that [addTodo] makes up when the request fails. *)
Lemma addTodo_rejected (todoData : TodoService.TodoData) (e : Exn) (s : State) :
  exists s',
    TodoService.addTodo todoData (Rejected e) s
    = (Return
         {| id := Z.pos (clock s (reads s));
            title := or_str (TodoService.d_title todoData) (TodoService.d_todo todoData);
            completed := or_false (TodoService.d_completed todoData);
            userId := Some (or_num (TodoService.d_userId todoData) Config.defaultUserId);
            createdAt := Some (Z.pos (clock s (S (reads s))));
            isLocal := Some true; fromApi := None;
            savedAt := None; updatedAt := None |}, s')
    /\ (store_usable (storage s) ->
        exists stamp,
          todo_app_local_todos (storage s')
          = Parsed
              (saved_list
                 {| id := Z.pos (clock s (reads s));
                    title := or_str (TodoService.d_title todoData)
                               (TodoService.d_todo todoData);
                    completed := or_false (TodoService.d_completed todoData);
                    userId := Some (or_num (TodoService.d_userId todoData)
                                      Config.defaultUserId);
                    createdAt := Some (Z.pos (clock s (S (reads s))));
                    isLocal := Some true; fromApi := None;
                    savedAt := None; updatedAt := None |}
                 stamp (storedTodos (storage s)))).
Proof.
  cbv [TodoService.addTodo try_catch bind await throw now ret].
  cbn [clock reads creationDates storage].
  match goal with
  | |- context [TodoService._saveLocalTodo ?fb ?st] =>
      destruct (saveLocalTodo_returns fb st) as [s' Hsave];
      pose proof (saveLocalTodo_usable fb st) as Husable
  end.
  rewrite Hsave. exists s'. split; [reflexivity |].
  intros Hok. destruct Husable as (s'' & Hsave' & Hstored & _); [done | exact Hok |].
  rewrite Hsave in Hsave'. injection Hsave' as <-. eexists. exact Hstored.
Qed.

(** C10, as stated, with a store whose text does not parse: the request
    is rejected, [addTodo] returns the todo it made up, and the store
    does not hold it. *)
Lemma C10_not_saved_counterexample :
  let s := state_with {| todo_app_creation_dates := Missing;
                         todo_app_local_todos := Corrupt;
                         todo_creation_dates := Missing;
                         writable := true |} in
  let r := TodoService.addTodo
             {| TodoService.d_title := Some "buy milk"; TodoService.d_todo := None;
                TodoService.d_completed := Some false; TodoService.d_userId := None |}
             (Rejected OFFLINE) s in
  exists fallbackTodo,
    fst r = Return fallbackTodo
    /\ ~ (exists t, t ∈ storedTodos (storage (snd r)) /\ id t = id fallbackTodo).
Proof.
  intros s r. eexists. split; [vm_compute; reflexivity |].
  intros (t & Ht & _). vm_compute in Ht. by apply elem_of_nil in Ht.
Qed.

(** Nor does a store that refuses the write hold it. *)
Lemma addTodo_store_full :
  let s := state_with {| todo_app_creation_dates := Missing;
                         todo_app_local_todos := Parsed [local_todo 1690000001000];
                         todo_creation_dates := Missing;
                         writable := false |} in
  let r := TodoService.addTodo
             {| TodoService.d_title := Some "buy milk"; TodoService.d_todo := None;
                TodoService.d_completed := Some false; TodoService.d_userId := None |}
             (Rejected OFFLINE) s in
  storedTodos (storage (snd r)) = [local_todo 1690000001000].
Proof. vm_compute. reflexivity. Qed.

(** C10, amended.  When the request is rejected, [addTodo] does not
    throw: it returns a todo whose id is the reading of the clock, whose
    title, completion and user come from the input (the user being 1 by
    default), whose creation date is the next reading of the clock, and
    which is marked as local; and when the store can be read and
    written, the store holds that todo when [addTodo] returns. *)
Theorem C10_addTodo_fallback :
  forall (todoData : TodoService.TodoData) (e : Exn) (s : State),
    let r := TodoService.addTodo todoData (Rejected e) s in
    exists fallbackTodo,
      fst r = Return fallbackTodo
      /\ id fallbackTodo = Z.pos (clock s (reads s))
      /\ title fallbackTodo
         = or_str (TodoService.d_title todoData) (TodoService.d_todo todoData)
      /\ completed fallbackTodo = or_false (TodoService.d_completed todoData)
      /\ userId fallbackTodo
         = Some (or_num (TodoService.d_userId todoData) Config.defaultUserId)
      /\ createdAt fallbackTodo = Some (Z.pos (clock s (S (reads s))))
      /\ isLocal fallbackTodo = Some true
      /\ (store_usable (storage s) ->
          exists t,
            t ∈ storedTodos (storage (snd r))
            /\ id t = id fallbackTodo
            /\ title t = title fallbackTodo
            /\ completed t = completed fallbackTodo
            /\ userId t = userId fallbackTodo
            /\ createdAt t = createdAt fallbackTodo
            /\ isLocal t = Some true).
Proof.
  intros todoData e s r. subst r.
  destruct (addTodo_rejected todoData e s) as (s' & -> & Hsaved).
  eexists. split; [reflexivity |]. cbn [fst snd id title completed userId createdAt isLocal].
  do 6 (split; [reflexivity |]).
  intros Hok. destruct (Hsaved Hok) as [stamp Hstored].
  unfold storedTodos at 1. rewrite Hstored.
  match goal with
  | H : _ = Parsed (saved_list ?fb ?st ?l) |- _ =>
      destruct (saved_list_holds fb st l) as (t & Ht & Hid & Htitle & Hc & Hu & Hd & Hl & _)
  end.
  exists t. split; [exact Ht |]. split; [exact Hid |]. split; [exact Htitle |].
  split; [exact Hc |]. split; [exact Hu |]. split; [exact Hd |]. by apply Hl.
Qed.

(** Offline, over a store that holds one todo. *)
Lemma C10_addTodo_fallback_witness :
  let s := state_with {| todo_app_creation_dates := Missing;
                         todo_app_local_todos := Parsed [local_todo 1690000001000];
                         todo_creation_dates := Missing;
                         writable := true |} in
  let r := TodoService.addTodo
             {| TodoService.d_title := Some "buy milk"; TodoService.d_todo := None;
                TodoService.d_completed := None; TodoService.d_userId := None |}
             (Rejected OFFLINE) s in
  exists fallbackTodo t,
    fst r = Return fallbackTodo
    /\ id fallbackTodo = 1700000000001
    /\ t ∈ storedTodos (storage (snd r))
    /\ id t = 1700000000001
    /\ title t = Some "buy milk"
    /\ isLocal t = Some true.
Proof.
  intros s r.
  destruct (C10_addTodo_fallback
              {| TodoService.d_title := Some "buy milk"; TodoService.d_todo := None;
                 TodoService.d_completed := None; TodoService.d_userId := None |}
              OFFLINE s)
    as (fb & Hfb & Hid & Htitle & _ & _ & _ & _ & Hsaved).
  destruct Hsaved as (t & Ht & Htid & Httitle & _ & _ & _ & Htl).
  - split; [discriminate | reflexivity].
  - exists fb, t. split; [exact Hfb |]. split; [exact Hid |]. split; [exact Ht |].
    split; [by rewrite Htid, Hid |]. split; [by rewrite Httitle, Htitle | exact Htl].
Defined.

(** * Further properties of the code *)

(** ** The store of local todos *)

(** What a save does to the store: nothing, when the todo has no id or
    the store cannot be read or written; the write of [saved_list]
    otherwise. *)
Lemma saveLocalTodo_stored (todo : Todo) (s : State) :
  exists s',
    TodoService._saveLocalTodo todo s = (Return tt, s')
    /\ writable (storage s') = writable (storage s)
    /\ creationDates s' = creationDates s
    /\ clock s' = clock s
    /\ (todo_app_local_todos (storage s') = todo_app_local_todos (storage s)
        /\ (id todo = 0 \/ ~ store_usable (storage s))
        \/ id todo <> 0
           /\ store_usable (storage s)
           /\ todo_app_local_todos (storage s')
              = Parsed (saved_list todo (Z.pos (clock s (reads s)))
                          (storedTodos (storage s)))).
Proof.
  unfold store_usable.
  cbv [TodoService._saveLocalTodo try_catch bind get_storage parse_or now put_storage
       throw ret storedTodos].
  destruct (Z.eqb_spec (id todo) 0) as [Hz | Hnz].
  { eexists. repeat (split; [reflexivity |]). left. split; [done | by left]. }
  destruct (todo_app_local_todos (storage s)) eqn:Hl;
    destruct (writable (storage s)) eqn:Hw; eexists;
    (split; [reflexivity |]);
    cbn [storage writable creationDates clock todo_app_local_todos];
    rewrite ?Hw, ?Hl; repeat (split; [reflexivity |]);
    first [ right; by repeat split
          | left; split; [reflexivity | right; intros [? ?]; congruence] ].
Qed.

Lemma storedTodos_Parsed (ls : LocalStorage) (l : list Todo) :
  todo_app_local_todos ls = Parsed l -> storedTodos ls = l.
Proof. unfold storedTodos. by intros ->. Qed.

Lemma saved_list_no_zero (todo : Todo) (stamp : Z) (l : list Todo) :
  id todo <> 0 -> 0 ∉ id <$> l -> 0 ∉ id <$> saved_list todo stamp l.
Proof.
  intros Hid Hl. rewrite saved_list_ids.
  destruct (TodoService.findIndex (id todo) l); [done |].
  rewrite elem_of_app, list_elem_of_singleton. intros [? | ?]; [done | congruence].
Qed.

Lemma saved_list_length (todo : Todo) (stamp : Z) (l : list Todo) :
  length (saved_list todo stamp l)
  = if bool_decide (id todo ∈ id <$> l) then length l else S (length l).
Proof.
  unfold saved_list.
  destruct (TodoService.findIndex (id todo) l) as [k |] eqn:Hf.
  - destruct (findIndex_Some _ _ _ Hf) as (old & Hk & Hid). rewrite Hk, length_insert.
    rewrite bool_decide_true; [done |].
    rewrite <- Hid. apply list_elem_of_fmap_2. by eapply list_elem_of_lookup_2.
  - apply findIndex_None in Hf. rewrite bool_decide_false by done.
    rewrite length_app. cbn. lia.
Qed.

(** X1.  [_saveLocalTodo] never throws, and it keeps the store well
    formed: when no id occurs twice among the stored todos and none of
    them has id 0, the same holds after the save, whatever the todo and
    whatever the state of the store. *)
Theorem X1_saveLocalTodo_keeps_store_well_formed :
  forall (todo : Todo) (s : State),
    NoDup (id <$> storedTodos (storage s)) ->
    0 ∉ id <$> storedTodos (storage s) ->
    exists s',
      TodoService._saveLocalTodo todo s = (Return tt, s')
      /\ NoDup (id <$> storedTodos (storage s'))
      /\ 0 ∉ id <$> storedTodos (storage s').
Proof.
  intros todo s Hnd Hz.
  destruct (saveLocalTodo_stored todo s) as (s' & Hs & _ & _ & _ & Hcase).
  exists s'. split; [exact Hs |].
  destruct Hcase as [[Hsame _] | (Hid & _ & Hsaved)].
  - unfold storedTodos in *. by rewrite Hsame.
  - rewrite (storedTodos_Parsed _ _ Hsaved).
    split; [by apply saved_list_NoDup | by apply saved_list_no_zero].
Qed.

Lemma X1_saveLocalTodo_keeps_store_well_formed_witness :
  let s := state_with {| todo_app_creation_dates := Missing;
                         todo_app_local_todos := Parsed [local_todo 1690000001000];
                         todo_creation_dates := Missing;
                         writable := true |} in
  exists s',
    TodoService._saveLocalTodo (local_todo 1690000001000) s = (Return tt, s')
    /\ NoDup (id <$> storedTodos (storage s')).
Proof.
  intros s.
  destruct (X1_saveLocalTodo_keeps_store_well_formed (local_todo 1690000001000) s)
    as (s' & Hs & Hnd & _).
  - apply NoDup_singleton.
  - intros H%list_elem_of_In. vm_compute in H. destruct H as [H | []]. discriminate.
  - exists s'. by split.
Defined.

(** X2.  With a store that can be read and written, a todo whose id is
    not 0 is found again after it was saved: [_getLocalTodos] returns a
    record with its id, title, completion, user and creation date.  The
    store grows by one record when the id is new, and keeps its size
    when the id was stored already. *)
Theorem X2_save_then_load :
  forall (todo : Todo) (s : State),
    id todo <> 0 -> store_usable (storage s) ->
    let s' := snd (TodoService._saveLocalTodo todo s) in
    exists loaded,
      TodoService._getLocalTodos false s' = (Return loaded, s')
      /\ (exists t, t ∈ loaded
            /\ id t = id todo /\ title t = title todo
            /\ completed t = completed todo /\ userId t = userId todo
            /\ createdAt t = createdAt todo)
      /\ length loaded
         = if bool_decide (id todo ∈ id <$> storedTodos (storage s))
           then length (storedTodos (storage s))
           else S (length (storedTodos (storage s))).
Proof.
  intros todo s Hid Hok s'. subst s'.
  destruct (saveLocalTodo_usable todo s Hid Hok) as (s' & -> & Hstored & _).
  cbn [snd]. rewrite getLocalTodos_eq. eexists. split; [reflexivity |].
  rewrite (storedTodos_Parsed _ _ Hstored). split.
  - destruct (saved_list_holds todo (Z.pos (clock s (reads s))) (storedTodos (storage s)))
      as (t & Ht & H1 & H2 & H3 & H4 & H5 & _).
    exists t. split; [by rewrite sort_newest_first_perm | done].
  - by rewrite sort_newest_first_length, saved_list_length.
Qed.

Lemma X2_save_then_load_witness :
  let s := state_with {| todo_app_creation_dates := Missing;
                         todo_app_local_todos := Parsed [local_todo 1690000001000];
                         todo_creation_dates := Missing;
                         writable := true |} in
  let s' := snd (TodoService._saveLocalTodo (local_todo 1690000002000) s) in
  exists loaded,
    TodoService._getLocalTodos false s' = (Return loaded, s')
    /\ length loaded = 2%nat.
Proof.
  intros s s'.
  destruct (X2_save_then_load (local_todo 1690000002000) s)
    as (loaded & Hl & _ & Hlen).
  - vm_compute. discriminate.
  - split; [discriminate | reflexivity].
  - exists loaded. split; [exact Hl |]. rewrite Hlen. vm_compute. reflexivity.
Defined.

(** ** Creation dates and the store *)

(** Resolving a date leaves the stored todos alone; a first resolution
    with a store that takes the write leaves the whole cache in it. *)
Lemma getOrCreateTodoDate_storage (s : State) (i : Z) :
  let s' := snd (TodoService._getOrCreateTodoDate i s) in
  todo_app_local_todos (storage s') = todo_app_local_todos (storage s)
  /\ writable (storage s') = writable (storage s)
  /\ (creationDates s !! i = None -> writable (storage s) = true ->
      todo_app_creation_dates (storage s') = Parsed (creationDates s')).
Proof.
  destruct (creationDates s !! i) as [d |] eqn:Hi.
  - rewrite (getOrCreateTodoDate_cached s i d Hi). cbn. by repeat split.
  - cbv [TodoService._getOrCreateTodoDate bind get_creationDates]. rewrite Hi.
    cbv [TodoService._saveCreationDates bind try_catch get_creationDates get_storage
         now put_creationDates put_storage throw ret storage writable creationDates
         clock reads snd].
    destruct s as [c r m [d1 d2 d3 w]]. cbn in *. destruct w; cbn; by repeat split.
Qed.

(** A date once cached is never replaced. *)
Lemma getOrCreateTodoDate_keeps (s : State) (i j : Z) (d : Z) :
  creationDates s !! j = Some d ->
  creationDates (snd (TodoService._getOrCreateTodoDate i s)) !! j = Some d.
Proof.
  intros Hj. destruct (decide (i = j)) as [-> | Hne].
  - by rewrite (getOrCreateTodoDate_cached s j d Hj).
  - by rewrite getOrCreateTodoDate_frame.
Qed.

Lemma getOrCreateTodoDate_result (s : State) (i : Z) :
  exists d,
    fst (TodoService._getOrCreateTodoDate i s) = Return d
    /\ creationDates (snd (TodoService._getOrCreateTodoDate i s)) !! i = Some d.
Proof.
  destruct (creationDates s !! i) as [d |] eqn:Hi.
  - exists d. by rewrite (getOrCreateTodoDate_cached s i d Hi).
  - destruct (getOrCreateTodoDate_fresh s i Hi) as [ls' ->].
    eexists. split; [reflexivity |]. cbn. by rewrite lookup_insert_eq.
Qed.

(** X3.  A creation date survives a restart: when an id is resolved for
    the first time and the store takes the write, a service started
    later on that store, whatever its clock, gives the id the same
    date. *)
Theorem X3_date_survives_restart :
  forall (s : State) (todoId : Z) (later : State),
    creationDates s !! todoId = None ->
    writable (storage s) = true ->
    storage later = storage (snd (TodoService._getOrCreateTodoDate todoId s)) ->
    fst (TodoService._getOrCreateTodoDate todoId
           (snd (TodoService.constructor later)))
    = fst (TodoService._getOrCreateTodoDate todoId s).
Proof.
  intros s todoId later Hnew Hw Hlater.
  destruct (getOrCreateTodoDate_storage s todoId) as (_ & _ & Hsaved).
  specialize (Hsaved Hnew Hw).
  destruct (getOrCreateTodoDate_result s todoId) as (d & Hd & Hcache).
  rewrite Hd.
  assert (Hloaded : creationDates (snd (TodoService.constructor later))
                    = creationDates (snd (TodoService._getOrCreateTodoDate todoId s))).
  { cbv [TodoService.constructor TodoService._loadCreationDates bind try_catch
         get_storage parse_or put_creationDates ret snd].
    rewrite Hlater, Hsaved. reflexivity. }
  rewrite (getOrCreateTodoDate_cached _ todoId d); [done |].
  by rewrite Hloaded.
Qed.

Lemma X3_date_survives_restart_witness :
  let s := state_with empty_storage in
  let later :=
    {| clock := fun _ => 1800000000000%positive; reads := 0; creationDates := ∅;
       storage := storage (snd (TodoService._getOrCreateTodoDate 7 s)) |} in
  fst (TodoService._getOrCreateTodoDate 7 (snd (TodoService.constructor later)))
  = fst (TodoService._getOrCreateTodoDate 7 s).
Proof.
  intros s later.
  apply (X3_date_survives_restart s 7 later); reflexivity.
Defined.

(** X4.  The date that [_getOrCreateTodoDate] makes up for an id that is
    not negative is never in the future and at most 29 days old, counted
    from the reading of the clock. *)
Theorem X4_simulated_date_within_29_days :
  forall (s : State) (todoId : Z) (d : Z),
    0 <= todoId ->
    creationDates s !! todoId = None ->
    fst (TodoService._getOrCreateTodoDate todoId s) = Return d ->
    Z.pos (clock s (reads s)) - 29 * MS_PER_DAY <= d <= Z.pos (clock s (reads s)).
Proof.
  intros s todoId d Hid Hnew.
  destruct (getOrCreateTodoDate_fresh s todoId Hnew) as [ls' ->]. cbn [fst].
  intros [= <-]. rewrite Z.rem_mod_nonneg by lia.
  pose proof (Z.mod_pos_bound todoId 30). unfold MS_PER_DAY. lia.
Qed.

Lemma X4_simulated_date_within_29_days_witness :
  let s := state_with empty_storage in
  1700000000001 - 29 * MS_PER_DAY <= 1700000000001 - 29 * MS_PER_DAY <= 1700000000001.
Proof.
  intros s.
  apply (X4_simulated_date_within_29_days s 59 (1700000000001 - 29 * MS_PER_DAY));
    [lia | reflexivity | reflexivity].
Defined.

(** ** Normalising a page *)

Lemma dates_only_refl (s : State) : dates_only s s.
Proof. by repeat split. Qed.

Lemma dates_only_trans (s1 s2 s3 : State) :
  dates_only s1 s2 -> dates_only s2 s3 -> dates_only s1 s3.
Proof.
  intros (Ha & Hb & Hc) (Ha' & Hb' & Hc'). split; [congruence |].
  split; [congruence | eauto].
Qed.

Lemma getOrCreateTodoDate_dates_only (s : State) (i : Z) :
  dates_only s (snd (TodoService._getOrCreateTodoDate i s)).
Proof.
  destruct (getOrCreateTodoDate_storage s i) as (Ha & Hb & _).
  split; [exact Ha |]. split; [exact Hb |].
  intros j d. apply getOrCreateTodoDate_keeps.
Qed.

Lemma transformTodoItem_dates_only (raw : option RawTodo) (s : State) :
  dates_only s (snd (TodoService._transformTodoItem raw s))
  /\ forall t, fst (TodoService._transformTodoItem raw s) = Return t ->
       exists d, createdAt t = Some d
         /\ creationDates (snd (TodoService._transformTodoItem raw s)) !! id t = Some d.
Proof.
  unfold TodoService._transformTodoItem.
  destruct raw as [r |]; [| split; [apply dates_only_refl | done]].
  destruct (r_id r) as [i |]; [| split; [apply dates_only_refl | done]].
  unfold bind.
  pose proof (getOrCreateTodoDate_dates_only s i) as Hframe.
  destruct (getOrCreateTodoDate_result s i) as (d & Hd & Hcache).
  destruct (TodoService._getOrCreateTodoDate i s) as [c s1]. cbn in *. subst c.
  split; [exact Hframe |]. intros t [= <-]. by exists d.
Qed.

Lemma mapM_transformTodoItem_dates_only (items : list (option RawTodo)) :
  forall s : State, dates_only s (snd (mapM TodoService._transformTodoItem items s)).
Proof.
  induction items as [| raw items IH]; intros s; cbn [mapM].
  - apply dates_only_refl.
  - unfold bind.
    destruct (transformTodoItem_dates_only raw s) as [Hf1 _].
    destruct (TodoService._transformTodoItem raw s) as [[t | e] s1]; cbn in Hf1;
      [| exact Hf1].
    pose proof (IH s1) as Hf2.
    destruct (mapM TodoService._transformTodoItem items s1) as [[ts | e] s2];
      cbn in Hf2 |- *; by eapply dates_only_trans.
Qed.

(** Every normalised todo carries the date that the cache holds for its
    id when the page is done. *)
Lemma mapM_transformTodoItem_dates (items : list (option RawTodo)) :
  forall (s s' : State) (tds : list Todo),
    mapM TodoService._transformTodoItem items s = (Return tds, s') ->
    Forall (fun t => exists d, createdAt t = Some d
                       /\ creationDates s' !! id t = Some d) tds.
Proof.
  induction items as [| raw items IH]; intros s s' tds; cbn [mapM].
  - intros [= <- <-]. constructor.
  - unfold bind.
    destruct (transformTodoItem_dates_only raw s) as [_ Hd1].
    destruct (TodoService._transformTodoItem raw s) as [[t | e] s1]; cbn in Hd1;
      [| done].
    pose proof (mapM_transformTodoItem_dates_only items s1) as Hf2.
    destruct (mapM TodoService._transformTodoItem items s1) as [[ts | e] s2] eqn:Hm;
      cbn in Hf2; [| done].
    intros [= <- <-]. constructor; [| by eapply IH].
    destruct Hf2 as (_ & _ & Hkeep).
    destruct (Hd1 t eq_refl) as (d & Hc & Hcache).
    exists d. split; [exact Hc | by apply Hkeep].
Qed.

Lemma transformTodosResponse_dates_only (response : TodoService.Response) (s : State) :
  dates_only s (snd (TodoService._transformTodosResponse response s)).
Proof.
  destruct response as [items | field total lim sk |]; cbn;
    [| | apply dates_only_refl].
  - unfold bind. pose proof (mapM_transformTodoItem_dates_only items s) as H.
    by destruct (mapM TodoService._transformTodoItem items s) as [[ts | e] s1].
  - destruct field as [| | items]; [| apply dates_only_refl |]; unfold bind.
    + cbn. apply dates_only_refl.
    + pose proof (mapM_transformTodoItem_dates_only items s) as H.
      by destruct (mapM TodoService._transformTodoItem items s) as [[ts | e] s1].
Qed.

Lemma transformTodosResponse_dates (response : TodoService.Response)
    (s s' : State) (td : TodoService.FetchResult) :
  TodoService._transformTodosResponse response s = (Return td, s') ->
  Forall (fun t => exists d, createdAt t = Some d /\ creationDates s' !! id t = Some d)
    (TodoService.todos td).
Proof.
  destruct response as [items | field total lim sk |]; cbn; [| | done].
  - unfold bind.
    destruct (mapM TodoService._transformTodoItem items s) as [[ts | e] s1] eqn:Hm;
      [| done].
    intros [= <- <-]. by eapply mapM_transformTodoItem_dates.
  - destruct field as [| | items]; [| done |]; unfold bind.
    + cbn. intros [= <- <-]. constructor.
    + destruct (mapM TodoService._transformTodoItem items s) as [[ts | e] s1] eqn:Hm;
        [| done].
      intros [= <- <-]. by eapply mapM_transformTodoItem_dates.
Qed.

(** X5.  When a page normalises, every todo of it carries a creation
    date, and it is the date that the cache then holds for its id: two
    items of one id get the same date, and no date cached before was
    changed. *)
Theorem X5_normalised_dates_agree_with_cache :
  forall (response : TodoService.Response) (s s' : State) (td : TodoService.FetchResult),
    TodoService._transformTodosResponse response s = (Return td, s') ->
    (forall t, t ∈ TodoService.todos td ->
       exists d, createdAt t = Some d /\ creationDates s' !! id t = Some d)
    /\ (forall t u, t ∈ TodoService.todos td -> u ∈ TodoService.todos td ->
          id t = id u -> createdAt t = createdAt u)
    /\ (forall j d, creationDates s !! j = Some d -> creationDates s' !! j = Some d).
Proof.
  intros response s s' td Htd.
  pose proof (transformTodosResponse_dates response s s' td Htd) as Hall.
  rewrite Forall_forall in Hall.
  pose proof (transformTodosResponse_dates_only response s) as (_ & _ & Hkeep).
  rewrite Htd in Hkeep. cbn in Hkeep.
  split; [exact Hall |]. split; [| exact Hkeep].
  intros t u Ht Hu Hid.
  destruct (Hall t Ht) as (d & -> & Hd). destruct (Hall u Hu) as (d' & -> & Hd').
  congruence.
Qed.

Lemma X5_normalised_dates_agree_with_cache_witness :
  exists td s',
    TodoService._transformTodosResponse
      (TodoService.RespArray
         [Some {| r_id := Some 4; r_todo := Some "walk"; r_title := None;
                  r_completed := None; r_userId := None |};
          Some {| r_id := Some 4; r_todo := Some "walk"; r_title := None;
                  r_completed := None; r_userId := None |}])
      (state_with empty_storage)
    = (Return td, s')
    /\ forall t u, t ∈ TodoService.todos td -> u ∈ TodoService.todos td ->
                   id t = id u -> createdAt t = createdAt u.
Proof.
  destruct (TodoService._transformTodosResponse
              (TodoService.RespArray
                 [Some {| r_id := Some 4; r_todo := Some "walk"; r_title := None;
                          r_completed := None; r_userId := None |};
                  Some {| r_id := Some 4; r_todo := Some "walk"; r_title := None;
                          r_completed := None; r_userId := None |}])
              (state_with empty_storage))
    as [c s'] eqn:Htd.
  destruct c as [td | e]; [| exfalso; vm_compute in Htd; discriminate].
  exists td, s'. split; [reflexivity |].
  apply (X5_normalised_dates_agree_with_cache _ _ s' td Htd).
Defined.

(** ** What [fetchTodos] does to the store *)

Lemma findIndex_beyond (i : Z) (base ext : list Todo) (k : nat) :
  i ∉ id <$> base ->
  TodoService.findIndex i (base ++ ext) = Some k -> (length base <= k)%nat.
Proof.
  intros Hi Hf. destruct (findIndex_Some _ _ _ Hf) as (old & Hk & Hid).
  destruct (decide (k < length base)%nat) as [Hlt | Hge]; [| lia].
  rewrite lookup_app_l in Hk by done.
  exfalso. apply Hi. rewrite <- Hid. apply list_elem_of_fmap_2.
  by eapply list_elem_of_lookup_2.
Qed.

Lemma saved_list_prefix (todo : Todo) (stamp : Z) (base l : list Todo) :
  id todo ∉ id <$> base -> base `prefix_of` l ->
  base `prefix_of` saved_list todo stamp l.
Proof.
  intros Hi [ext ->]. unfold saved_list.
  destruct (TodoService.findIndex (id todo) (base ++ ext)) as [k |] eqn:Hf.
  - pose proof (findIndex_beyond _ _ _ _ Hi Hf) as Hk.
    destruct ((base ++ ext) !! k); [| by eexists].
    rewrite insert_app_r_alt by done. by eexists.
  - rewrite <- (assoc_L (++)). by eexists.
Qed.

Lemma saved_list_ids_grow (todo : Todo) (stamp : Z) (l : list Todo) (i : Z) :
  i ∈ id <$> l -> i ∈ id <$> saved_list todo stamp l.
Proof.
  intros Hi. rewrite saved_list_ids.
  destruct (TodoService.findIndex (id todo) l); [done |].
  apply elem_of_app. by left.
Qed.

Lemma saved_list_has_id (todo : Todo) (stamp : Z) (l : list Todo) :
  id todo ∈ id <$> saved_list todo stamp l.
Proof.
  destruct (saved_list_holds todo stamp l) as (t & Ht & Hid & _).
  rewrite <- Hid. by apply list_elem_of_fmap_2.
Qed.

(** A save of a todo whose id is not among [base]. *)
Lemma saveLocalTodo_store_grows (base : list Todo) (todo : Todo) (s : State) :
  id todo ∉ id <$> base ->
  base `prefix_of` storedTodos (storage s) ->
  let s' := snd (TodoService._saveLocalTodo todo s) in
  store_grows base s s'
  /\ (id todo <> 0 -> store_usable (storage s) ->
      id todo ∈ id <$> storedTodos (storage s')).
Proof.
  intros Hi Hpre.
  destruct (saveLocalTodo_stored todo s) as (s' & -> & Hw & Hc & _ & Hcase).
  cbn [snd]. destruct Hcase as [[Hsame Hwhy] | (Hid & Hok & Hsaved)].
  - split.
    + unfold store_grows, storedTodos in *. rewrite Hsame. by repeat split.
    + intros Hid Hok. by destruct Hwhy.
  - unfold store_grows. rewrite (storedTodos_Parsed _ _ Hsaved). split.
    + split; [by apply saved_list_prefix |]. split; [exact Hw |].
      split; [intros _; by rewrite Hsaved |].
      split; [intros i; apply saved_list_ids_grow | exact Hc].
    + intros _ _. apply saved_list_has_id.
Qed.

Lemma store_grows_refl (base : list Todo) (s : State) :
  base `prefix_of` storedTodos (storage s) -> store_grows base s s.
Proof. intros H. by repeat split. Qed.

Lemma store_grows_trans (base : list Todo) (s1 s2 s3 : State) :
  store_grows base s1 s2 -> store_grows base s2 s3 -> store_grows base s1 s3.
Proof.
  intros (_ & Hw & Hc & Hi & Hd) (Hp & Hw' & Hc' & Hi' & Hd').
  split; [exact Hp |]. split; [congruence |]. split; [eauto |].
  split; [eauto | congruence].
Qed.

Lemma persist_store_grows (base localTodos : list Todo) (todo : Todo) (s : State) :
  (forall i, i ∈ id <$> localTodos <-> i ∈ id <$> base) ->
  base `prefix_of` storedTodos (storage s) ->
  let s' := snd (persist localTodos todo s) in
  store_grows base s s'
  /\ (id todo <> 0 -> store_usable (storage s) ->
      id todo ∈ id <$> storedTodos (storage s')).
Proof.
  intros Hids Hpre. unfold persist.
  destruct (existsb (fun lt => id lt =? id todo) localTodos) eqn:Hex; cbn [negb].
  - cbn. split; [by apply store_grows_refl |]. intros _ _.
    apply existsb_id, Hids in Hex.
    destruct Hpre as [ext ->]. rewrite fmap_app. apply elem_of_app. by left.
  - apply (saveLocalTodo_store_grows base (TodoService.with_fromApi todo) s); [| done].
    cbn. intros Hin. apply Hids, existsb_id in Hin. congruence.
Qed.

Lemma forEach_persist_store_grows (base localTodos : list Todo) (todos : list Todo) :
  (forall i, i ∈ id <$> localTodos <-> i ∈ id <$> base) ->
  forall s : State,
    base `prefix_of` storedTodos (storage s) ->
    let s' := snd (forEach (persist localTodos) todos s) in
    store_grows base s s'
    /\ (store_usable (storage s) ->
        forall t, t ∈ todos -> id t <> 0 -> id t ∈ id <$> storedTodos (storage s')).
Proof.
  intros Hids. induction todos as [| todo todos IH]; intros s Hpre; cbn [forEach].
  - cbn. split; [by apply store_grows_refl |]. intros _ t Ht. by apply elem_of_nil in Ht.
  - unfold bind.
    destruct (persist_store_grows base localTodos todo s Hids Hpre) as [Hg1 Hin1].
    destruct (persist localTodos todo s) as [[[] | e] s1] eqn:Hp; cbn [snd] in Hg1, Hin1.
    + destruct (IH s1 (proj1 Hg1)) as [Hg2 Hin2]. cbn zeta in Hg2, Hin2.
      split; [by eapply store_grows_trans |].
      intros Hok t Ht Hid.
      assert (Hok1 : store_usable (storage s1)).
      { destruct Hok as [Hnc Hw], Hg1 as (_ & Hw1 & Hc1 & _).
        split; [by apply Hc1 | congruence]. }
      apply elem_of_cons in Ht as [-> | Ht].
      * destruct Hg2 as (_ & _ & _ & Hmono & _). apply Hmono. by apply Hin1.
      * by apply Hin2.
    + exfalso. unfold persist in Hp.
      destruct (negb _); [| done].
      destruct (saveLocalTodo_returns (TodoService.with_fromApi todo) s) as [s' Hs].
      congruence.
Qed.

(** The state in which [fetchTodos] ends. *)
Lemma fetchTodos_state (options : TodoService.FetchOptions)
    (remote : ApiOutcome TodoService.Response) (s : State) :
  snd (TodoService.fetchTodos options remote s)
  = match remote with
    | Rejected _ => s
    | Resolved response =>
        match TodoService._transformTodosResponse response s with
        | (Return td, s1) =>
            snd (forEach
                   (persist (TodoService.sort_newest_first (storedTodos (storage s))))
                   (TodoService.todos td) s1)
        | (Throw _, s1) => s1
        end
    end.
Proof.
  cbv [TodoService.fetchTodos try_catch bind]. rewrite getLocalTodos_eq.
  destruct remote as [response | e]; cbv [await ret throw]; [| reflexivity].
  destruct (TodoService._transformTodosResponse response s) as [[td | e] s1];
    [| reflexivity].
  change (fun todo : Todo =>
            if negb (existsb (fun lt => id lt =? id todo)
                       (TodoService.sort_newest_first (storedTodos (storage s))))
            then TodoService._saveLocalTodo (TodoService.with_fromApi todo)
            else fun s0 : State => (Return tt, s0))
    with (persist (TodoService.sort_newest_first (storedTodos (storage s)))).
  destruct (forEach _ (TodoService.todos td) s1) as [[[] | e] s2]; cbn [snd];
    [| reflexivity].
  by destruct (0 <? length _)%nat.
Qed.

Lemma sort_newest_first_ids (l : list Todo) (i : Z) :
  i ∈ id <$> TodoService.sort_newest_first l <-> i ∈ id <$> l.
Proof. by rewrite sort_newest_first_perm. Qed.

(** X6.  [fetchTodos] never throws, whatever the request settles to, and
    its result never loses a stored todo: every id of the store is the
    id of a record of the result. *)
Theorem X6_fetchTodos_total_and_keeps_stored_ids :
  forall (options : TodoService.FetchOptions)
         (remote : ApiOutcome TodoService.Response) (s : State),
    exists res,
      fst (TodoService.fetchTodos options remote s) = Return res
      /\ forall i, i ∈ id <$> storedTodos (storage s) ->
                   i ∈ id <$> TodoService.todos res.
Proof.
  intros options remote s.
  assert (Hcase : remote_call_fails remote s
                  \/ exists response td s1,
                       remote = Resolved response
                       /\ TodoService._transformTodosResponse response s = (Return td, s1)).
  { destruct remote as [response | e]; [| by left]. cbn.
    destruct (TodoService._transformTodosResponse response s) as [[td | e] s1] eqn:Htd.
    - right. by exists response, td, s1.
    - left. by exists e. }
  destruct Hcase as [Hfail | (response & td & s1 & -> & Htd)].
  - destruct (fetchTodos_fallback options remote s Hfail) as [s' ->].
    eexists. split; [reflexivity |]. cbn. intros i. by rewrite sort_newest_first_ids.
  - destruct (fetchTodos_resolved options response s s1 td Htd) as [s2 ->]. cbv zeta.
    eexists. split; [reflexivity |]. intros i Hi.
    set (localTodos := TodoService.sort_newest_first (storedTodos (storage s))).
    assert (Hgoal : i ∈ id <$> survivors localTodos (TodoService.todos td)
                                ++ TodoService.todos td).
    { rewrite fmap_app, elem_of_app.
      destruct (decide (i ∈ id <$> TodoService.todos td)) as [Hin | Hout]; [by right |].
      left. apply sort_newest_first_ids in Hi. fold localTodos in Hi.
      apply list_elem_of_fmap in Hi as (t & -> & Ht).
      apply list_elem_of_fmap_2, survivors_elem. by split. }
    destruct (Nat.ltb_spec 0 (length (survivors localTodos (TodoService.todos td))))
      as [Hpos | Hzero]; cbn [fst TodoService.todos]; [exact Hgoal |].
    assert (Hnil : survivors localTodos (TodoService.todos td) = [])
      by (apply nil_length_inv; lia).
    by rewrite Hnil in Hgoal.
Qed.

(** X7.  [fetchTodos] only adds to the store: whatever the request
    settles to, the todos stored before are still stored afterwards, in
    front, in their order and unchanged.  When the page normalises and
    the store can be read and written, every remote todo whose id is not
    0 has its id in the store afterwards. *)
Theorem X7_fetchTodos_only_adds_to_store :
  forall (options : TodoService.FetchOptions)
         (remote : ApiOutcome TodoService.Response) (s : State),
    let s' := snd (TodoService.fetchTodos options remote s) in
    storedTodos (storage s) `prefix_of` storedTodos (storage s')
    /\ (forall response td s1,
          remote = Resolved response ->
          TodoService._transformTodosResponse response s = (Return td, s1) ->
          store_usable (storage s) ->
          forall t, t ∈ TodoService.todos td -> id t <> 0 ->
                    id t ∈ id <$> storedTodos (storage s')).
Proof.
  intros options remote s s'. subst s'. rewrite fetchTodos_state.
  destruct remote as [response | e]; [| split; [done | intros; discriminate]].
  pose proof (transformTodosResponse_dates_only response s) as (Hl & Hw & _).
  destruct (TodoService._transformTodosResponse response s) as [[td | e] s1] eqn:Htd;
    cbn [snd] in Hl, Hw.
  - assert (Hstored : storedTodos (storage s1) = storedTodos (storage s))
      by (unfold storedTodos; by rewrite Hl).
    destruct (forEach_persist_store_grows (storedTodos (storage s))
                (TodoService.sort_newest_first (storedTodos (storage s)))
                (TodoService.todos td)) with (s := s1) as [Hg Hin].
    + intros i. apply sort_newest_first_ids.
    + by rewrite Hstored.
    + cbn zeta in Hg, Hin. split; [apply Hg |].
      intros response' td' s1' [= <-] Htd' Hok.
      rewrite Htd in Htd'. injection Htd' as <- <-. apply Hin.
      destruct Hok as [Hnc Hwr]. split; [by rewrite Hl | by rewrite Hw].
  - split; [| intros ? ? ? [= <-] Htd'; rewrite Htd in Htd'; discriminate].
    unfold storedTodos. by rewrite Hl.
Qed.

(** A page with the todos 1 and 2 over a store that holds one todo. *)
Lemma X7_fetchTodos_only_adds_to_store_witness :
  let s := state_with {| todo_app_creation_dates := Missing;
                         todo_app_local_todos := Parsed [local_todo 1690000001000];
                         todo_creation_dates := Missing;
                         writable := true |} in
  let response :=
    TodoService.RespArray
      [ Some {| r_id := Some 1; r_todo := Some "walk"; r_title := None;
                r_completed := None; r_userId := None |};
        Some {| r_id := Some 2; r_todo := None; r_title := Some "read";
                r_completed := None; r_userId := None |} ] in
  let s' := snd (TodoService.fetchTodos
                   {| TodoService.page := None; TodoService.opt_limit := None |}
                   (Resolved response) s) in
  [local_todo 1690000001000] `prefix_of` storedTodos (storage s')
  /\ 2 ∈ id <$> storedTodos (storage s').
Proof.
  intros s response s'.
  pose proof (X7_fetchTodos_only_adds_to_store
                {| TodoService.page := None; TodoService.opt_limit := None |}
                (Resolved response) s) as [Hpre Hin].
  split; [exact Hpre |].
  destruct (TodoService._transformTodosResponse response s) as [c s1] eqn:Htd.
  destruct c as [td | e]; [| exfalso; vm_compute in Htd; discriminate].
  assert (Hok : store_usable (storage s)) by (split; [discriminate | reflexivity]).
  pose proof (Hin response td s1 eq_refl Htd Hok) as Hall.
  pose proof Htd as Hval. vm_compute in Hval. injection Hval as Hval _.
  rewrite <- Hval in Hall.
  apply (Hall _ (list_elem_of_further _ _ _ (list_elem_of_here _ _))).
  discriminate.
Defined.

(** ** Adding a todo, in full *)

(** When the request resolves with an item that has an id, [addTodo]
    returns the normalised item and saves it, marked as remote. *)
Lemma addTodo_resolved (todoData : TodoService.TodoData) (r : RawTodo) (i : Z) (s : State) :
  r_id r = Some i ->
  exists t s1,
    TodoService._transformTodoItem (Some r) s = (Return t, s1)
    /\ TodoService.addTodo todoData (Resolved (Some r)) s
       = (Return t, snd (TodoService._saveLocalTodo (TodoService.with_fromApi t) s1)).
Proof.
  intros Hi.
  destruct (TodoService._transformTodoItem (Some r) s) as [[t | e] s1] eqn:Ht.
  - exists t, s1. split; [reflexivity |].
    cbv [TodoService.addTodo try_catch bind await ret]. rewrite Ht.
    destruct (saveLocalTodo_returns (TodoService.with_fromApi t) s1) as [s2 ->].
    reflexivity.
  - exfalso. unfold TodoService._transformTodoItem in Ht. rewrite Hi in Ht.
    unfold bind in Ht.
    destruct (getOrCreateTodoDate_result s i) as (d & Hd & _).
    destruct (TodoService._getOrCreateTodoDate i s) as [c s']. cbn in Hd. subst c.
    discriminate.
Qed.

(** When the request is rejected, or resolves with nothing or with an
    item without id, [addTodo] falls back on a local todo. *)
Lemma addTodo_falls_back (todoData : TodoService.TodoData)
    (remote : ApiOutcome (option RawTodo)) (s : State) :
  match remote with
  | Rejected _ | Resolved None => True
  | Resolved (Some r) => r_id r = None
  end ->
  TodoService.addTodo todoData remote s
  = TodoService.addTodo todoData (Rejected TypeError) s.
Proof.
  intros H. destruct remote as [[r |] | e]; [| reflexivity | reflexivity].
  cbv [TodoService.addTodo TodoService._transformTodoItem try_catch bind await ret throw].
  by rewrite H.
Qed.


(** X9.  When the request resolves with an item whose id is not 0 and
    the store can be read and written, the store holds the added todo
    when [addTodo] returns, under the id and with the creation date of
    the returned todo, and marked as coming from the remote side. *)
Theorem X9_addTodo_saves_remote_todo :
  forall (todoData : TodoService.TodoData) (r : RawTodo) (i : Z) (s : State) (t : Todo),
    r_id r = Some i -> i <> 0 -> store_usable (storage s) ->
    fst (TodoService.addTodo todoData (Resolved (Some r)) s) = Return t ->
    exists u,
      u ∈ storedTodos (storage (snd (TodoService.addTodo todoData (Resolved (Some r)) s)))
      /\ id u = i /\ id t = i
      /\ title u = title t
      /\ createdAt u = createdAt t
      /\ fromApi u = Some true.
Proof.
  intros todoData r i s t Hi Hnz Hok.
  destruct (addTodo_resolved todoData r i s Hi) as (t' & s1 & Ht & ->).
  cbn [fst snd]. intros [= ->].
  destruct (transformTodoItem_Return _ _ _ _ Ht) as (r' & [= <-] & Hid & _).
  assert (Hidt : id t = i) by congruence.
  destruct (transformTodoItem_dates_only (Some r) s) as [(Hl & Hw & _) _].
  rewrite Ht in Hl, Hw. cbn [snd] in Hl, Hw.
  assert (Hok1 : store_usable (storage s1)).
  { destruct Hok as [Hnc Hwr]. split; [by rewrite Hl | by rewrite Hw]. }
  destruct (saveLocalTodo_usable (TodoService.with_fromApi t) s1) as (s2 & -> & Hst & _);
    [cbn; congruence | exact Hok1 |].
  cbn [snd]. rewrite (storedTodos_Parsed _ _ Hst).
  destruct (saved_list_holds (TodoService.with_fromApi t) (Z.pos (clock s1 (reads s1)))
              (storedTodos (storage s1)))
    as (u & Hu & H1 & H2 & _ & _ & H5 & _ & H7).
  exists u. split; [exact Hu |]. cbn in H1, H2, H5, H7.
  split; [congruence |]. split; [exact Hidt |]. split; [exact H2 |].
  split; [exact H5 | by apply H7].
Qed.

Lemma X9_addTodo_saves_remote_todo_witness :
  let s := state_with empty_storage in
  let r := {| r_id := Some 255; r_todo := Some "buy milk"; r_title := None;
              r_completed := Some false; r_userId := Some 1 |} in
  let data := {| TodoService.d_title := Some "buy milk"; TodoService.d_todo := None;
                 TodoService.d_completed := None; TodoService.d_userId := None |} in
  exists u,
    u ∈ storedTodos (storage (snd (TodoService.addTodo data (Resolved (Some r)) s)))
    /\ id u = 255 /\ fromApi u = Some true.
Proof.
  intros s r data.
  destruct (TodoService.addTodo data (Resolved (Some r)) s) as [c s'] eqn:Hadd.
  destruct c as [t | e]; [| exfalso; vm_compute in Hadd; discriminate].
  destruct (X9_addTodo_saves_remote_todo data r 255 s t)
    as (u & Hu & Hid & _ & _ & _ & Hf).
  - reflexivity.
  - discriminate.
  - split; [discriminate | reflexivity].
  - by rewrite Hadd.
  - exists u. rewrite Hadd in Hu. by repeat split.
Defined.

(** ** Reading the store *)


(** ** dateUtils.js *)

Lemma saveCreationDate_usable (s : State) (i : Z) (d : Z) :
  todo_creation_dates (storage s) <> Corrupt -> writable (storage s) = true ->
  exists dates,
    todo_creation_dates (storage (snd (DateUtils.saveCreationDate i d s)))
    = Parsed (<[i := d]> dates)
    /\ (todo_creation_dates (storage s) = Parsed dates
        \/ todo_creation_dates (storage s) = Missing /\ dates = ∅)
    /\ writable (storage (snd (DateUtils.saveCreationDate i d s))) = true
    /\ reads (snd (DateUtils.saveCreationDate i d s)) = reads s.
Proof.
  intros Hc Hw. destruct s as [c r m [d1 d2 d3 w]]. cbn in Hc, Hw. subst w.
  destruct d3 as [| | dates]; [| done |].
  - exists ∅. cbn. split; [reflexivity |]. split; [by right | by split].
  - exists dates. cbn. split; [reflexivity |]. split; [by left | by split].
Qed.

Lemma getCreationDate_stored (s : State) (i : Z) (d : Z) (dates : gmap Z Z) :
  todo_creation_dates (storage s) = Parsed dates -> dates !! i = Some d ->
  DateUtils.getCreationDate i s = (Return d, s).
Proof.
  intros Hs Hd.
  cbv [DateUtils.getCreationDate try_catch bind get_storage parse_or ret].
  rewrite Hs. cbv beta iota. by rewrite Hd.
Qed.

(** X11.  A date saved with [saveCreationDate] is the date that
    [getCreationDate] returns afterwards, without reading the clock or
    touching the store, and the dates that the store held for other ids
    are still returned; this is so when the store of dates can be read
    and written. *)
Theorem X11_saveCreationDate_then_getCreationDate :
  forall (s : State) (todoId : Z) (date : Z),
    todo_creation_dates (storage s) <> Corrupt -> writable (storage s) = true ->
    let s' := snd (DateUtils.saveCreationDate todoId date s) in
    DateUtils.getCreationDate todoId s' = (Return date, s')
    /\ forall dates other d,
         other <> todoId ->
         todo_creation_dates (storage s) = Parsed dates -> dates !! other = Some d ->
         DateUtils.getCreationDate other s' = (Return d, s').
Proof.
  intros s todoId date Hc Hw s'. subst s'.
  destruct (saveCreationDate_usable s todoId date Hc Hw) as (dates & Hst & Hwas & _ & _).
  split.
  - apply (getCreationDate_stored _ _ _ _ Hst). by rewrite lookup_insert_eq.
  - intros dates' other d Hne Hp Hd.
    apply (getCreationDate_stored _ _ _ _ Hst). rewrite lookup_insert_ne by done.
    destruct Hwas as [Hp' | [Hm _]]; congruence.
Qed.

Lemma X11_saveCreationDate_then_getCreationDate_witness :
  let s := state_with empty_storage in
  let s' := snd (DateUtils.saveCreationDate 5 1650000000000 s) in
  DateUtils.getCreationDate 5 s' = (Return 1650000000000, s').
Proof.
  intros s s'.
  apply (X11_saveCreationDate_then_getCreationDate s 5 1650000000000);
    [discriminate | reflexivity].
Defined.

(** X12.  [getCreationDate] never throws.  When the store of dates can
    be read and written, a second call returns the date of the first.
    When the text of the store does not parse, the call returns what
    [generateCreationDate] makes of the clock and leaves the store as
    it is. *)
Theorem X12_getCreationDate_remembers :
  forall (s : State) (todoId : Z),
    (exists d, fst (DateUtils.getCreationDate todoId s) = Return d)
    /\ (todo_creation_dates (storage s) <> Corrupt -> writable (storage s) = true ->
        fst (DateUtils.getCreationDate todoId (snd (DateUtils.getCreationDate todoId s)))
        = fst (DateUtils.getCreationDate todoId s))
    /\ (todo_creation_dates (storage s) = Corrupt ->
        DateUtils.getCreationDate todoId s = DateUtils.generateCreationDate todoId s
        /\ storage (snd (DateUtils.getCreationDate todoId s)) = storage s).
Proof.
  intros s todoId. split; [| split].
  - destruct s as [c r m [d1 d2 d3 w]].
    destruct d3 as [| | dates];
      [destruct w | | destruct (dates !! todoId) eqn:Hd; [| destruct w]];
      cbv [DateUtils.getCreationDate DateUtils.generateCreationDate
           DateUtils.saveCreationDate try_catch bind get_storage parse_or now
           put_storage throw ret storage writable todo_creation_dates fst];
      rewrite ?lookup_empty, ?Hd; by eexists.
  - intros Hc Hw. destruct (getCreationDate_twice s todoId Hc Hw) as (d & -> & ->). done.
  - intros Hc.
    cbv [DateUtils.getCreationDate try_catch bind get_storage parse_or throw].
    rewrite Hc. by split.
Qed.

Lemma X12_getCreationDate_remembers_witness :
  let s := state_with empty_storage in
  fst (DateUtils.getCreationDate 8 (snd (DateUtils.getCreationDate 8 s)))
  = fst (DateUtils.getCreationDate 8 s).
Proof.
  intros s. apply (X12_getCreationDate_remembers s 8); [discriminate | reflexivity].
Defined.

(** X13.  For an id that is not negative, [generateCreationDate] returns
    a date between 30 days and 1 day before the reading of the clock;
    and of two such ids in one band of 30, read at the same time, the
    lower one does not get the newer date. *)
Theorem X13_generateCreationDate_in_the_last_30_days :
  forall (s : State) (a b : Z) (da db : Z),
    0 <= a <= b ->
    fst (DateUtils.generateCreationDate a s) = Return da ->
    fst (DateUtils.generateCreationDate b s) = Return db ->
    Z.pos (clock s (reads s)) - 30 * MS_PER_DAY <= da
                                                <= Z.pos (clock s (reads s)) - MS_PER_DAY
    /\ (a / 30 = b / 30 -> da <= db).
Proof.
  intros s a b da db Hab Ha Hb. split.
  - rewrite generateCreationDate_value in Ha. injection Ha as <-.
    rewrite Z.rem_mod_nonneg by lia.
    pose proof (Z.mod_pos_bound a 30). unfold MS_PER_DAY. lia.
  - intros Hband. by eapply generateCreationDate_lower_ids_older.
Qed.

Lemma X13_generateCreationDate_in_the_last_30_days_witness :
  let s := state_with empty_storage in
  1700000000001 - 30 * MS_PER_DAY <= 1700000000001 - 30 * MS_PER_DAY + 3 * MS_PER_DAY
                                  <= 1700000000001 - MS_PER_DAY.
Proof.
  intros s.
  apply (X13_generateCreationDate_in_the_last_30_days s 3 4
           (1700000000001 - 30 * MS_PER_DAY + 3 * MS_PER_DAY)
           (1700000000001 - 30 * MS_PER_DAY + 4 * MS_PER_DAY));
    [lia | reflexivity | reflexivity].
Defined.

(** The day of a time. *)
Lemma startOfDay_le_iff (a b : Z) :
  startOfDay a <= startOfDay b <-> a / MS_PER_DAY <= b / MS_PER_DAY.
Proof. unfold startOfDay, MS_PER_DAY. lia. Qed.

Lemma endOfDay_lt_startOfDay_iff (a b : Z) :
  endOfDay a < startOfDay b <-> a / MS_PER_DAY < b / MS_PER_DAY.
Proof. unfold endOfDay, startOfDay, MS_PER_DAY. lia. Qed.

Lemma isDateInRange_by_day (date : option Z) (startDate endDate : option (option Z)) :
  DateUtils.isDateInRange date startDate endDate = true
  <-> exists d,
        date = Some d
        /\ (forall start, startDate = Some (Some start) ->
              start / MS_PER_DAY <= d / MS_PER_DAY)
        /\ (forall e, endDate = Some (Some e) ->
              d / MS_PER_DAY <= e / MS_PER_DAY).
Proof.
  unfold DateUtils.isDateInRange.
  destruct date as [d |]; cbn; [| split; [done | by intros (d & ? & _)]].
  set (early := match startDate with
                | Some (Some start) => startOfDay d <? startOfDay start
                | _ => false
                end).
  set (late := match endDate with
               | Some (Some e) => endOfDay e <? startOfDay d
               | _ => false
               end).
  assert (Hearly : early = false
                   <-> forall start, startDate = Some (Some start) ->
                         start / MS_PER_DAY <= d / MS_PER_DAY).
  { subst early. destruct startDate as [[start |] |]; [| by split | by split].
    rewrite Z.ltb_ge, startOfDay_le_iff. split; [by intros H ? [= <-] | eauto]. }
  assert (Hlate : late = false
                  <-> forall e, endDate = Some (Some e) ->
                        d / MS_PER_DAY <= e / MS_PER_DAY).
  { subst late. destruct endDate as [[e |] |]; [| by split | by split].
    rewrite Z.ltb_ge. split.
    - intros H ? [= <-]. pose proof (endOfDay_lt_startOfDay_iff e d). lia.
    - intros H. specialize (H e eq_refl).
      pose proof (endOfDay_lt_startOfDay_iff e d). lia. }
  split.
  - intros H. exists d. split; [done |].
    destruct early; [done |]. destruct late; [done |].
    split; [by apply Hearly | by apply Hlate].
  - intros (d' & [= <-] & Hs & He).
    apply Hearly in Hs. apply Hlate in He. by rewrite Hs, He.
Qed.

(** X14.  [isDateInRange] of dateUtils.js works on days: a valid date is
    in the range exactly when its day is not before the day of the start
    and not after the day of the end; a limit that is [null] or an
    invalid date does not limit; an invalid date is in no range. *)
Theorem X14_isDateInRange_by_day :
  forall (date : option Z) (startDate endDate : option (option Z)),
    DateUtils.isDateInRange date startDate endDate = true
    <-> exists d,
          date = Some d
          /\ (forall start, startDate = Some (Some start) ->
                start / MS_PER_DAY <= d / MS_PER_DAY)
          /\ (forall e, endDate = Some (Some e) ->
                d / MS_PER_DAY <= e / MS_PER_DAY).
Proof. exact isDateInRange_by_day. Qed.

(** X15.  [validateDateRange] of dateUtils.js refuses a range exactly
    when both ends are valid dates and the start is after the end; and
    both ends of a range that it accepts are in the range, by
    [isDateInRange]. *)
Theorem X15_valid_range_holds_its_ends :
  forall (startDate endDate : option (option Z)),
    (fst (DateUtils.validateDateRange startDate endDate) = false
     <-> exists a b, startDate = Some (Some a) /\ endDate = Some (Some b) /\ b < a)
    /\ (forall a b,
          startDate = Some (Some a) -> endDate = Some (Some b) ->
          fst (DateUtils.validateDateRange startDate endDate) = true ->
          DateUtils.isDateInRange (Some a) startDate endDate = true
          /\ DateUtils.isDateInRange (Some b) startDate endDate = true).
Proof.
  intros startDate endDate. split.
  - unfold DateUtils.validateDateRange.
    destruct startDate as [[a |] |], endDate as [[b |] |]; cbn;
      try (split; [done | by intros (? & ? & ? & ? & ?)]).
    destruct (Z.ltb_spec b a); cbn; split; try done.
    + intros _. by exists a, b.
    + intros (a' & b' & [= <-] & [= <-] & ?). lia.
  - intros a b -> ->. unfold DateUtils.validateDateRange.
    destruct (Z.ltb_spec b a); cbn [fst]; [done |]. intros _.
    assert (Hdays : a / MS_PER_DAY <= b / MS_PER_DAY)
      by (apply Z.div_le_mono; unfold MS_PER_DAY; lia).
    split; apply isDateInRange_by_day; eexists; (split; [reflexivity |]);
      split; intros ? [= <-]; lia.
Qed.

Lemma X15_valid_range_holds_its_ends_witness :
  DateUtils.isDateInRange (Some 1704412800000)
    (Some (Some 1704412800000)) (Some (Some 1704844800000)) = true.
Proof.
  apply (proj2 (X15_valid_range_holds_its_ends
                  (Some (Some 1704412800000)) (Some (Some 1704844800000)))
               1704412800000 1704844800000); reflexivity.
Defined.

(** X16.  [compareDates] on [Date] objects: it throws when one of them
    is invalid; otherwise it returns the sign of the difference of the
    times, so that exchanging the dates negates the result and 0 means
    the same time.  On a text that is a valid date it throws a
    TypeError. *)
Theorem X16_compareDates_is_the_sign :
  forall (d1 d2 : option Z),
    match DateUtils.compareDates (DateUtils.DateObj d1) (DateUtils.DateObj d2) with
    | DateUtils.Order c =>
        exists t1 t2,
          d1 = Some t1 /\ d2 = Some t2 /\ c = Z.sgn (t1 - t2)
          /\ DateUtils.compareDates (DateUtils.DateObj d2) (DateUtils.DateObj d1)
             = DateUtils.Order (- c)
    | DateUtils.ThrowsError _ => d1 = None \/ d2 = None
    | DateUtils.ThrowsTypeError => False
    end
    /\ forall t, DateUtils.compareDates (DateUtils.TextDate (DateString t))
                   (DateUtils.DateObj d2)
                 = if bool_decide (is_Some d2) then DateUtils.ThrowsTypeError
                   else DateUtils.ThrowsError "Invalid date provided for comparison".
Proof.
  intros d1 d2. split.
  - destruct d1 as [t1 |], d2 as [t2 |]; cbn; [| by right | by left | by left].
    unfold DateUtils.compareDates. cbn.
    destruct (Z.ltb_spec t1 t2), (Z.ltb_spec t2 t1); try lia;
      exists t1, t2; repeat split; try lia;
      destruct (Z.ltb_spec t2 t1), (Z.ltb_spec t1 t2); try lia; reflexivity.
  - intros t. by destruct d2.
Qed.


(** ** The date filter *)








(** ** The pagination controls *)

Lemma StronglySorted_seqZ (m n : Z) : StronglySorted Z.lt (seqZ m n).
Proof.
  destruct (Z.le_gt_cases n 0) as [Hn | Hn].
  { rewrite seqZ_nil by done. constructor. }
  rewrite <- (Z2Nat.id n) by lia. clear Hn.
  induction (Z.to_nat n) as [| i IH]; [rewrite seqZ_nil by done; constructor |].
  rewrite seqZ_S. apply StronglySorted_app_2; [| done | repeat constructor].
  intros x1 x2 H1%elem_of_seqZ H2%list_elem_of_singleton. lia.
Qed.

Lemma pageNumbers_buttons (c : Z) (l : list Z) :
  pageNumbers ((fun i => Pagination.PageButton i (i =? c)) <$> l) = l.
Proof. induction l as [| i l IH]; [done |]. cbn. by f_equal. Qed.

Lemma elem_of_pageNumbers (n : Z) (items : list Pagination.PageItem) :
  n ∈ pageNumbers items <-> exists a, Pagination.PageButton n a ∈ items.
Proof.
  unfold pageNumbers. rewrite list_elem_of_omap. split.
  - intros ([] & Hin & [= <-]). by eexists.
  - intros [a Hin]. by eexists (Pagination.PageButton n a).
Qed.

(** The window that [render] draws holds the current page and the pages
    next to it, and at most five pages. *)
Lemma window_bounds (p : Pagination.t) :
  in_bounds p ->
  let '(startPage, endPage) := Pagination.window p in
  1 <= startPage <= Pagination.currentPage p
  /\ Pagination.currentPage p <= endPage <= Pagination.totalPages p
  /\ endPage - startPage <= 4
  /\ startPage <= Z.max 1 (Pagination.currentPage p - 1)
  /\ Z.min (Pagination.totalPages p) (Pagination.currentPage p + 1) <= endPage.
Proof.
  unfold in_bounds, Pagination.window. intros H.
  change (5 / 2) with 2.
  destruct (Z.ltb_spec
              (Z.min (Pagination.totalPages p)
                 (Z.max 1 (Pagination.currentPage p - 2) + 5 - 1)
               - Z.max 1 (Pagination.currentPage p - 2) + 1) 5); lia.
Qed.

Lemma pageNumbers_render (p : Pagination.t) :
  1 < Pagination.totalPages p ->
  pageNumbers (Pagination.render p)
  = (if 1 <? (Pagination.window p).1 then [1] else [])
    ++ seqZ (Pagination.window p).1 ((Pagination.window p).2 - (Pagination.window p).1 + 1)
    ++ (if (Pagination.window p).2 <? Pagination.totalPages p
        then [Pagination.totalPages p] else []).
Proof.
  intros HT. unfold Pagination.render.
  destruct (Z.leb_spec (Pagination.totalPages p) 1); [lia |].
  destruct (Pagination.window p) as [startPage endPage]. cbn [fst snd].
  unfold pageNumbers. rewrite !omap_app. cbn [omap list_omap app].
  f_equal; [by destruct (1 <? startPage), (2 <? startPage) |].
  f_equal; [apply pageNumbers_buttons |].
  rewrite app_nil_r.
  by destruct (endPage <? Pagination.totalPages p),
              (endPage <? Pagination.totalPages p - 1).
Qed.

(** The buttons that [render] draws. *)
Lemma render_items (p : Pagination.t) (item : Pagination.PageItem) :
  in_bounds p -> item ∈ Pagination.render p ->
  1 < Pagination.totalPages p
  /\ match item with
     | Pagination.PrevButton disabled =>
         disabled = (Pagination.currentPage p =? 1)
     | Pagination.NextButton disabled =>
         disabled = (Pagination.currentPage p =? Pagination.totalPages p)
     | Pagination.PageButton n a =>
         1 <= n <= Pagination.totalPages p
         /\ (a = true <-> n = Pagination.currentPage p)
     | Pagination.Ellipsis => True
     end.
Proof.
  intros Hp. pose proof (window_bounds p Hp) as Hw.
  unfold Pagination.render.
  destruct (Z.leb_spec (Pagination.totalPages p) 1); [by intros ?%elem_of_nil |].
  split; [done |]. revert H0.
  destruct (Pagination.window p) as [startPage endPage].
  rewrite !elem_of_app. intros [H1 | [H1 | [H1 | [H1 | H1]]]].
  - by apply list_elem_of_singleton in H1 as ->.
  - destruct (Z.ltb_spec 1 startPage); [| by apply elem_of_nil in H1].
    apply elem_of_cons in H1 as [-> | H1]; [split; [lia | split; [done | lia]] |].
    destruct (2 <? startPage); [by apply list_elem_of_singleton in H1 as -> |
                                by apply elem_of_nil in H1].
  - apply list_elem_of_fmap in H1 as (i & -> & Hi%elem_of_seqZ).
    split; [lia |]. by rewrite Z.eqb_eq.
  - destruct (Z.ltb_spec endPage (Pagination.totalPages p));
      [| by apply elem_of_nil in H1].
    apply elem_of_app in H1 as [H1 | H1].
    + destruct (endPage <? Pagination.totalPages p - 1);
        [by apply list_elem_of_singleton in H1 as -> | by apply elem_of_nil in H1].
    + apply list_elem_of_singleton in H1 as ->.
      split; [lia | split; [done | lia]].
  - by apply list_elem_of_singleton in H1 as ->.
Qed.

(** X19.  When there is more than one page, the page buttons that
    [render] draws are numbered in increasing order with pages that
    exist; among them are the first page, the last page, the current
    page and the pages next to it; there are at most seven; and a button
    is drawn active exactly when it is the button of the current page. *)
Theorem X19_render_page_buttons :
  forall (p : Pagination.t),
    in_bounds p -> 1 < Pagination.totalPages p ->
    StronglySorted Z.lt (pageNumbers (Pagination.render p))
    /\ (forall n a, Pagination.PageButton n a ∈ Pagination.render p ->
          1 <= n <= Pagination.totalPages p
          /\ (a = true <-> n = Pagination.currentPage p))
    /\ (forall n, 1 <= n <= Pagination.totalPages p ->
          n = 1 \/ n = Pagination.totalPages p
          \/ Pagination.currentPage p - 1 <= n <= Pagination.currentPage p + 1 ->
          n ∈ pageNumbers (Pagination.render p))
    /\ (length (pageNumbers (Pagination.render p)) <= 7)%nat.
Proof.
  intros p Hp HT. pose proof (window_bounds p Hp) as Hw.
  split; [| split; [| split]].
  - rewrite pageNumbers_render by done.
    destruct (Pagination.window p) as [startPage endPage]. cbn [fst snd].
    apply StronglySorted_app_2.
    + intros x1 x2 H1 H2.
      destruct (Z.ltb_spec 1 startPage); [| by apply elem_of_nil in H1].
      apply list_elem_of_singleton in H1 as ->.
      apply elem_of_app in H2 as [H2%elem_of_seqZ | H2]; [lia |].
      destruct (Z.ltb_spec endPage (Pagination.totalPages p));
        [| by apply elem_of_nil in H2].
      apply list_elem_of_singleton in H2 as ->. lia.
    + destruct (1 <? startPage); repeat constructor.
    + apply StronglySorted_app_2.
      * intros x1 x2 H1%elem_of_seqZ H2.
        destruct (Z.ltb_spec endPage (Pagination.totalPages p));
          [| by apply elem_of_nil in H2].
        apply list_elem_of_singleton in H2 as ->. lia.
      * apply StronglySorted_seqZ.
      * destruct (endPage <? Pagination.totalPages p); repeat constructor.
  - intros n a Hin. by destruct (render_items p _ Hp Hin) as [_ ?].
  - intros n Hn Hcases. rewrite pageNumbers_render by done.
    destruct (Pagination.window p) as [startPage endPage]. cbn [fst snd].
    rewrite !elem_of_app, elem_of_seqZ.
    destruct (Z.ltb_spec 1 startPage), (Z.ltb_spec endPage (Pagination.totalPages p));
      rewrite ?list_elem_of_singleton; lia.
  - rewrite pageNumbers_render by done.
    destruct (Pagination.window p) as [startPage endPage]. cbn [fst snd].
    rewrite !length_app, length_seqZ.
    destruct (1 <? startPage), (endPage <? Pagination.totalPages p); cbn [length]; lia.
Qed.

Lemma X19_render_page_buttons_witness :
  pageNumbers
    (Pagination.render
       {| Pagination.itemsPerPage := 10; Pagination.totalItems := 200;
          Pagination.currentPage := 10; Pagination.previousPage := 1 |})
  = [1; 8; 9; 10; 11; 12; 20]
  /\ StronglySorted Z.lt
       (pageNumbers
          (Pagination.render
             {| Pagination.itemsPerPage := 10; Pagination.totalItems := 200;
                Pagination.currentPage := 10; Pagination.previousPage := 1 |})).
Proof.
  split; [reflexivity |].
  apply (X19_render_page_buttons
           {| Pagination.itemsPerPage := 10; Pagination.totalItems := 200;
              Pagination.currentPage := 10; Pagination.previousPage := 1 |});
    vm_compute; [split |]; congruence.
Defined.

Lemma click_in_bounds (v : Pagination.PageValue) (p : Pagination.t) :
  in_bounds p -> in_bounds (Pagination.click v p).1.
Proof.
  intros Hp. destruct v; cbn [Pagination.click].
  - destruct (1 <? Pagination.currentPage p); [by apply goToPage_in_bounds | done].
  - destruct (Pagination.currentPage p <? Pagination.totalPages p);
      [by apply goToPage_in_bounds | done].
  - by apply goToPage_in_bounds.
Qed.

(** X20.  A click on a button that [render] has drawn does what the
    button shows: a page button moves to its page and signals it,
    unless it is the active one, which does nothing; the previous and
    next buttons move one page back and forth and signal the new page,
    unless they are drawn disabled, and then they do nothing.  After a
    click on a link that carries a [data-page], the current page is a
    page that exists.  (The ellipsis carries none and is left out.) *)
Theorem X20_click_follows_the_controls :
  forall (p : Pagination.t) (item : Pagination.PageItem),
    in_bounds p -> item ∈ Pagination.render p ->
    match item with
    | Pagination.PageButton n a =>
        Pagination.getCurrentPage (Pagination.click (Pagination.page n) p).1 = n
        /\ (Pagination.click (Pagination.page n) p).2 = (if a then None else Some n)
    | Pagination.PrevButton disabled =>
        Pagination.click Pagination.prev p
        = (if disabled then (p, None)
           else Pagination.goToPage (Pagination.currentPage p - 1) p)
        /\ (Pagination.click Pagination.prev p).2
           = (if disabled then None else Some (Pagination.currentPage p - 1))
    | Pagination.NextButton disabled =>
        Pagination.click Pagination.next p
        = (if disabled then (p, None)
           else Pagination.goToPage (Pagination.currentPage p + 1) p)
        /\ (Pagination.click Pagination.next p).2
           = (if disabled then None else Some (Pagination.currentPage p + 1))
    | Pagination.Ellipsis => True
    end
    /\ forall v, in_bounds (Pagination.click v p).1.
Proof.
  intros p item Hp Hin. split; [| intros v; by apply click_in_bounds].
  destruct (render_items p item Hp Hin) as [HT Hitem].
  unfold in_bounds in Hp.
  destruct item as [disabled | n a | | disabled]; [| | done |].
  - subst disabled. cbn [Pagination.click].
    destruct (Z.eqb_spec (Pagination.currentPage p) 1) as [H1 | H1],
             (Z.ltb_spec 1 (Pagination.currentPage p)); try lia; [done |].
    split; [done |]. by rewrite goToPage_moves by lia.
  - destruct Hitem as [Hn Ha]. cbn [Pagination.click]. unfold Pagination.getCurrentPage.
    destruct a.
    + rewrite goToPage_noop by (right; right; by apply Ha). split; [| done].
      symmetry. by apply Ha.
    + rewrite goToPage_moves; [done | done |]. intros Heq. by apply Ha in Heq.
  - subst disabled. cbn [Pagination.click].
    destruct (Z.eqb_spec (Pagination.currentPage p) (Pagination.totalPages p)) as [H1 | H1],
             (Z.ltb_spec (Pagination.currentPage p) (Pagination.totalPages p));
      try lia; [done |].
    split; [done |]. rewrite goToPage_moves; [done | |]; unfold Pagination.totalPages in *; lia.
Qed.

Lemma X20_click_follows_the_controls_witness :
  Pagination.getCurrentPage
    (Pagination.click (Pagination.page 12)
       {| Pagination.itemsPerPage := 10; Pagination.totalItems := 200;
          Pagination.currentPage := 10; Pagination.previousPage := 1 |}).1 = 12.
Proof.
  apply (X20_click_follows_the_controls
           {| Pagination.itemsPerPage := 10; Pagination.totalItems := 200;
              Pagination.currentPage := 10; Pagination.previousPage := 1 |}
           (Pagination.PageButton 12 false)).
  - vm_compute. split; congruence.
  - vm_compute. do 7 apply list_elem_of_further. apply list_elem_of_here.
Defined.

(** ** validators.js *)

(** X21.  The four outcomes of [validateTodoText], by the length of the
    trimmed text: required, too short, too long, valid; a value that is
    [undefined] is reported as required. *)
Theorem X21_validateTodoText_outcomes :
  forall (value : option string),
    Validators.validateTodoText value
    = match value with
      | None =>
          {| Validators.isValid := false;
             Validators.message := "This field is required";
             Validators.field := None |}
      | Some s =>
          let n := String.length (trim s) in
          if (n =? 0)%nat
          then {| Validators.isValid := false;
                  Validators.message := "This field is required";
                  Validators.field := None |}
          else if (n <? 3)%nat
          then {| Validators.isValid := false;
                  Validators.message := "Must be at least 3 characters";
                  Validators.field := None |}
          else if (100 <? n)%nat
          then {| Validators.isValid := false;
                  Validators.message := "Must be no more than 100 characters";
                  Validators.field := None |}
          else Validators.valid
      end.
Proof.
  intros [s |]; [| reflexivity].
  cbv [Validators.validateTodoText Validators.validateMinLength
       Validators.validateMaxLength Validators.validateRequired
       fmap option_fmap option_map default Datatypes.id Validators.isValid].
  destruct (trim s) as [| c r] eqn:Htrim; [reflexivity |].
  cbn [String.eqb negb String.length Nat.eqb].
  set (n := S (String.length r)).
  destruct (Nat.leb_spec 3 n) as [H3 | H3], (Nat.ltb_spec n 3) as [H3' | H3'];
    try lia; cbn [negb]; [| reflexivity].
  destruct (Nat.leb_spec n 100) as [H100 | H100], (Nat.ltb_spec 100 n) as [H100' | H100'];
    try lia; cbn [negb]; reflexivity.
Qed.

Lemma validateForm_snoc (formData : gmap string string)
    (rules : list (string * (option string -> Validators.Validation)))
    (rule : string * (option string -> Validators.Validation)) :
  Validators.validateForm formData (rules ++ [rule])
  = let results := Validators.validateForm formData rules in
    let result := rule.2 (formData !! rule.1) in
    {| Validators.formIsValid :=
         if negb (Validators.isValid result) then false
         else Validators.formIsValid results;
       Validators.fields := <[rule.1 := result]> (Validators.fields results) |}.
Proof. unfold Validators.validateForm. by rewrite foldl_app. Qed.

Lemma validateForm_fields (formData : gmap string string)
    (rules : list (string * (option string -> Validators.Validation))) :
  NoDup rules.*1 ->
  (forall k v, (k, v) ∈ rules ->
     Validators.fields (Validators.validateForm formData rules) !! k
     = Some (v (formData !! k)))
  /\ (forall k, k ∉ rules.*1 ->
        Validators.fields (Validators.validateForm formData rules) !! k = None).
Proof.
  induction rules as [| [k0 v0] rules IH] using rev_ind; intros Hnd.
  { split; [by intros ? ? ?%elem_of_nil | intros; apply lookup_empty]. }
  rewrite fmap_app in Hnd. apply NoDup_app in Hnd as (Hnd & Hk0 & _).
  destruct (IH Hnd) as [IH1 IH2]. rewrite validateForm_snoc. cbn.
  split.
  - intros k v [Hin | Hin%list_elem_of_singleton]%elem_of_app.
    + rewrite lookup_insert_ne; [by apply IH1 |].
      intros <-. eapply Hk0; [| apply list_elem_of_here].
      apply list_elem_of_fmap. by exists (k0, v).
    + injection Hin as -> ->. by rewrite lookup_insert_eq.
  - intros k Hk. rewrite fmap_app, elem_of_app in Hk. cbn in Hk.
    rewrite lookup_insert_ne.
    + apply IH2. tauto.
    + intros <-. apply Hk. right. apply list_elem_of_here.
Qed.

Lemma validateForm_valid (formData : gmap string string)
    (rules : list (string * (option string -> Validators.Validation))) :
  Validators.formIsValid (Validators.validateForm formData rules) = true
  <-> forall k v, (k, v) ∈ rules -> Validators.isValid (v (formData !! k)) = true.
Proof.
  induction rules as [| [k0 v0] rules IH] using rev_ind.
  { split; [by intros _ ? ? ?%elem_of_nil | done]. }
  rewrite validateForm_snoc. cbn.
  destruct (Validators.isValid (v0 (formData !! k0))) eqn:Hv0; cbn.
  - rewrite IH. split.
    + intros H k v [Hin | Hin%list_elem_of_singleton]%elem_of_app; [by apply H |].
      by injection Hin as -> ->.
    + intros H k v Hin. apply H, elem_of_app. by left.
  - split; [done |]. intros H.
    rewrite <- Hv0. apply H, elem_of_app. right. apply list_elem_of_here.
Qed.

(** X22.  [validateForm] reports, for each field that has a rule, what
    the rule says of the value of the field, [undefined] when the form
    has no such field, and reports nothing for other fields; the form
    is valid exactly when every rule accepts.  With the rules of the todo
    form: exactly when the field [todo] holds a text of 3 to 100
    characters, blanks at both ends not counted. *)
Theorem X22_validateForm_applies_every_rule :
  forall (formData : gmap string string)
         (rules : list (string * (option string -> Validators.Validation))),
    NoDup rules.*1 ->
    let results := Validators.validateForm formData rules in
    (forall k v, (k, v) ∈ rules ->
       Validators.fields results !! k = Some (v (formData !! k)))
    /\ (forall k, k ∉ rules.*1 -> Validators.fields results !! k = None)
    /\ (Validators.formIsValid results = true
        <-> forall k v, (k, v) ∈ rules ->
              Validators.isValid (v (formData !! k)) = true)
    /\ (Validators.formIsValid
          (Validators.validateForm formData Validators.createTodoFormValidationRules)
        = true
        <-> exists s, formData !! "todo" = Some s
                      /\ (3 <= String.length (trim s) <= 100)%nat).
Proof.
  intros formData rules Hnd results.
  destruct (validateForm_fields formData rules Hnd) as [H1 H2].
  split; [done |]. split; [done |]. split; [apply validateForm_valid |].
  rewrite validateForm_valid. unfold Validators.createTodoFormValidationRules. split.
  - intros H. specialize (H "todo" Validators.validateTodoText (list_elem_of_here _ _)).
    destruct (formData !! "todo") as [s |] eqn:Hs.
    + exists s. split; [done |]. by apply validateTodoText_valid.
    + by rewrite validateTodoText_undefined in H.
  - intros (s & Hs & Hlen) k v Hin%list_elem_of_singleton. injection Hin as -> ->.
    rewrite Hs. by apply validateTodoText_valid.
Qed.

Lemma X22_validateForm_applies_every_rule_witness :
  Validators.fields
    (Validators.validateForm {[ "todo" := "ab" ]} Validators.createTodoFormValidationRules)
    !! "todo"
  = Some (Validators.validateTodoText (({[ "todo" := "ab" ]} : gmap string string) !! "todo")).
Proof.
  destruct (X22_validateForm_applies_every_rule
              {[ "todo" := "ab" ]} Validators.createTodoFormValidationRules
              (NoDup_singleton "todo")) as [H _].
  exact (H "todo" Validators.validateTodoText (list_elem_of_here _ _)).
Defined.

(** X23.  The checks of the date filter against those of
    [validateDateRange] of validators.js, on the same two texts: each
    error of the filter about a date or about the range is the error of
    [validateDateRange], on the same field; and when the filter does not
    object to the dates or the range and [validateDateRange] does, the
    two dates are times of one day, the later one first. *)
Theorem X23_filter_errors_are_validator_errors :
  forall (fromStr toStr : DateText) (clockNow : Timestamp) (self : DateFilter.t),
    let v := Validators.validateDateRange fromStr toStr in
    match (DateFilter.validateAndFilter fromStr toStr clockNow self).2 with
    | DateFilter.InvalidFromDate =>
        Validators.isValid v = false /\ Validators.field v = Some "startDate"
    | DateFilter.InvalidToDate =>
        Validators.isValid v = false /\ Validators.field v = Some "endDate"
    | DateFilter.InvalidDateRange =>
        Validators.isValid v = false /\ Validators.field v = Some "dateRange"
    | DateFilter.FutureFromDate | DateFilter.OnFilter _ _ =>
        Validators.isValid v = false ->
        exists tf tt, fromStr = DateString tf /\ toStr = DateString tt
                      /\ tt < tf /\ tf / MS_PER_DAY = tt / MS_PER_DAY
    end.
Proof.
  intros fromStr toStr clockNow self.
  unfold DateFilter.validateAndFilter, Validators.validateDateRange.
  destruct fromStr as [| | tf], toStr as [| | tt]; cbn; try done.
  - by destruct (endOfDay clockNow <? startOfDay tf).
  - assert (Hsame : ~ endOfDay tt < startOfDay tf -> tt < tf ->
                    tf / MS_PER_DAY = tt / MS_PER_DAY).
    { intros Hinv Hlt.
      pose proof (day_ends_before_later_day_starts tt tf).
      assert (tt / MS_PER_DAY <= tf / MS_PER_DAY)
        by (apply Z.div_le_mono; unfold MS_PER_DAY; lia).
      lia. }
    destruct (Z.ltb_spec (endOfDay tt) (startOfDay tf)) as [Hinv | Hinv]; cbn.
    + pose proof (startOfDay_le tf). pose proof (endOfDay_ge tt).
      destruct (Z.ltb_spec tt tf); [done | lia].
    + destruct (Z.ltb_spec (endOfDay clockNow) (startOfDay tf)); cbn;
        (destruct (Z.ltb_spec tt tf); [| done]); intros _;
        exists tf, tt; repeat split; try done; apply Hsame; lia.
Qed.

(** ** The form *)

Lemma trim_end_cons (c : Ascii.ascii) (s : string) :
  trim_end (String c s)
  = match trim_end s with
    | EmptyString => if is_space c then EmptyString else String c EmptyString
    | r => String c r
    end.
Proof. reflexivity. Qed.

Lemma trim_end_idemp (s : string) : trim_end (trim_end s) = trim_end s.
Proof.
  induction s as [| c s IH]; [done |]. rewrite trim_end_cons.
  destruct (trim_end s) as [| c' r] eqn:Hr.
  - destruct (is_space c) eqn:Hc; [done |]. cbn. by rewrite Hc.
  - by rewrite trim_end_cons, IH.
Qed.

(** A text that does not begin with a blank keeps its beginning when
    blanks are cut from its end. *)
Lemma trim_start_trim_end (s : string) :
  trim_start s = s -> trim_start (trim_end s) = trim_end s.
Proof.
  destruct s as [| c s]; [done |]. cbn [trim_start].
  destruct (is_space c) eqn:Hc.
  - intros H. exfalso.
    assert (Hlen : forall t, (String.length (trim_start t) <= String.length t)%nat).
    { induction t as [| c' t IH]; [done |]. cbn. destruct (is_space c'); cbn; lia. }
    specialize (Hlen s). rewrite H in Hlen. cbn in Hlen. lia.
  - intros _. rewrite trim_end_cons, Hc.
    destruct (trim_end s); cbn [trim_start]; by rewrite Hc.
Qed.

Lemma trim_start_idemp (s : string) : trim_start (trim_start s) = trim_start s.
Proof.
  induction s as [| c s IH]; [done |]. cbn [trim_start].
  destruct (is_space c) eqn:Hc; [done |]. cbn. by rewrite Hc.
Qed.

Lemma trim_idemp (s : string) : trim (trim s) = trim s.
Proof.
  unfold trim.
  rewrite (trim_start_trim_end (trim_start s)) by apply trim_start_idemp.
  apply trim_end_idemp.
Qed.

(** X24.  What a submit of the form hands to [onSubmit]: nothing when
    the text is blank; otherwise the text without the blanks at its
    ends, which is then not empty and has no blank at either end, with
    the state of the check box, unticked when there is none.  The
    handler throws exactly when the page has no text input. *)
Theorem X24_handleSubmit_hands_on_the_trimmed_text :
  forall (form : TodoForm.t),
    match TodoForm._handleSubmit form with
    | Return None => exists v, TodoForm.input form = Some v /\ trim v = ""
    | Return (Some data) =>
        exists v, TodoForm.input form = Some v
          /\ TodoService.d_title data = Some (trim v)
          /\ trim v <> ""
          /\ trim (trim v) = trim v
          /\ TodoService.d_completed data
             = Some (default false (TodoForm.completedCheckbox form))
    | Throw e => e = TypeError /\ TodoForm.input form = None
    end.
Proof.
  intros [[v |] checkbox]; [| by cbn].
  unfold TodoForm._handleSubmit, TodoForm._validateForm, TodoForm._validateInput.
  cbn [TodoForm.input TodoForm.completedCheckbox].
  destruct (trim v) as [| c r] eqn:Htrim; cbn.
  - by exists v.
  - exists v. rewrite Htrim. repeat split; try done.
    by rewrite <- Htrim, trim_idemp.
Qed.

(** ** The controller *)

Lemma slice_page (a : Z) (l : list Todo) :
  0 <= a ->
  slice a (a + Config.itemsPerPage) l
  = take (Z.to_nat Config.itemsPerPage) (drop (Z.to_nat a) l).
Proof.
  intros Ha. unfold slice, Config.itemsPerPage.
  destruct (Z.ltb_spec a 0); [lia |].
  destruct (Z.ltb_spec (a + 10) 0); [lia |].
  destruct (Z.le_gt_cases (Z.of_nat (length l)) a) as [Hlen | Hlen].
  - rewrite !Z.min_r by lia. rewrite Z.sub_diag. cbn [Z.to_nat take].
    rewrite (drop_ge l (Z.to_nat a)) by lia. done.
  - rewrite (Z.min_l a) by lia.
    destruct (Z.le_gt_cases (a + 10) (Z.of_nat (length l))).
    + rewrite Z.min_l by lia. do 2 f_equal. lia.
    + rewrite Z.min_r by lia.
      rewrite !take_ge; [done | |]; rewrite length_drop; lia.
Qed.

Lemma displayCurrentPageTodos_S (depth : nat) (pageNumber : Z) (app : TodoApp.t) :
  TodoApp.displayCurrentPageTodos (S depth) pageNumber app
  = if (length (TodoApp.filteredTodos app) =? 0)%nat
    then Some (TodoApp.updateTodoListUI [] app)
    else
      let validPageNumber :=
        Z.max 1 (Z.min pageNumber (pagesOf (TodoApp.filteredTodos app))) in
      let app :=
        TodoApp.updateTodoListUI
          (slice ((validPageNumber - 1) * Config.itemsPerPage)
             ((validPageNumber - 1) * Config.itemsPerPage + Config.itemsPerPage)
             (TodoApp.filteredTodos app)) app in
      app ← (if negb (validPageNumber =? pageNumber)
             then
               TodoApp.signalled depth
                 (Pagination.goToPage validPageNumber (TodoApp.pagination app)).2
                 (TodoApp.with_pagination
                    (Pagination.goToPage validPageNumber (TodoApp.pagination app)).1
                    app)
             else Some app);
      Some (TodoApp.with_currentPage validPageNumber app).
Proof.
  cbn [TodoApp.displayCurrentPageTodos].
  destruct (length (TodoApp.filteredTodos app) =? 0)%nat; [done |].
  cbv zeta. fold (pagesOf (TodoApp.filteredTodos app)).
  destruct (negb _); [| done].
  by destruct (Pagination.goToPage _ _) as [p [n |]].
Qed.

(** The fields that showing a page leaves alone. *)
Lemma updateTodoListUI_fields (todos : list Todo) (app : TodoApp.t) :
  let app' := TodoApp.updateTodoListUI todos app in
  TodoApp.allTodos app' = TodoApp.allTodos app
  /\ TodoApp.filteredTodos app' = TodoApp.filteredTodos app
  /\ TodoApp.currentSearchQuery app' = TodoApp.currentSearchQuery app
  /\ TodoApp.currentFromDate app' = TodoApp.currentFromDate app
  /\ TodoApp.currentToDate app' = TodoApp.currentToDate app
  /\ TodoApp.currentStatusFilter app' = TodoApp.currentStatusFilter app
  /\ TodoApp.pagination app' = TodoApp.pagination app
  /\ TodoApp.currentPage app' = TodoApp.currentPage app.
Proof. done. Qed.

(** What [updateTodoListUI] puts into the list: the todos, if there are
    some; with none the container is left as it is and the empty state
    is shown. *)
Lemma updateTodoListUI_container (todos : list Todo) (app : TodoApp.t) :
  TodoList.container (TodoApp.todoList (TodoApp.updateTodoListUI todos app))
  = (if (length todos =? 0)%nat then TodoList.container (TodoApp.todoList app)
     else todos)
  /\ (is_Some (TodoList.emptyState
                (TodoApp.todoList (TodoApp.updateTodoListUI todos app)))
      <-> todos = []).
Proof.
  unfold TodoApp.updateTodoListUI, TodoList.render.
  destruct todos as [| todo todos]; cbn [length Nat.eqb].
  - split.
    + by destruct (_ && _).
    + split; [done |]. intros _. destruct (_ && _); by eexists.
  - cbn. split; [done |]. split; [by intros [? ?] | done].
Qed.

Lemma updateTodoListUI_loading (todos : list Todo) (app : TodoApp.t) :
  TodoList.loadingState (TodoApp.todoList (TodoApp.updateTodoListUI todos app)) = false.
Proof.
  unfold TodoApp.updateTodoListUI, TodoList.render.
  destruct todos as [| todo todos]; cbn [length Nat.eqb]; [| done].
  by destruct (_ && _).
Qed.

(** A page that exists is shown as asked. *)
Lemma displayCurrentPageTodos_valid (depth : nat) (n : Z) (app : TodoApp.t) :
  1 <= n <= pagesOf (TodoApp.filteredTodos app) ->
  TodoApp.displayCurrentPageTodos (S depth) n app
  = Some (if (length (TodoApp.filteredTodos app) =? 0)%nat
          then TodoApp.updateTodoListUI [] app
          else TodoApp.with_currentPage n
                 (TodoApp.updateTodoListUI (pageOf n (TodoApp.filteredTodos app)) app)).
Proof.
  intros Hn. rewrite displayCurrentPageTodos_S.
  destruct (length (TodoApp.filteredTodos app) =? 0)%nat; [done |]. cbv zeta.
  replace (Z.max 1 (Z.min n (pagesOf (TodoApp.filteredTodos app)))) with n by lia.
  rewrite Z.eqb_refl. cbn [negb mbind option_bind].
  rewrite slice_page by (unfold Config.itemsPerPage; lia). done.
Qed.

Lemma pagesOf_spec (l : list Todo) :
  1 <= pagesOf l
  /\ (pagesOf l - 1) * Config.itemsPerPage <= Z.of_nat (length l)
  /\ Z.of_nat (length l) <= pagesOf l * Config.itemsPerPage
  /\ (l <> [] -> (pagesOf l - 1) * Config.itemsPerPage < Z.of_nat (length l)).
Proof.
  unfold pagesOf, Config.itemsPerPage.
  pose proof (ceil_div_spec (Z.of_nat (length l)) 10 ltac:(lia)) as Hc.
  split; [lia |]. split; [lia |]. split; [lia |].
  intros Hl. destruct l; [done |]. cbn [length] in *. lia.
Qed.

Lemma pageOf_length (n : Z) (l : list Todo) : (length (pageOf n l) <= 10)%nat.
Proof. unfold pageOf, Config.itemsPerPage. rewrite length_take. lia. Qed.

Lemma pageOf_full (n : Z) (l : list Todo) :
  1 <= n < pagesOf l -> length (pageOf n l) = 10%nat.
Proof.
  intros Hn. pose proof (pagesOf_spec l) as (_ & Hlow & _).
  unfold pageOf, Config.itemsPerPage in *. rewrite length_take, length_drop. lia.
Qed.

Lemma pageOf_nonempty (n : Z) (l : list Todo) :
  l <> [] -> 1 <= n <= pagesOf l -> pageOf n l <> [].
Proof.
  intros Hl Hn. pose proof (pagesOf_spec l) as (_ & _ & _ & Hlow).
  specialize (Hlow Hl). intros Hnil.
  apply (f_equal length) in Hnil. revert Hnil.
  unfold pageOf, Config.itemsPerPage in *. rewrite length_take, length_drop. cbn. lia.
Qed.

Lemma goToPage_signal (n : Z) (p : Pagination.t) (m : Z) :
  (Pagination.goToPage n p).2 = Some m ->
  m = n /\ Pagination.currentPage (Pagination.goToPage n p).1 = n.
Proof.
  unfold Pagination.goToPage. by destruct (_ || _); [| intros [= <-]].
Qed.

(** X25.  [displayCurrentPageTodos] returns for every state and every
    page number, with at most one call of itself through the paginator.
    It changes neither the todos nor the filters.  When some todo passes
    the filters it puts into the list the todos of the page asked for,
    or of the nearest page that exists: at most ten and at least one;
    it records that page as the current page, and tells the paginator
    when the page had to be corrected.  When no todo passes, it leaves
    the container of the list as it is and shows the empty state. *)
Theorem X25_displayCurrentPageTodos_shows_a_page :
  forall (depth : nat) (pageNumber : Z) (app : TodoApp.t),
    exists app',
      TodoApp.displayCurrentPageTodos (S (S depth)) pageNumber app = Some app'
      /\ TodoApp.allTodos app' = TodoApp.allTodos app
      /\ TodoApp.filteredTodos app' = TodoApp.filteredTodos app
      /\ passesFilters app' = passesFilters app
      /\ match TodoApp.filteredTodos app with
         | [] =>
             TodoList.container (TodoApp.todoList app')
             = TodoList.container (TodoApp.todoList app)
             /\ is_Some (TodoList.emptyState (TodoApp.todoList app'))
             /\ TodoApp.currentPage app' = TodoApp.currentPage app
             /\ TodoApp.pagination app' = TodoApp.pagination app
         | _ :: _ =>
             let valid :=
               Z.max 1 (Z.min pageNumber (pagesOf (TodoApp.filteredTodos app))) in
             TodoList.container (TodoApp.todoList app')
             = pageOf valid (TodoApp.filteredTodos app)
             /\ (1 <= length (TodoList.container (TodoApp.todoList app')) <= 10)%nat
             /\ TodoList.emptyState (TodoApp.todoList app') = None
             /\ TodoApp.currentPage app' = valid
             /\ TodoApp.pagination app'
                = (if valid =? pageNumber then TodoApp.pagination app
                   else (Pagination.goToPage valid (TodoApp.pagination app)).1)
         end.
Proof.
  intros depth pageNumber app. rewrite displayCurrentPageTodos_S.
  destruct (TodoApp.filteredTodos app) as [| todo rest] eqn:Hf; cbn [length Nat.eqb].
  { eexists. split; [done |].
    destruct (updateTodoListUI_container [] app) as [Hc He].
    repeat split; try done. by apply He. }
  cbv zeta. rewrite <- Hf.
  set (valid := Z.max 1 (Z.min pageNumber (pagesOf (TodoApp.filteredTodos app)))).
  assert (Hvalid : 1 <= valid <= pagesOf (TodoApp.filteredTodos app)).
  { pose proof (pagesOf_spec (TodoApp.filteredTodos app)). lia. }
  assert (Hne : TodoApp.filteredTodos app <> []) by by rewrite Hf.
  rewrite slice_page by (unfold Config.itemsPerPage; lia).
  fold (pageOf valid (TodoApp.filteredTodos app)).
  pose proof (pageOf_nonempty valid _ Hne Hvalid) as Hpage.
  pose proof (pageOf_length valid (TodoApp.filteredTodos app)) as Hlen.
  assert (Hshown : forall app0,
            TodoList.container
              (TodoApp.todoList
                 (TodoApp.updateTodoListUI (pageOf valid (TodoApp.filteredTodos app)) app0))
            = pageOf valid (TodoApp.filteredTodos app)
            /\ TodoList.emptyState
                 (TodoApp.todoList
                    (TodoApp.updateTodoListUI (pageOf valid (TodoApp.filteredTodos app)) app0))
               = None).
  { intros app0. unfold TodoApp.updateTodoListUI, TodoList.render.
    destruct (pageOf valid (TodoApp.filteredTodos app)); [done |]. by cbn. }
  assert (Hpos : (1 <= length (pageOf valid (TodoApp.filteredTodos app)))%nat).
  { destruct (pageOf valid (TodoApp.filteredTodos app)); [done | cbn; lia]. }
  destruct (Z.eqb_spec valid pageNumber) as [Heq | Hneq]; cbn [negb].
  { eexists. split; [done |]. cbn [TodoApp.with_currentPage TodoApp.todoList].
    destruct (Hshown app) as [-> ->]. repeat split; try done; lia. }
  destruct (Pagination.goToPage valid (TodoApp.pagination app)) as [p signal] eqn:Hgo.
  change (TodoApp.pagination
            (TodoApp.updateTodoListUI (pageOf valid (TodoApp.filteredTodos app)) app))
    with (TodoApp.pagination app).
  rewrite Hgo. cbn [fst snd].
  destruct signal as [m |]; cbn [TodoApp.signalled].
  - destruct (goToPage_signal valid (TodoApp.pagination app) m) as [-> _];
      [by rewrite Hgo |].
    unfold TodoApp.onPageChange.
    rewrite displayCurrentPageTodos_valid by done.
    cbn [TodoApp.with_currentPage TodoApp.with_pagination TodoApp.filteredTodos].
    change (TodoApp.filteredTodos
              (TodoApp.updateTodoListUI (pageOf valid (TodoApp.filteredTodos app)) app))
      with (TodoApp.filteredTodos app).
    destruct (length (TodoApp.filteredTodos app) =? 0)%nat eqn:Hz;
      [by rewrite Hf in Hz |].
    cbn [mbind option_bind].
    eexists. split; [done |]. cbn [TodoApp.with_currentPage TodoApp.todoList].
    match goal with
    | |- context [TodoApp.updateTodoListUI _ ?a] =>
        destruct (Hshown a) as [-> ->]
    end.
    repeat split; try done; lia.
  - cbn [mbind option_bind]. eexists. split; [done |].
    cbn [TodoApp.with_currentPage TodoApp.with_pagination TodoApp.todoList].
    destruct (Hshown app) as [-> ->]. repeat split; try done; lia.
Qed.

Lemma filter_filter {A} (f g : A -> bool) (l : list A) :
  List.filter f (List.filter g l) = List.filter (fun x => g x && f x) l.
Proof.
  induction l as [| x l IH]; [done |]. cbn [List.filter].
  destruct (g x); cbn [List.filter andb]; [| done].
  destruct (f x); by rewrite IH.
Qed.

Lemma filter_all {A} (f : A -> bool) (l : list A) :
  (forall x, f x = true) -> List.filter f l = l.
Proof.
  intros Hf. induction l as [| x l IH]; [done |]. cbn. by rewrite Hf, IH.
Qed.

(** The three filters of [applyFilters], one after the other, keep the
    todos that pass them all. *)
Lemma applyFilters_stages (app : TodoApp.t) (l : list Todo) :
  (let filtered := l in
   let filtered :=
     if negb (String.eqb (TodoApp.currentSearchQuery app) "")
     then
       let query := toLowerCase (TodoApp.currentSearchQuery app) in
       List.filter
         (fun todo => includes (toLowerCase (TodoApp.todoText todo)) query) filtered
     else filtered in
   let filtered :=
     if isSome (TodoApp.currentFromDate app) || isSome (TodoApp.currentToDate app)
     then
       List.filter
         (fun todo =>
            match createdAt todo with
            | None => false
            | Some todoDate =>
                match TodoApp.currentFromDate app, TodoApp.currentToDate app with
                | Some fromDate, None => fromDate <=? todoDate
                | None, Some toDate => todoDate <=? toDate
                | Some fromDate, Some toDate =>
                    (fromDate <=? todoDate) && (todoDate <=? toDate)
                | None, None => true
                end
            end)
         filtered
     else filtered in
   match TodoApp.currentStatusFilter app with
   | TodoApp.status_all => filtered
   | TodoApp.status_active => List.filter (fun todo => negb (completed todo)) filtered
   | TodoApp.status_completed => List.filter (fun todo => completed todo) filtered
   end)
  = List.filter (passesFilters app) l.
Proof.
  unfold passesFilters. cbv zeta.
  destruct (TodoApp.currentStatusFilter app),
           (String.eqb (TodoApp.currentSearchQuery app) ""),
           (TodoApp.currentFromDate app) as [f |],
           (TodoApp.currentToDate app) as [e |];
    cbn [isSome orb negb andb]; rewrite ?filter_filter;
    first [ apply List.filter_ext; intros todo
          | symmetry; apply filter_all; intros todo ];
    destruct (createdAt todo); cbn [andb];
    rewrite ?andb_true_r, ?andb_false_r, <- ?andb_assoc; reflexivity.
Qed.

Lemma updateTotalItems_fields (n : Z) (r : bool) (p : Pagination.t) :
  in_bounds p ->
  let p' := (Pagination.updateTotalItems n r p).1 in
  Pagination.itemsPerPage p' = Pagination.itemsPerPage p
  /\ Pagination.totalItems p' = n
  /\ in_bounds p'
  /\ Pagination.currentPage p'
     = (if r then 1 else Z.min (Pagination.currentPage p) (Pagination.totalPages p'))
  /\ (forall m, (Pagination.updateTotalItems n r p).2 = Some m ->
        m = Pagination.currentPage p')
  /\ ((Pagination.updateTotalItems n r p).2 = None ->
      Pagination.currentPage p' = Pagination.currentPage p).
Proof.
  intros Hp p'. pose proof (updateTotalItems_in_bounds n r p Hp) as Hin.
  split; [| split; [| split; [done |]]].
  - subst p'. unfold Pagination.updateTotalItems. cbn.
    by destruct (_ <? _), r.
  - subst p'. unfold Pagination.updateTotalItems. cbn.
    by destruct (_ <? _), r.
  - subst p'. unfold in_bounds in Hp.
    unfold Pagination.updateTotalItems, Pagination.totalPages in *. cbn.
    set (tp := Z.max 1 (Pagination.ceil_div n (Pagination.itemsPerPage p))).
    split; [| split].
    + destruct (Z.ltb_spec tp (Pagination.currentPage p)), r; cbn; fold tp; lia.
    + intros m. by destruct (_ || _); [intros [= <-] |].
    + destruct r; cbn [orb]; [done |].
      destruct (Z.ltb_spec tp (Pagination.currentPage p)); cbn; [| done].
      destruct (Z.eqb_spec (Z.max 1 tp) (Pagination.currentPage p)); cbn; [done |].
      done.
Qed.

Lemma displayCurrentPageTodos_existing (depth : nat) (n : Z) (app : TodoApp.t) :
  1 <= n <= pagesOf (TodoApp.filteredTodos app) ->
  exists c list show,
    TodoApp.displayCurrentPageTodos (S depth) n app
    = Some (TodoApp.with_currentPage c (TodoApp.with_todoList list show app))
    /\ TodoList.loadingState list = false
    /\ match TodoApp.filteredTodos app with
       | [] =>
           c = TodoApp.currentPage app
           /\ TodoList.container list = TodoList.container (TodoApp.todoList app)
           /\ is_Some (TodoList.emptyState list)
       | _ :: _ =>
           c = n
           /\ TodoList.container list = pageOf n (TodoApp.filteredTodos app)
           /\ TodoList.emptyState list = None
       end.
Proof.
  intros Hn. rewrite displayCurrentPageTodos_valid by done.
  destruct (TodoApp.filteredTodos app) as [| todo rest] eqn:Hf; cbn [length Nat.eqb].
  - exists (TodoApp.currentPage app),
      (TodoApp.todoList (TodoApp.updateTodoListUI [] app)),
      (TodoApp.noResults (TodoApp.updateTodoListUI [] app)).
    split; [done |]. split; [apply updateTodoListUI_loading |]. split; [done |].
    destruct (updateTodoListUI_container [] app) as [Hc He].
    split; [done | by apply He].
  - rewrite <- Hf in Hn |- *.
    assert (Hne : TodoApp.filteredTodos app <> []) by by rewrite Hf.
    pose proof (pageOf_nonempty n _ Hne Hn) as Hpage.
    exists n,
      (TodoApp.todoList
         (TodoApp.updateTodoListUI (pageOf n (TodoApp.filteredTodos app)) app)),
      (TodoApp.noResults
         (TodoApp.updateTodoListUI (pageOf n (TodoApp.filteredTodos app)) app)).
    split; [done |]. split; [apply updateTodoListUI_loading |]. split; [done |].
    unfold TodoApp.updateTodoListUI, TodoList.render.
    destruct (pageOf n (TodoApp.filteredTodos app)); [done |]. by cbn.
Qed.

(** What [applyFilters] leaves, from a state whose paginator has ten
    todos to a page and is on a page that exists. *)
Lemma applyFilters_result (depth : nat) (resetPage : bool) (app : TodoApp.t) :
  Pagination.itemsPerPage (TodoApp.pagination app) = Config.itemsPerPage ->
  in_bounds (TodoApp.pagination app) ->
  let filtered := List.filter (passesFilters app) (TodoApp.allTodos app) in
  let p := (Pagination.updateTotalItems (Z.of_nat (length filtered)) resetPage
              (TodoApp.pagination app)).1 in
  exists c list show,
    TodoApp.applyFilters (S depth) resetPage app
    = Some (TodoApp.with_currentPage c
              (TodoApp.with_todoList list show
                 (TodoApp.with_pagination p
                    (TodoApp.with_filteredTodos filtered app))))
    /\ TodoList.loadingState list = false
    /\ match filtered with
       | [] =>
           (c = Pagination.currentPage p
            \/ c = TodoApp.currentPage app
               /\ Pagination.currentPage p
                  = Pagination.currentPage (TodoApp.pagination app))
           /\ TodoList.container list = TodoList.container (TodoApp.todoList app)
           /\ is_Some (TodoList.emptyState list)
       | _ :: _ =>
           c = Pagination.currentPage p
           /\ TodoList.container list = pageOf c filtered
           /\ TodoList.emptyState list = None
       end.
Proof.
  intros Hipp Hin filtered p.
  destruct (updateTotalItems_fields (Z.of_nat (length filtered)) resetPage
              (TodoApp.pagination app) Hin)
    as (Hp_ipp & Hp_total & Hp_in & Hp_cur & Hp_some & Hp_none).
  fold p in Hp_ipp, Hp_total, Hp_in, Hp_cur, Hp_some, Hp_none.
  assert (Hpages : Pagination.totalPages p = pagesOf filtered).
  { unfold Pagination.totalPages, pagesOf. by rewrite Hp_ipp, Hp_total, Hipp. }
  assert (Hcur : 1 <= Pagination.currentPage p <= pagesOf filtered).
  { rewrite <- Hpages. apply Hp_in. }
  pose proof (applyFilters_stages app (TodoApp.allTodos app)) as HF.
  cbv zeta in HF. fold filtered in HF.
  unfold TodoApp.applyFilters. cbv zeta. rewrite HF.
  change (TodoApp.pagination (TodoApp.with_filteredTodos filtered app))
    with (TodoApp.pagination app).
  destruct (Pagination.updateTotalItems (Z.of_nat (length filtered)) resetPage
              (TodoApp.pagination app)) as [p0 signal] eqn:Hup.
  subst p. cbn [fst snd] in *.
  set (app1 := TodoApp.with_pagination p0 (TodoApp.with_filteredTodos filtered app)).
  assert (Hlast : forall app2 c0 list0 show0,
            app2 = TodoApp.with_currentPage c0 (TodoApp.with_todoList list0 show0 app1) ->
            (if resetPage then 1 else Pagination.getCurrentPage (TodoApp.pagination app2))
            = Pagination.currentPage p0).
  { intros app2 c0 list0 show0 ->. destruct resetPage; [by rewrite Hp_cur | done]. }
  destruct signal as [m |]; cbn [TodoApp.signalled].
  - rewrite (Hp_some m eq_refl). unfold TodoApp.onPageChange.
    destruct (displayCurrentPageTodos_existing depth (Pagination.currentPage p0)
                (TodoApp.with_currentPage (Pagination.currentPage p0) app1))
      as (c1 & list1 & show1 & -> & _ & H1); [done |].
    cbn [mbind option_bind].
    erewrite Hlast by reflexivity.
    destruct (displayCurrentPageTodos_existing depth (Pagination.currentPage p0)
                (TodoApp.with_currentPage c1
                   (TodoApp.with_todoList list1 show1
                      (TodoApp.with_currentPage (Pagination.currentPage p0) app1))))
      as (c2 & list2 & show2 & -> & Hload & H2); [done |].
    exists c2, list2, show2. split; [done |]. split; [done |].
    cbn [TodoApp.filteredTodos TodoApp.with_currentPage TodoApp.with_todoList
         TodoApp.with_pagination TodoApp.with_filteredTodos app1
         TodoApp.currentPage TodoApp.todoList] in H1, H2.
    destruct filtered as [| todo rest].
    + destruct H1 as (-> & Hc1 & _), H2 as (-> & Hc2 & He2).
      split; [by left |]. split; [congruence | done].
    + by destruct H2 as (-> & Hc2 & He2).
  - cbn [mbind option_bind].
    erewrite (Hlast app1 (TodoApp.currentPage app) (TodoApp.todoList app)
                (TodoApp.noResults app)) by done.
    destruct (displayCurrentPageTodos_existing depth (Pagination.currentPage p0) app1)
      as (c2 & list2 & show2 & -> & Hload & H2); [done |].
    exists c2, list2, show2. split; [done |]. split; [done |].
    cbn [TodoApp.filteredTodos TodoApp.with_currentPage TodoApp.with_todoList
         TodoApp.with_pagination TodoApp.with_filteredTodos app1
         TodoApp.currentPage TodoApp.todoList] in H2.
    destruct filtered as [| todo rest]; [| by destruct H2 as (-> & Hc2 & He2)].
    destruct H2 as (-> & Hc2 & He2). split; [| done].
    right. split; [done |]. by apply Hp_none.
Qed.

Lemma fetchTodos_returns (options : TodoService.FetchOptions)
    (remote : ApiOutcome TodoService.Response) (s : State) :
  exists res s', TodoService.fetchTodos options remote s = (Return res, s').
Proof.
  destruct remote as [response | e].
  - destruct (TodoService._transformTodosResponse response s) as [[td | e] s1] eqn:Htd.
    + destruct (fetchTodos_resolved options response s s1 td Htd) as [s2 ->].
      by eexists _, _.
    + destruct (fetchTodos_fallback options (Resolved response) s) as [s' ->];
        [exists e; by rewrite Htd | by eexists _, _].
  - destruct (fetchTodos_fallback options (Rejected e) s I) as [s' ->].
    by eexists _, _.
Qed.

Lemma addTodo_returns (todoData : TodoService.TodoData)
    (remote : ApiOutcome (option RawTodo)) (s : State) :
  exists t s', TodoService.addTodo todoData remote s = (Return t, s').
Proof.
  assert (Hcase : (exists r i, remote = Resolved (Some r) /\ r_id r = Some i)
                  \/ match remote with
                     | Rejected _ | Resolved None => True
                     | Resolved (Some r) => r_id r = None
                     end).
  { destruct remote as [[r |] | e]; [| by right | by right].
    destruct (r_id r) as [i |] eqn:Hi; [left; by exists r, i | by right]. }
  destruct Hcase as [(r & i & -> & Hi) | Hfail].
  - destruct (addTodo_resolved todoData r i s Hi) as (t & s1 & _ & ->). by eexists _, _.
  - rewrite (addTodo_falls_back todoData remote s Hfail).
    destruct (addTodo_rejected todoData TypeError s) as (s' & -> & _). by eexists _, _.
Qed.

Lemma consistent_pages (app : TodoApp.t) :
  consistent app ->
  Pagination.totalPages (TodoApp.pagination app) = pagesOf (TodoApp.filteredTodos app).
Proof.
  intros (_ & Hipp & Htotal & _ & _).
  unfold Pagination.totalPages, pagesOf. by rewrite Hipp, Htotal.
Qed.

(** The paginator has been given a new total and has, or has not,
    signalled: the controller ends on the page of the paginator. *)
Lemma signalled_after_update (depth : nat) (n : Z) (r : bool) (app : TodoApp.t) :
  in_bounds (TodoApp.pagination app) ->
  TodoApp.currentPage app = Pagination.currentPage (TodoApp.pagination app) ->
  let p := (Pagination.updateTotalItems n r (TodoApp.pagination app)).1 in
  Pagination.currentPage p <= pagesOf (TodoApp.filteredTodos app) ->
  exists list show,
    TodoApp.signalled (S depth)
      (Pagination.updateTotalItems n r (TodoApp.pagination app)).2
      (TodoApp.with_pagination p app)
    = Some (TodoApp.with_currentPage (Pagination.currentPage p)
              (TodoApp.with_todoList list show (TodoApp.with_pagination p app)))
    /\ match TodoApp.filteredTodos app with
       | [] => True
       | _ :: _ =>
           list = TodoApp.todoList app
           \/ TodoList.container list
              = pageOf (Pagination.currentPage p) (TodoApp.filteredTodos app)
       end.
Proof.
  intros Hin Hcur p Hvalid.
  destruct (updateTotalItems_fields n r (TodoApp.pagination app) Hin)
    as (_ & _ & Hp_in & _ & Hp_some & Hp_none).
  fold p in Hp_in, Hp_some, Hp_none.
  destruct (Pagination.updateTotalItems n r (TodoApp.pagination app)).2 as [m |] eqn:Hsig;
    cbn [TodoApp.signalled].
  - rewrite (Hp_some m eq_refl). unfold TodoApp.onPageChange.
    destruct (displayCurrentPageTodos_existing depth (Pagination.currentPage p)
                (TodoApp.with_currentPage (Pagination.currentPage p)
                   (TodoApp.with_pagination p app)))
      as (c1 & list1 & show1 & -> & _ & H1).
    { split; [apply Hp_in | done]. }
    exists list1, show1.
    cbn [TodoApp.filteredTodos TodoApp.with_currentPage TodoApp.with_pagination
         TodoApp.currentPage] in H1.
    destruct (TodoApp.filteredTodos app) as [| todo rest].
    + by destruct H1 as (-> & _ & _).
    + destruct H1 as (-> & Hc1 & _). split; [done | by right].
  - exists (TodoApp.todoList app), (TodoApp.noResults app).
    rewrite (Hp_none eq_refl), <- Hcur. split; [by destruct app |].
    destruct (TodoApp.filteredTodos app); [done | by left].
Qed.

Lemma pagesOf_cons (todo : Todo) (l : list Todo) : pagesOf l <= pagesOf (todo :: l).
Proof.
  pose proof (pagesOf_spec l) as (H1 & H2 & _).
  pose proof (pagesOf_spec (todo :: l)) as (H3 & _ & H4 & _).
  cbn [length] in H4. unfold Config.itemsPerPage in *. lia.
Qed.

(** The checks of [_addTodoToCurrentList] on the new todo are the
    filters of [applyFilters]. *)
Lemma shouldDisplay_passesFilters (newTodo : Todo) (app : TodoApp.t) :
  TodoApp.shouldDisplay newTodo app = passesFilters app newTodo.
Proof.
  unfold TodoApp.shouldDisplay, passesFilters. cbv zeta.
  destruct (TodoApp.currentStatusFilter app),
           (String.eqb (TodoApp.currentSearchQuery app) ""),
           (TodoApp.currentFromDate app) as [f |],
           (TodoApp.currentToDate app) as [e |];
    cbn [isSome orb negb andb];
    repeat match goal with
           | |- context [includes ?a ?b] => destruct (includes a b); cbn [andb]
           end;
    destruct (createdAt newTodo) as [d |]; cbn [andb]; try reflexivity;
    repeat match goal with
           | |- context [?a <=? ?b] => destruct (a <=? b); cbn [andb]
           end;
    try reflexivity; by destruct (completed newTodo).
Qed.

(** Read the fields of a state that was built from another. *)
Ltac app_fields :=
  cbn [TodoApp.allTodos TodoApp.filteredTodos TodoApp.currentSearchQuery
       TodoApp.currentFromDate TodoApp.currentToDate TodoApp.currentStatusFilter
       TodoApp.totalItemsCount TodoApp.isLoading TodoApp.currentPage
       TodoApp.pagination TodoApp.todoList TodoApp.noResults
       TodoApp.with_allTodos TodoApp.with_filteredTodos TodoApp.with_filters
       TodoApp.with_totalItemsCount TodoApp.with_isLoading TodoApp.with_currentPage
       TodoApp.with_pagination TodoApp.with_todoList].

Lemma first_page_shown (l : list Todo) (app : TodoApp.t) :
  l <> [] ->
  TodoList.container
    (TodoApp.todoList (TodoApp.updateTodoListUI (slice 0 Config.itemsPerPage l) app))
  = pageOf 1 l.
Proof.
  intros Hl.
  change (slice 0 Config.itemsPerPage l) with (slice 0 (0 + Config.itemsPerPage) l).
  rewrite slice_page by done.
  change (take (Z.to_nat Config.itemsPerPage) (drop (Z.to_nat 0) l)) with (pageOf 1 l).
  assert (Hpage : pageOf 1 l <> []).
  { apply pageOf_nonempty; [done |]. pose proof (pagesOf_spec l). lia. }
  destruct (pageOf 1 l); [done | reflexivity].
Qed.

Lemma consistent_updateTodoListUI (todos : list Todo) (app : TodoApp.t) :
  consistent app -> consistent (TodoApp.updateTodoListUI todos app).
Proof. done. Qed.

(** [_addTodoToCurrentList] keeps the state consistent: it does to the
    filtered todos what [applyFilters] would do. *)
Lemma addTodoToCurrentList_result (depth : nat) (newTodo : Todo) (app : TodoApp.t) :
  consistent app ->
  exists app',
    TodoApp._addTodoToCurrentList (S depth) (Some newTodo) app = Some app'
    /\ consistent app'
    /\ TodoApp.allTodos app' = newTodo :: TodoApp.allTodos app
    /\ passesFilters app' = passesFilters app
    /\ TodoApp.currentPage app' = TodoApp.currentPage app
    /\ (if passesFilters app newTodo
        then TodoApp.filteredTodos app' = newTodo :: TodoApp.filteredTodos app
             /\ (TodoApp.currentPage app = 1 ->
                 TodoList.container (TodoApp.todoList app')
                 = pageOf 1 (newTodo :: TodoApp.filteredTodos app))
        else TodoApp.filteredTodos app' = TodoApp.filteredTodos app
             /\ TodoApp.todoList app' = TodoApp.todoList app).
Proof.
  intros Hcons. pose proof (consistent_pages app Hcons) as Hpages.
  destruct Hcons as (Hfilt & Hipp & Htotal & Hin & Hcur).
  unfold TodoApp._addTodoToCurrentList. cbv zeta.
  rewrite shouldDisplay_passesFilters.
  change (passesFilters (TodoApp.with_allTodos (newTodo :: TodoApp.allTodos app) app))
    with (passesFilters app).
  destruct (passesFilters app newTodo) eqn:Hpass.
  - set (app1 := TodoApp.with_filteredTodos _ _).
    assert (Hfields := updateTotalItems_fields
                         (Z.of_nat (length (TodoApp.filteredTodos app1))) false
                         (TodoApp.pagination app1) Hin).
    destruct Hfields as (Hp_ipp & Hp_total & Hp_in & Hp_cur & _ & _).
    assert (Hp_pages :
      Pagination.totalPages
        (Pagination.updateTotalItems (Z.of_nat (length (TodoApp.filteredTodos app1)))
           false (TodoApp.pagination app1)).1
      = pagesOf (TodoApp.filteredTodos app1)).
    { unfold Pagination.totalPages, pagesOf. rewrite Hp_ipp, Hp_total. by rewrite <- Hipp. }
    assert (Hsame :
      Pagination.currentPage
        (Pagination.updateTotalItems (Z.of_nat (length (TodoApp.filteredTodos app1)))
           false (TodoApp.pagination app1)).1
      = TodoApp.currentPage app).
    { rewrite Hp_cur, Hp_pages, Hcur.
      pose proof (pagesOf_cons newTodo (TodoApp.filteredTodos app)).
      unfold in_bounds in Hin. rewrite Hpages in Hin.
      change (TodoApp.pagination app1) with (TodoApp.pagination app).
      change (TodoApp.filteredTodos app1) with (newTodo :: TodoApp.filteredTodos app).
      lia. }
    destruct (signalled_after_update depth
                (Z.of_nat (length (TodoApp.filteredTodos app1))) false app1 Hin Hcur)
      as (list & show & Hsig & _).
    { rewrite <- Hp_pages. apply Hp_in. }
    destruct (Pagination.updateTotalItems _ false (TodoApp.pagination app1))
      as [p signal] eqn:Hup.
    cbn [fst snd] in *. rewrite Hsig. cbn [mbind option_bind].
    cbn [TodoApp.currentPage TodoApp.with_currentPage].
    rewrite Hsame.
    eexists. split; [reflexivity |].
    assert (Hcons' :
      forall list' show',
        consistent
          (TodoApp.with_currentPage (TodoApp.currentPage app)
             (TodoApp.with_todoList list' show' (TodoApp.with_pagination p app1)))).
    { intros list' show'. unfold consistent.
      change (passesFilters (TodoApp.with_currentPage _ _)) with (passesFilters app).
      subst app1. app_fields. cbn [List.filter]. rewrite Hpass.
      split; [by rewrite <- Hfilt |]. split; [by rewrite Hp_ipp |].
      split; [done |]. split; [done | by rewrite Hsame]. }
    destruct (Z.eqb_spec (TodoApp.currentPage app) 1) as [Hone | Hone].
    + split; [apply consistent_updateTodoListUI, Hcons' |]. split; [done |]. split; [done |].
      split; [done |]. split; [done |]. intros _.
      by apply (first_page_shown (newTodo :: TodoApp.filteredTodos app)).
    + split; [apply Hcons' |]. split; [done |]. split; [done |].
      split; [done |]. split; [done |]. by intros ?.
  - eexists. split; [reflexivity |]. split; [| done].
    unfold consistent.
    change (passesFilters (TodoApp.with_allTodos _ _)) with (passesFilters app).
    app_fields. cbn [List.filter]. by rewrite Hpass.
Qed.

Lemma applyFilters_consistent (depth : nat) (resetPage : bool) (app : TodoApp.t) :
  Pagination.itemsPerPage (TodoApp.pagination app) = Config.itemsPerPage ->
  in_bounds (TodoApp.pagination app) ->
  TodoApp.currentPage app = Pagination.currentPage (TodoApp.pagination app) ->
  exists app',
    TodoApp.applyFilters (S depth) resetPage app = Some app'
    /\ consistent app'
    /\ TodoApp.allTodos app' = TodoApp.allTodos app
    /\ passesFilters app' = passesFilters app
    /\ TodoApp.totalItemsCount app' = TodoApp.totalItemsCount app
    /\ TodoApp.isLoading app' = TodoApp.isLoading app
    /\ TodoList.loadingState (TodoApp.todoList app') = false
    /\ TodoApp.currentPage app'
       = (if resetPage then 1
          else Z.min (TodoApp.currentPage app) (pagesOf (TodoApp.filteredTodos app')))
    /\ match TodoApp.filteredTodos app' with
       | [] =>
           TodoList.container (TodoApp.todoList app')
           = TodoList.container (TodoApp.todoList app)
           /\ is_Some (TodoList.emptyState (TodoApp.todoList app'))
       | _ :: _ =>
           TodoList.container (TodoApp.todoList app')
           = pageOf (TodoApp.currentPage app') (TodoApp.filteredTodos app')
           /\ TodoList.emptyState (TodoApp.todoList app') = None
       end.
Proof.
  intros Hipp Hin Hcur.
  destruct (applyFilters_result depth resetPage app Hipp Hin)
    as (c & list & show & -> & Hload & Hres).
  destruct (updateTotalItems_fields
              (Z.of_nat (length (List.filter (passesFilters app) (TodoApp.allTodos app))))
              resetPage (TodoApp.pagination app) Hin)
    as (Hp_ipp & Hp_total & Hp_in & Hp_cur & _ & _).
  eexists. split; [reflexivity |].
  assert (Hc : c = Pagination.currentPage
                     (Pagination.updateTotalItems
                        (Z.of_nat (length (List.filter (passesFilters app)
                                             (TodoApp.allTodos app))))
                        resetPage (TodoApp.pagination app)).1).
  { destruct (List.filter (passesFilters app) (TodoApp.allTodos app)).
    - destruct Hres as ([-> | [-> Hsame]] & _); [done | by rewrite Hsame].
    - by destruct Hres as (-> & _). }
  split; [| split; [done |]; split; [done |]; split; [done |]; split; [done |];
            split; [done |]; split].
  - unfold consistent. app_fields.
    split; [done |]. split; [by rewrite Hp_ipp |].
    split; [exact Hp_total |]. split; [exact Hp_in | exact Hc].
  - app_fields. rewrite Hc, Hp_cur. destruct resetPage; [done |].
    rewrite Hcur. f_equal. unfold Pagination.totalPages, pagesOf.
    by rewrite Hp_ipp, Hp_total, Hipp.
  - app_fields.
    destruct (List.filter (passesFilters app) (TodoApp.allTodos app)).
    + by destruct Hres as (_ & ? & ?).
    + by destruct Hres as (-> & ? & ?).
Qed.

Lemma click_fields (v : Pagination.PageValue) (p : Pagination.t) :
  Pagination.itemsPerPage (Pagination.click v p).1 = Pagination.itemsPerPage p
  /\ Pagination.totalItems (Pagination.click v p).1 = Pagination.totalItems p
  /\ match (Pagination.click v p).2 with
     | Some n => Pagination.currentPage (Pagination.click v p).1 = n
     | None => (Pagination.click v p).1 = p
     end.
Proof.
  assert (Hgo : forall n,
            Pagination.itemsPerPage (Pagination.goToPage n p).1 = Pagination.itemsPerPage p
            /\ Pagination.totalItems (Pagination.goToPage n p).1 = Pagination.totalItems p
            /\ match (Pagination.goToPage n p).2 with
               | Some m => Pagination.currentPage (Pagination.goToPage n p).1 = m
               | None => (Pagination.goToPage n p).1 = p
               end).
  { intros n. unfold Pagination.goToPage. by destruct (_ || _). }
  destruct v; cbn [Pagination.click]; [| | apply Hgo].
  - destruct (1 <? Pagination.currentPage p); [apply Hgo | done].
  - destruct (Pagination.currentPage p <? Pagination.totalPages p); [apply Hgo | done].
Qed.

(** [loadTodos] from a consistent state. *)
Lemma loadTodos_result (depth : nat) (errorMessage : Exn -> string) (page : Z)
    (remote : ApiOutcome TodoService.Response) (app : TodoApp.t) (s : State) :
  consistent app ->
  exists res app',
    TodoService.fetchTodos
      {| TodoService.page := Some page;
         TodoService.opt_limit := Some Config.itemsPerPage |} remote s
    = (Return res, (TodoService.fetchTodos
                      {| TodoService.page := Some page;
                         TodoService.opt_limit := Some Config.itemsPerPage |}
                      remote s).2)
    /\ TodoApp.loadTodos (S depth) errorMessage page remote app s
       = (Return (Some app'),
          (TodoService.fetchTodos
             {| TodoService.page := Some page;
                TodoService.opt_limit := Some Config.itemsPerPage |} remote s).2)
    /\ consistent app'
    /\ TodoApp.allTodos app' = TodoService.todos res
    /\ TodoApp.totalItemsCount app'
       = TodoService.total (TodoService.pagination res)
    /\ passesFilters app' = passesFilters app
    /\ TodoApp.isLoading app' = false
    /\ TodoList.loadingState (TodoApp.todoList app') = false.
Proof.
  intros Hcons. pose proof (consistent_pages app Hcons) as Hpages.
  destruct Hcons as (Hfilt & Hipp & Htotal & Hin & Hcur).
  destruct (fetchTodos_returns
              {| TodoService.page := Some page;
                 TodoService.opt_limit := Some Config.itemsPerPage |} remote s)
    as (res & s' & Hfetch).
  exists res. unfold TodoApp.loadTodos. cbv zeta.
  unfold try_catch, bind at 1. rewrite Hfetch. cbn [snd].
  set (app0 := TodoApp.with_totalItemsCount _ _).
  assert (Hin0 : in_bounds (TodoApp.pagination app0)) by done.
  assert (Hcur0 : TodoApp.currentPage app0
                  = Pagination.currentPage (TodoApp.pagination app0)) by done.
  destruct (updateTotalItems_fields (TodoApp.totalItemsCount app0) false
              (TodoApp.pagination app0) Hin0)
    as (Hp_ipp & Hp_total & Hp_in & Hp_cur & _ & _).
  destruct (signalled_after_update depth (TodoApp.totalItemsCount app0) false app0
              Hin0 Hcur0)
    as (list & show & Hsig & _).
  { rewrite Hp_cur. unfold in_bounds in Hin. rewrite Hpages in Hin.
    change (TodoApp.pagination app0) with (TodoApp.pagination app).
    change (TodoApp.filteredTodos app0) with (TodoApp.filteredTodos app). lia. }
  destruct (Pagination.updateTotalItems (TodoApp.totalItemsCount app0) false
              (TodoApp.pagination app0)) as [p signal] eqn:Hup.
  cbn [fst snd] in *. unfold ret. rewrite Hsig. cbn [mbind option_bind].
  destruct (applyFilters_consistent depth false
              (TodoApp.with_currentPage (Pagination.currentPage p)
                 (TodoApp.with_todoList list show (TodoApp.with_pagination p app0))))
    as (app' & -> & Hcons' & Hall & Hpass & Hcount & Hloading & Hstate & _);
    [app_fields; rewrite Hp_ipp; exact Hipp | done | done |].
  cbn [mbind option_bind]. eexists. split; [reflexivity |]. split; [reflexivity |].
  split; [done |]. split; [done |]. split; [done |]. split; [done |]. done.
Qed.

Lemma constructor_consistent (list : TodoList.t) : consistent (TodoApp.constructor list).
Proof.
  unfold consistent, TodoApp.constructor. app_fields.
  split; [done |]. split; [done |]. split; [done |].
  split; [apply constructor_in_bounds | done].
Qed.

(** Every listener takes a consistent state to a consistent state, and
    returns. *)
Lemma handle_consistent (depth : nat) (errorMessage : Exn -> string) (event : Event)
    (app : TodoApp.t) (s : State) :
  consistent app ->
  exists app' s',
    handle (S depth) errorMessage event app s = (Return (Some app'), s')
    /\ consistent app'.
Proof.
  intros Hcons. pose proof Hcons as (Hfilt & Hipp & Htotal & Hin & Hcur).
  assert (Hfilters : forall resetPage query fromDate toDate status list show,
            exists app',
              TodoApp.applyFilters (S depth) resetPage
                (TodoApp.with_filters query fromDate toDate status
                   (TodoApp.with_todoList list show app)) = Some app'
              /\ consistent app').
  { intros resetPage query fromDate toDate status list show.
    destruct (applyFilters_consistent depth resetPage
                (TodoApp.with_filters query fromDate toDate status
                   (TodoApp.with_todoList list show app)) Hipp Hin Hcur)
      as (app' & Happ & Hcons' & _).
    by exists app'. }
  destruct event as [query | fromDate toDate | status | | | pageValue
                     | todoData remote | page remote]; cbn [handle]; unfold ret.
  - unfold TodoApp.onSearch.
    destruct (negb _); [| by eexists _, _].
    destruct (Hfilters true query (TodoApp.currentFromDate app) (TodoApp.currentToDate app)
                (TodoApp.currentStatusFilter app) (TodoApp.todoList app)
                (TodoApp.noResults app)) as (app' & Happ & Hcons').
    exists app', s. split; [| done]. f_equal. rewrite <- Happ. by destruct app.
  - unfold TodoApp.onFilter.
    destruct (_ || _); [| by eexists _, _].
    destruct (Hfilters true (TodoApp.currentSearchQuery app) fromDate toDate
                (TodoApp.currentStatusFilter app) (TodoApp.todoList app)
                (TodoApp.noResults app)) as (app' & Happ & Hcons').
    exists app', s. split; [| done]. f_equal. rewrite <- Happ. by destruct app.
  - unfold TodoApp.view.
    destruct (Hfilters true (TodoApp.currentSearchQuery app) (TodoApp.currentFromDate app)
                (TodoApp.currentToDate app) status (TodoApp.todoList app)
                (TodoApp.noResults app)) as (app' & Happ & Hcons').
    exists app', s. split; [| done]. f_equal. rewrite <- Happ. by destruct app.
  - unfold TodoApp.clearAllFilters.
    destruct (Hfilters true "" None None TodoApp.status_all (TodoApp.todoList app) false)
      as (app' & Happ & Hcons').
    exists app', s. by rewrite Happ.
  - destruct (applyFilters_consistent depth true app Hipp Hin Hcur)
      as (app' & Happ & Hcons' & _).
    exists app', s. by rewrite Happ.
  - destruct (click_fields pageValue (TodoApp.pagination app)) as (Hc_ipp & Hc_total & Hc).
    pose proof (click_in_bounds pageValue (TodoApp.pagination app) Hin) as Hc_in.
    destruct (Pagination.click pageValue (TodoApp.pagination app)) as [p signal].
    cbn [fst snd] in *. destruct signal as [n |]; cbn [TodoApp.signalled].
    + unfold TodoApp.onPageChange.
      destruct (displayCurrentPageTodos_existing depth n
                  (TodoApp.with_currentPage n (TodoApp.with_pagination p app)))
        as (c & list & show & -> & _ & Hres).
      { app_fields. unfold in_bounds in Hc_in. rewrite Hc in Hc_in.
        unfold Pagination.totalPages in Hc_in. rewrite Hc_ipp, Hc_total in Hc_in.
        unfold pagesOf. by rewrite <- Hipp, <- Htotal. }
      eexists _, _. split; [reflexivity |].
      assert (c = n) as ->.
      { revert Hres. app_fields. destruct (TodoApp.filteredTodos app); by intros (-> & _). }
      unfold consistent. app_fields.
      split; [done |]. split; [by rewrite Hc_ipp |]. split; [by rewrite Hc_total |].
      split; [done | by rewrite Hc].
    + subst p. exists app, s. split; [| done]. by destruct app.
  - unfold TodoApp.onSubmit, try_catch, bind.
    destruct (addTodo_returns todoData remote s) as (t & s' & ->).
    destruct (addTodoToCurrentList_result depth t app Hcons) as (app' & Happ & Hcons' & _).
    exists app', s'. by rewrite Happ.
  - destruct (loadTodos_result depth errorMessage page remote app s Hcons)
      as (res & app' & _ & Happ & Hcons' & _).
    by eexists _, _.
Qed.

(** X26.  [applyFilters] returns, from a state whose paginator has ten
    todos to a page and is on a page that exists, with the same page in
    the controller.  It leaves the todos and the filters alone; the
    filtered todos become the todos that pass the search, the date range
    and the status, in their order; the paginator counts them; the
    current page is 1 after a reset and otherwise the page of before or
    the last page, if that is earlier; the list shows the todos of the
    current page, or, when no todo passes, its empty state over the
    container that it had. *)
Theorem X26_applyFilters_filters_and_shows_the_page :
  forall (depth : nat) (resetPage : bool) (app : TodoApp.t),
    Pagination.itemsPerPage (TodoApp.pagination app) = Config.itemsPerPage ->
    in_bounds (TodoApp.pagination app) ->
    TodoApp.currentPage app = Pagination.currentPage (TodoApp.pagination app) ->
    exists app',
      TodoApp.applyFilters (S depth) resetPage app = Some app'
      /\ TodoApp.allTodos app' = TodoApp.allTodos app
      /\ passesFilters app' = passesFilters app
      /\ TodoApp.filteredTodos app'
         = List.filter (passesFilters app) (TodoApp.allTodos app)
      /\ (forall todo, todo ∈ TodoApp.filteredTodos app'
                       <-> todo ∈ TodoApp.allTodos app /\ passesFilters app todo = true)
      /\ Pagination.totalItems (TodoApp.pagination app')
         = Z.of_nat (length (TodoApp.filteredTodos app'))
      /\ in_bounds (TodoApp.pagination app')
      /\ Pagination.currentPage (TodoApp.pagination app') = TodoApp.currentPage app'
      /\ TodoApp.currentPage app'
         = (if resetPage then 1
            else Z.min (TodoApp.currentPage app) (pagesOf (TodoApp.filteredTodos app')))
      /\ match TodoApp.filteredTodos app' with
         | [] =>
             TodoList.container (TodoApp.todoList app')
             = TodoList.container (TodoApp.todoList app)
             /\ is_Some (TodoList.emptyState (TodoApp.todoList app'))
         | _ :: _ =>
             TodoList.container (TodoApp.todoList app')
             = pageOf (TodoApp.currentPage app') (TodoApp.filteredTodos app')
             /\ TodoList.emptyState (TodoApp.todoList app') = None
         end.
Proof.
  intros depth resetPage app Hipp Hin Hcur.
  destruct (applyFilters_consistent depth resetPage app Hipp Hin Hcur)
    as (app' & Happ & (Hf & _ & Htotal & Hin' & Hcur') & Hall & Hpass & _ & _ & _
        & Hpage & Hshown).
  exists app'. split; [done |]. split; [done |]. split; [done |].
  rewrite Hpass, Hall in Hf.
  split; [done |]. split.
  { intros todo. rewrite Hf, list_elem_of_In, List.filter_In, <- list_elem_of_In. done. }
  split; [done |]. split; [done |]. split; [done |]. split; [done |]. done.
Qed.

Lemma X26_applyFilters_filters_and_shows_the_page_witness :
  exists app',
    TodoApp.applyFilters 1 true app_twelve = Some app'
    /\ TodoList.container (TodoApp.todoList app') = take 10 twelve_todos.
Proof.
  destruct (X26_applyFilters_filters_and_shows_the_page 0 true app_twelve)
    as (app' & Happ & _ & _ & Hf & _ & _ & _ & _ & Hpage & Hshown).
  - reflexivity.
  - vm_compute. split; congruence.
  - reflexivity.
  - exists app'. split; [done |].
    rewrite Hf, Hpage in Hshown. vm_compute in Hshown. vm_compute.
    by destruct Hshown as [Hs _].
Defined.

(** The pages of a list, one after the other, are the list. *)
Lemma pages_concat (l : list Todo) :
  concat ((fun n => pageOf n l) <$> seqZ 1 (pagesOf l)) = l.
Proof.
  assert (Hm : forall m : nat,
            concat ((fun n => pageOf n l) <$> seqZ 1 (Z.of_nat m)) = take (m * 10) l).
  { induction m as [| m IH]; [done |].
    rewrite seqZ_S, fmap_app, concat_app, IH. cbn [fmap list_fmap concat].
    rewrite app_nil_r. unfold pageOf, Config.itemsPerPage.
    replace (Z.to_nat ((1 + Z.of_nat m - 1) * 10)) with (m * 10)%nat by lia.
    rewrite take_take_drop. f_equal. lia. }
  pose proof (pagesOf_spec l) as (H1 & _ & H2 & _).
  rewrite <- (Z2Nat.id (pagesOf l)) by lia. rewrite Hm.
  apply take_ge. unfold Config.itemsPerPage in H2. lia.
Qed.

(** A click on the button of another page that exists. *)
Lemma click_page_result (depth : nat) (errorMessage : Exn -> string) (n : Z)
    (app : TodoApp.t) (s : State) :
  consistent app ->
  1 <= n <= pagesOf (TodoApp.filteredTodos app) ->
  n <> TodoApp.currentPage app ->
  exists app',
    handle (S depth) errorMessage (Click (Pagination.page n)) app s
    = (Return (Some app'), s)
    /\ consistent app'
    /\ TodoApp.currentPage app' = n
    /\ TodoApp.allTodos app' = TodoApp.allTodos app
    /\ TodoApp.filteredTodos app' = TodoApp.filteredTodos app
    /\ passesFilters app' = passesFilters app
    /\ TodoList.container (TodoApp.todoList app') = pageOf n (TodoApp.filteredTodos app).
Proof.
  intros Hcons Hn Hne. pose proof (consistent_pages app Hcons) as Hpages.
  destruct Hcons as (Hfilt & Hipp & Htotal & Hin & Hcur).
  cbn [handle Pagination.click].
  rewrite goToPage_moves by (rewrite ?Hpages, <- ?Hcur; done).
  cbn [TodoApp.signalled]. unfold TodoApp.onPageChange, ret.
  destruct (displayCurrentPageTodos_existing depth n
              (TodoApp.with_currentPage n
                 (TodoApp.with_pagination
                    {| Pagination.itemsPerPage :=
                         Pagination.itemsPerPage (TodoApp.pagination app);
                       Pagination.totalItems :=
                         Pagination.totalItems (TodoApp.pagination app);
                       Pagination.currentPage := n;
                       Pagination.previousPage :=
                         Pagination.currentPage (TodoApp.pagination app) |} app)))
    as (c & list & show & -> & _ & Hres); [done |].
  revert Hres. app_fields.
  destruct (TodoApp.filteredTodos app) as [| todo rest] eqn:Hf.
  { unfold in_bounds in Hin. rewrite Hpages in Hin.
    change (pagesOf []) with 1 in Hin, Hn. lia. }
  intros (-> & Hshown & _).
  eexists. split; [reflexivity |]. unfold consistent. app_fields.
  rewrite <- Hf in Hn, Hshown, Hfilt, Htotal. split.
  - split; [exact Hfilt |]. split; [exact Hipp |]. split; [exact Htotal |].
    split; [| reflexivity].
    unfold in_bounds, Pagination.totalPages.
    cbn [Pagination.currentPage Pagination.totalItems Pagination.itemsPerPage].
    rewrite Hipp, Htotal. exact Hn.
  - rewrite <- Hf. by repeat split.
Qed.

(** X27.  Paging through the filtered todos of a consistent state: a
    click on the button of another page that exists shows the todos of
    that page and makes it the current page, without changing the todos
    or the filters; the pages hold ten todos each, but for the last; and
    the pages from the first to the last, one after the other, are the
    filtered todos: every todo that passes the filters is on one page. *)
Theorem X27_paging_shows_every_filtered_todo :
  forall (depth : nat) (errorMessage : Exn -> string) (app : TodoApp.t) (s : State),
    consistent app ->
    let pages := Pagination.totalPages (TodoApp.pagination app) in
    (forall n, 1 <= n <= pages -> n <> TodoApp.currentPage app ->
       exists app',
         handle (S depth) errorMessage (Click (Pagination.page n)) app s
         = (Return (Some app'), s)
         /\ consistent app'
         /\ TodoApp.currentPage app' = n
         /\ TodoApp.allTodos app' = TodoApp.allTodos app
         /\ TodoApp.filteredTodos app' = TodoApp.filteredTodos app
         /\ TodoList.container (TodoApp.todoList app')
            = pageOf n (TodoApp.filteredTodos app))
    /\ (forall n, 1 <= n < pages ->
          length (pageOf n (TodoApp.filteredTodos app)) = 10%nat)
    /\ concat ((fun n => pageOf n (TodoApp.filteredTodos app)) <$> seqZ 1 pages)
       = List.filter (passesFilters app) (TodoApp.allTodos app).
Proof.
  intros depth errorMessage app s Hcons pages. subst pages.
  rewrite (consistent_pages app Hcons). split; [| split].
  - intros n Hn Hne.
    destruct (click_page_result depth errorMessage n app s Hcons Hn Hne)
      as (app' & ? & ? & ? & ? & ? & ? & ?).
    by exists app'.
  - intros n Hn. by apply pageOf_full.
  - rewrite pages_concat. apply Hcons.
Qed.

Lemma X27_paging_shows_every_filtered_todo_witness :
  exists app',
    handle 1 (fun _ => "Unable to load todos. Please try again later.")
      (Click (Pagination.page 2)) app_twelve (state_with empty_storage)
    = (Return (Some app'), state_with empty_storage)
    /\ TodoList.container (TodoApp.todoList app') = drop 10 twelve_todos.
Proof.
  assert (Hcons : consistent app_twelve).
  { unfold consistent. split; [reflexivity |]. split; [reflexivity |].
    split; [reflexivity |]. split; [| reflexivity]. vm_compute. split; congruence. }
  destruct (X27_paging_shows_every_filtered_todo 0
              (fun _ => "Unable to load todos. Please try again later.")
              app_twelve (state_with empty_storage) Hcons) as (Hclick & _ & _).
  destruct (Hclick 2) as (app' & Happ & _ & _ & _ & _ & Hshown).
  - vm_compute. split; congruence.
  - vm_compute. congruence.
  - exists app'. split; [done |]. by rewrite Hshown.
Defined.

(** X28.  [_addTodoToCurrentList] keeps a consistent state consistent,
    with checks of its own that agree with the filters of
    [applyFilters]: the new todo is put first among the todos, and the
    filtered todos are again the todos that pass the filters, the new
    todo first among them if it passes; the paginator counts them and
    the current page stays.  When
    the new todo passes and the current page is the first one, the list
    shows the first page, with the new todo on top; when it does not
    pass, the list is left as it is.  Without a todo nothing happens. *)
Theorem X28_addTodoToCurrentList_agrees_with_the_filters :
  forall (depth : nat) (newTodo : Todo) (app : TodoApp.t),
    consistent app ->
    exists app',
      TodoApp._addTodoToCurrentList (S depth) (Some newTodo) app = Some app'
      /\ TodoApp.allTodos app' = newTodo :: TodoApp.allTodos app
      /\ passesFilters app' = passesFilters app
      /\ TodoApp.filteredTodos app'
         = List.filter (passesFilters app) (newTodo :: TodoApp.allTodos app)
      /\ Pagination.totalItems (TodoApp.pagination app')
         = Z.of_nat (length (TodoApp.filteredTodos app'))
      /\ in_bounds (TodoApp.pagination app')
      /\ Pagination.currentPage (TodoApp.pagination app') = TodoApp.currentPage app
      /\ TodoApp.currentPage app' = TodoApp.currentPage app
      /\ (if passesFilters app newTodo
          then TodoApp.filteredTodos app' = newTodo :: TodoApp.filteredTodos app
               /\ (TodoApp.currentPage app = 1 ->
                   exists rest,
                     TodoList.container (TodoApp.todoList app') = newTodo :: rest
                     /\ newTodo :: rest = pageOf 1 (TodoApp.filteredTodos app'))
          else TodoApp.filteredTodos app' = TodoApp.filteredTodos app
               /\ TodoApp.todoList app' = TodoApp.todoList app)
      /\ TodoApp._addTodoToCurrentList (S depth) None app = Some app.
Proof.
  intros depth newTodo app Hcons.
  destruct (addTodoToCurrentList_result depth newTodo app Hcons)
    as (app' & Happ & (Hf & _ & Htotal & Hin & Hcur) & Hall & Hpass & Hpage & Hcase).
  exists app'. split; [done |]. split; [done |]. split; [done |].
  split; [by rewrite Hf, Hpass, Hall |]. split; [done |]. split; [done |].
  split; [by rewrite <- Hcur |]. split; [done |]. split; [| done].
  destruct (passesFilters app newTodo); [| done].
  destruct Hcase as [Hfiltered Hshown]. split; [done |].
  intros Hone. rewrite (Hshown Hone), Hfiltered.
  exists (take 9 (TodoApp.filteredTodos app)). by split.
Qed.

Lemma X28_addTodoToCurrentList_agrees_with_the_filters_witness :
  exists app',
    TodoApp._addTodoToCurrentList 1 (Some (local_todo 1700000000000)) app_twelve
    = Some app'
    /\ TodoApp.filteredTodos app' = local_todo 1700000000000 :: twelve_todos.
Proof.
  assert (Hcons : consistent app_twelve).
  { unfold consistent. split; [reflexivity |]. split; [reflexivity |].
    split; [reflexivity |]. split; [| reflexivity]. vm_compute. split; congruence. }
  destruct (X28_addTodoToCurrentList_agrees_with_the_filters 0
              (local_todo 1700000000000) app_twelve Hcons)
    as (app' & Happ & _ & _ & Hf & _).
  exists app'. split; [done |]. by rewrite Hf.
Defined.

(** X29.  [loadTodos] from a consistent state always returns, whatever
    the request settles to: the todos of the controller are then the
    todos that [fetchTodos] returned and the count is the total that it
    reported; the filters are as before and the filtered todos are the
    fetched todos that pass them; the paginator counts the filtered
    todos, not the reported total; the controller is no longer loading
    and the list no longer shows its loading state; the state is
    consistent; and the store is as [fetchTodos] left it. *)
Theorem X29_loadTodos_ends_consistent :
  forall (depth : nat) (errorMessage : Exn -> string) (page : Z)
         (remote : ApiOutcome TodoService.Response) (app : TodoApp.t) (s : State),
    consistent app ->
    let fetched :=
      TodoService.fetchTodos
        {| TodoService.page := Some page;
           TodoService.opt_limit := Some Config.itemsPerPage |} remote s in
    exists res app',
      fetched.1 = Return res
      /\ TodoApp.loadTodos (S depth) errorMessage page remote app s
         = (Return (Some app'), fetched.2)
      /\ TodoApp.allTodos app' = TodoService.todos res
      /\ TodoApp.totalItemsCount app' = TodoService.total (TodoService.pagination res)
      /\ passesFilters app' = passesFilters app
      /\ TodoApp.filteredTodos app'
         = List.filter (passesFilters app) (TodoService.todos res)
      /\ Pagination.totalItems (TodoApp.pagination app')
         = Z.of_nat (length (TodoApp.filteredTodos app'))
      /\ TodoApp.isLoading app' = false
      /\ TodoList.loadingState (TodoApp.todoList app') = false
      /\ consistent app'.
Proof.
  intros depth errorMessage page remote app s Hcons fetched.
  destruct (loadTodos_result depth errorMessage page remote app s Hcons)
    as (res & app' & Hfetch & Happ & Hcons' & Hall & Hcount & Hpass & Hloading & Hstate).
  exists res, app'. subst fetched.
  split; [by rewrite Hfetch |]. split; [done |]. split; [done |]. split; [done |].
  split; [done |]. pose proof Hcons' as (Hf & Hipp & Htotal & Hin & Hcur).
  split; [by rewrite Hf, Hpass, Hall |]. split; [done |]. split; [done |].
  split; [done |]. done.
Qed.

Lemma X29_loadTodos_ends_consistent_witness :
  exists app' s',
    TodoApp.loadTodos 1 (fun _ => "Unable to load todos. Please try again later.") 1
      (Rejected OFFLINE) app_twelve (state_with empty_storage)
    = (Return (Some app'), s')
    /\ TodoApp.isLoading app' = false.
Proof.
  assert (Hcons : consistent app_twelve).
  { unfold consistent. split; [reflexivity |]. split; [reflexivity |].
    split; [reflexivity |]. split; [| reflexivity]. vm_compute. split; congruence. }
  destruct (X29_loadTodos_ends_consistent 0
              (fun _ => "Unable to load todos. Please try again later.") 1
              (Rejected OFFLINE) app_twelve (state_with empty_storage) Hcons)
    as (res & app' & _ & Happ & _ & _ & _ & _ & _ & Hloading & _).
  eexists app', _. split; [exact Happ | exact Hloading].
Defined.

Lemma session_consistent (depth : nat) (errorMessage : Exn -> string)
    (events : list Event) :
  forall (app : TodoApp.t) (s : State),
    consistent app ->
    exists app' s',
      session (S depth) errorMessage events app s = (Return (Some app'), s')
      /\ consistent app'.
Proof.
  induction events as [| event events IH]; intros app s Hcons.
  - by exists app, s.
  - cbn [session]. unfold bind.
    destruct (handle_consistent depth errorMessage event app s Hcons)
      as (app1 & s1 & -> & Hcons1).
    by apply IH.
Qed.

(** X30.  A session of the controller, from its constructor on, through
    any events of the user and any answers of the network: searches,
    date ranges, view options, clearing the filters, clicks on the
    buttons of the paginator, submitted todos and loads.  Every listener
    returns, no
    error escapes, and the state stays consistent: the filtered todos
    are the todos that pass the filters, the paginator counts them, and
    the controller and the paginator are on the same page, which
    exists. *)
Theorem X30_session_stays_consistent :
  forall (depth : nat) (errorMessage : Exn -> string) (events : list Event)
         (list : TodoList.t) (s : State),
    exists app' s',
      session (S depth) errorMessage events (TodoApp.constructor list) s
      = (Return (Some app'), s')
      /\ TodoApp.filteredTodos app'
         = List.filter (passesFilters app') (TodoApp.allTodos app')
      /\ Pagination.totalItems (TodoApp.pagination app')
         = Z.of_nat (length (TodoApp.filteredTodos app'))
      /\ Pagination.itemsPerPage (TodoApp.pagination app') = 10
      /\ 1 <= TodoApp.currentPage app'
            <= Pagination.totalPages (TodoApp.pagination app')
      /\ Pagination.currentPage (TodoApp.pagination app') = TodoApp.currentPage app'.
Proof.
  intros depth errorMessage events list s.
  destruct (session_consistent depth errorMessage events (TodoApp.constructor list) s
              (constructor_consistent list))
    as (app' & s' & Hrun & Hf & Hipp & Htotal & Hin & Hcur).
  exists app', s'. split; [done |]. split; [done |]. split; [done |].
  split; [done |]. split; [by rewrite Hcur | done].
Qed.
